(** * 6GRescueServices: the MLflow-to-Jetson file-transfer plugin

    A shallow embedding of [mlflow_plugin/jetson_deployment]:
    - [config.py]: [JetsonConfig], [validate], [to_dict], [__str__];
    - [ssh_manager.py]: [SSHManager.connect], [execute_command],
      [transfer_file], [close];
    - [simple_package_builder.py]: [SimplePackageBuilder];
    - [simple_plugin.py]: [SimpleJetsonDeploymentTarget].

    Conventions.
    - A Python [str] is a Rocq [string] holding its UTF-8 encoding; raw
      output of a remote command is a [list byte].
    - Code that can raise lives in the monad [M]: state passing plus a
      [result] that is either [Ok v] or [Raise e].  Every exception of the
      model is an instance of Python's [Exception], so [except Exception]
      and a bare [except] catch the same things.
    - paramiko, scp, mlflow, tempfile, tarfile and the local file system are
      not part of the repository.  They are the fields of the class [Env]:
      the program is written against an arbitrary environment, and the
      theorems hold for every one of them.  Module [Sim] gives one
      executable environment (a scripted device) on which concrete runs are
      evaluated.
    - [logger] calls have no influence on control flow and are left out. *)

From Stdlib Require Import ZArith List String Ascii Bool Lia DecimalString QArith_base Sorted.
From stdpp Require Import gmap strings.

Local Open Scope Z_scope.

(** ** Python strings *)

Module Py.

Definition dquote : string := String (ascii_of_nat 34) EmptyString.
Definition squote : string := String (ascii_of_nat 39) EmptyString.
Definition backslash : string := String (ascii_of_nat 92) EmptyString.
Definition newline : ascii := ascii_of_nat 10.

(** Truth value of a [str] and of an [Optional[str]]. *)
Definition truthy (s : string) : bool :=
  match s with EmptyString => false | String _ _ => true end.

Definition truthy_opt (o : option string) : bool :=
  match o with None => false | Some s => truthy s end.

(** [bytes.decode('utf-8')] (strict): the well-formed byte sequences of the
    Unicode standard, table 3-7; no overlong forms, no surrogates, nothing
    above U+10FFFF. *)
Definition between (lo hi : N) (b : Byte.byte) : bool :=
  ((lo <=? Byte.to_N b) && (Byte.to_N b <=? hi))%N.

Definition cont (b : Byte.byte) : bool := between 0x80 0xBF b.

Definition lead3 (b0 b1 : Byte.byte) : bool :=
  between 0xE0 0xE0 b0 && between 0xA0 0xBF b1
  || between 0xE1 0xEC b0 && cont b1
  || between 0xED 0xED b0 && between 0x80 0x9F b1
  || between 0xEE 0xEF b0 && cont b1.

Definition lead4 (b0 b1 : Byte.byte) : bool :=
  between 0xF0 0xF0 b0 && between 0x90 0xBF b1
  || between 0xF1 0xF3 b0 && cont b1
  || between 0xF4 0xF4 b0 && between 0x80 0x8F b1.

Fixpoint utf8_valid (bs : list Byte.byte) : bool :=
  match bs with
  | [] => true
  | b0 :: r0 =>
    if between 0x00 0x7F b0 then utf8_valid r0
    else match r0 with
         | [] => false
         | b1 :: r1 =>
           if between 0xC2 0xDF b0 && cont b1 then utf8_valid r1
           else match r1 with
                | [] => false
                | b2 :: r2 =>
                  if lead3 b0 b1 && cont b2 then utf8_valid r2
                  else match r2 with
                       | [] => false
                       | b3 :: r3 =>
                         lead4 b0 b1 && cont b2 && cont b3 && utf8_valid r3
                       end
                end
         end
  end.

Definition decode_utf8 (bs : list Byte.byte) : option string :=
  if utf8_valid bs then Some (string_of_list_byte bs) else None.

(** [str.strip()]: removes the characters for which [str.isspace] holds at
    both ends.  They are U+0009..000D, U+001C..0020, U+0085, U+00A0, U+1680,
    U+2000..200A, U+2028, U+2029, U+202F, U+205F and U+3000, here in their
    UTF-8 encodings of one, two and three bytes. *)
Definition code (c : ascii) : N := N_of_ascii c.

Definition ws1 (c : ascii) : bool :=
  ((9 <=? code c) && (code c <=? 13) || (28 <=? code c) && (code c <=? 32))%N.

Definition ws2 (c1 c2 : ascii) : bool :=
  ((code c1 =? 0xC2) && ((code c2 =? 0x85) || (code c2 =? 0xA0)))%N.

Definition ws3 (c1 c2 c3 : ascii) : bool :=
  ((code c1 =? 0xE1) && (code c2 =? 0x9A) && (code c3 =? 0x80)
   || (code c1 =? 0xE2) && (code c2 =? 0x80)
      && ((0x80 <=? code c3) && (code c3 <=? 0x8A)
          || (code c3 =? 0xA8) || (code c3 =? 0xA9) || (code c3 =? 0xAF))
   || (code c1 =? 0xE2) && (code c2 =? 0x81) && (code c3 =? 0x9F)
   || (code c1 =? 0xE3) && (code c2 =? 0x80) && (code c3 =? 0x80))%N.

(** [lstrip_with] drops leading white space; [rev3] says in which order the
    three bytes of a character are met, so that the same function serves
    the reversed string. *)
Fixpoint lstrip_with (rev3 : bool) (s : list ascii) : list ascii :=
  match s with
  | [] => []
  | c1 :: r1 =>
    if ws1 c1 then lstrip_with rev3 r1
    else match r1 with
         | [] => s
         | c2 :: r2 =>
           if (if rev3 then ws2 c2 c1 else ws2 c1 c2) then lstrip_with rev3 r2
           else match r2 with
                | [] => s
                | c3 :: r3 =>
                  if (if rev3 then ws3 c3 c2 c1 else ws3 c1 c2 c3)
                  then lstrip_with rev3 r3 else s
                end
         end
  end.

Definition strip (s : string) : string :=
  string_of_list_ascii
    (rev (lstrip_with true (rev (lstrip_with false (list_ascii_of_string s))))).

(** [str.split(sep)] for a separator of one character. *)
Fixpoint split (sep : ascii) (s : string) : list string :=
  match s with
  | EmptyString => [EmptyString]
  | String c r =>
    if Ascii.eqb c sep then EmptyString :: split sep r
    else match split sep r with
         | h :: t => String c h :: t
         | [] => [String c EmptyString]
         end
  end.

Fixpoint join (sep : string) (l : list string) : string :=
  match l with
  | [] => EmptyString
  | [x] => x
  | x :: r => x +:+ sep +:+ join sep r
  end.

Fixpoint contains (c : ascii) (s : string) : bool :=
  match s with
  | EmptyString => false
  | String d r => Ascii.eqb c d || contains c r
  end.

(** [s.startswith(pre)] *)
Fixpoint startswith (pre s : string) : bool :=
  match pre with
  | EmptyString => true
  | String a pre' =>
    match s with
    | EmptyString => false
    | String b s' => Ascii.eqb a b && startswith pre' s'
    end
  end.

(** Substring test, [needle in s]. *)
Fixpoint is_substring (needle s : string) : bool :=
  startswith needle s
  || match s with
     | EmptyString => false
     | String _ r => is_substring needle r
     end.

(** [repr] of an [int], of a [str] and of [None].  [repr_str] picks the
    quote as CPython does (double quotes only when the text has a single
    quote and no double quote) and escapes the quote, the backslash and the
    ASCII control characters.  Bytes above 0x7F, which belong to non-ASCII
    characters, are kept: those characters are taken to be printable. *)
Definition repr_int (z : Z) : string := NilZero.string_of_int (Z.to_int z).

Definition hex_digit (n : N) : ascii :=
  if (n <? 10)%N then ascii_of_N (48 + n) else ascii_of_N (87 + n).

Definition repr_char (quote : ascii) (c : ascii) : string :=
  if Ascii.eqb c quote || Ascii.eqb c (ascii_of_nat 92)
  then String (ascii_of_nat 92) (String c EmptyString)
  else if (code c =? 9)%N then backslash +:+ "t"
  else if (code c =? 10)%N then backslash +:+ "n"
  else if (code c =? 13)%N then backslash +:+ "r"
  else if ((code c <? 32) || (code c =? 127))%N
  then backslash +:+ "x"
       +:+ String (hex_digit (code c / 16)) (String (hex_digit (code c mod 16)) EmptyString)
  else String c EmptyString.

Fixpoint repr_body (quote : ascii) (s : string) : string :=
  match s with
  | EmptyString => EmptyString
  | String c r => repr_char quote c +:+ repr_body quote r
  end.

Definition repr_str (s : string) : string :=
  let quote :=
    if contains (ascii_of_nat 39) s && negb (contains (ascii_of_nat 34) s)
    then ascii_of_nat 34 else ascii_of_nat 39 in
  String quote (repr_body quote s) +:+ String quote EmptyString.

Definition repr_opt (o : option string) : string :=
  match o with None => "None" | Some s => repr_str s end.

(** [int(s)] on a [str]: white space is stripped, then an optional sign and
    decimal digits, where single underscores may separate digits.  [None]
    stands for [ValueError].  Only the ASCII digits are recognised. *)
Definition digit_val (c : ascii) : option Z :=
  if ((48 <=? code c) && (code c <=? 57))%N then Some (Z.of_N (code c) - 48) else None.

(** [digits acc prev_digit s]: [prev_digit] tells whether the previous
    character was a digit, which is what an underscore needs on its left. *)
Fixpoint digits (acc : Z) (prev_digit : bool) (s : string) : option Z :=
  match s with
  | EmptyString => if prev_digit then Some acc else None
  | String c r =>
    match digit_val c with
    | Some d => digits (10 * acc + d) true r
    | None =>
      if Ascii.eqb c "_"%char && prev_digit
      then match r with
           | EmptyString => None
           | String c' _ => match digit_val c' with
                            | Some _ => digits acc false r
                            | None => None
                            end
           end
      else None
    end
  end.

Definition int (s : string) : option Z :=
  match strip s with
  | String "-" r => Z.opp <$> digits 0 false r
  | String "+" r => digits 0 false r
  | t => digits 0 false t
  end.

(** ** [pathlib.PurePosixPath] *)

Record Path := mkPath { root : string; parts : list string }.

Definition to_Path (s : string) : Path :=
  {| root := if startswith "//" s && negb (startswith "///" s) then "//"
             else if startswith "/" s then "/" else "";
     parts := filter (λ p, negb (String.eqb p "") && negb (String.eqb p "."))
                     (split "/" s) |}.

Definition path_str (p : Path) : string :=
  match root p, parts p with
  | EmptyString, [] => "."
  | r, ps => r +:+ join "/" ps
  end.

Definition name (p : Path) : string := List.last (parts p) "".

Definition parent (p : Path) : Path :=
  {| root := root p; parts := removelast (parts p) |}.

(** [p / s] *)
Definition div (p : Path) (s : string) : Path :=
  let q := to_Path s in
  if truthy (root q) then q
  else {| root := root p; parts := parts p ++ parts q |}.

End Py.

(** ** Exceptions and the monad of the program *)

Inductive exn_class :=
| Exception
| ValueError
| UnicodeDecodeError
| KeyError
| FileNotFoundError
| ConnectionError
| MlflowException
| LibraryError (cls : string).

Record exn := mk_exn { class_of : exn_class; str_exn : string }.

(** [isinstance(e, ValueError)]: [UnicodeDecodeError] derives from it. *)
Definition is_ValueError (e : exn) : bool :=
  match class_of e with
  | ValueError | UnicodeDecodeError => true
  | _ => false
  end.

Inductive result (A : Type) :=
| Ok (a : A)
| Raise (e : exn).
Arguments Ok {A} a.
Arguments Raise {A} e.

Definition M (S A : Type) : Type := S → S * result A.

Definition ret {S A} (a : A) : M S A := λ s, (s, Ok a).

Definition raise {S A} (e : exn) : M S A := λ s, (s, Raise e).

Definition bind {S A B} (m : M S A) (k : A → M S B) : M S B :=
  λ s, match m s with
       | (s', Ok a) => k a s'
       | (s', Raise e) => (s', Raise e)
       end.

(** [try: m  except Exception as e: h e] *)
Definition try_except {S A} (m : M S A) (h : exn → M S A) : M S A :=
  λ s, match m s with
       | (s', Ok a) => (s', Ok a)
       | (s', Raise e) => h e s'
       end.

(** [try: m  except C: h], for the exceptions selected by [sel]. *)
Definition try_except_if {S A} (sel : exn → bool) (m : M S A) (h : exn → M S A)
  : M S A :=
  λ s, match m s with
       | (s', Ok a) => (s', Ok a)
       | (s', Raise e) => if sel e then h e s' else (s', Raise e)
       end.

(** A step that changes the state and cannot raise; a read of the state. *)
Definition step {S} (f : S → S) : M S unit := λ s, (f s, Ok tt).
Definition gets {S A} (f : S → A) : M S A := λ s, (s, Ok (f s)).

Declare Scope py_scope.
Delimit Scope py_scope with py.
Notation "x <- m ;; k" := (bind m (λ x, k))
  (at level 100, m at next level, right associativity) : py_scope.
Notation "m ;;; k" := (bind m (λ _, k))
  (at level 100, right associativity) : py_scope.
Local Open Scope py_scope.

(** [for x in l: body x], stopping at the first exception. *)
Fixpoint for_each {S A} (l : list A) (body : A → M S unit) : M S unit :=
  match l with
  | [] => ret tt
  | x :: r => body x ;;; for_each r body
  end.

Definition raised {S A} (r : S * result A) : Prop := ∃ e, r.2 = Raise e.

(** ** The environment: libraries and operating system *)

Definition Client := N.
Definition Channel := N.
Definition Scp := N.

(** Keyword arguments of [paramiko.SSHClient.connect]. *)
Record connect_args := {
  hostname : string;
  ca_username : string;
  key_filename : option string;
  ca_password : option (option string);
  ca_timeout : Z
}.

(** The staged package directory of [SimplePackageBuilder]: the directories
    made and the files written, by path relative to the package root. *)
Record file_entry := { content : list Byte.byte; executable : bool }.

Record package := {
  pkg_dirs : gset string;
  pkg_files : gmap string file_entry
}.

Class Env (W : Type) := {
  (** paramiko: [SSHClient()] with its host-key policy, [connect],
      [exec_command], the three reads of [execute_command], [close] *)
  SSHClient_new : W → W * Client;
  SSHClient_connect : Client → connect_args → M W unit;
  exec_command : Client → string → Z → M W Channel;
  recv_exit_status : Channel → M W Z;
  read_stdout : Channel → M W (list Byte.byte);
  read_stderr : Channel → M W (list Byte.byte);
  SSHClient_close : Client → W → W;
  (** text of the [UnicodeDecodeError] raised on undecodable bytes *)
  decode_error_text : list Byte.byte → string;
  (** scp: [SCPClient(client.get_transport())], [put], leaving the [with] *)
  SCPClient_open : Client → M W Scp;
  SCPClient_put : Scp → string → string → M W unit;
  SCPClient_close : Scp → W → W;
  (** mlflow and tempfile *)
  mkdtemp : string → M W string;
  _download_artifact_from_uri : string → string → M W string;
  (** the local file system, read only; [expanduser] is [Path.expanduser]
      as text, where the home directory it needs can be determined *)
  module_file : string;
  expanduser : string → W → string;
  path_exists : string → W → bool;
  is_file : string → W → bool;
  is_dir : string → W → bool;
  read_file : string → W → file_entry;
  walk_files : string → W → list (string * file_entry);
  (** [shutil.copy2(path, dest)] into the package directory, on a path of
      which only [Path.exists()] is known: the exception it raises
      ([IsADirectoryError] on a directory, [PermissionError], ...), or
      [None] when it copies; the copy is then [read_file path] *)
  copy2_error : string → W → option exn;
  (** tarfile into a [mkstemp] file, with the size read for the log line
      (lines 274 to 283); [os.path.getsize], [datetime.now] *)
  write_tar : package → string → M W string;
  getsize : string → M W Z;
  now_isoformat : W → W * string;
  now_strftime : W → W * string
}.

(** ** config.py *)

Record JetsonConfig := {
  device_ip : string;
  username : string;
  ssh_key_path : option string;
  password : option string;
  deployment_base_path : string;
  timeout : Z;
  max_retries : Z
}.

(** The dataclass defaults, as [JetsonConfig(device_ip=ip)] builds them. *)
Definition default_config (ip : string) : JetsonConfig :=
  {| device_ip := ip;
     username := "newcastleuni";
     ssh_key_path := None;
     password := None;
     deployment_base_path := "/home/newcastleuni/mlflow_deployments";
     timeout := 120;
     max_retries := 3 |}.

Definition set_ssh_key_path (k : option string) (c : JetsonConfig) : JetsonConfig :=
  {| device_ip := device_ip c; username := username c; ssh_key_path := k;
     password := password c; deployment_base_path := deployment_base_path c;
     timeout := timeout c; max_retries := max_retries c |}.

Definition set_password (p : option string) (c : JetsonConfig) : JetsonConfig :=
  {| device_ip := device_ip c; username := username c;
     ssh_key_path := ssh_key_path c; password := p;
     deployment_base_path := deployment_base_path c;
     timeout := timeout c; max_retries := max_retries c |}.

Definition set_max_retries (n : Z) (c : JetsonConfig) : JetsonConfig :=
  {| device_ip := device_ip c; username := username c;
     ssh_key_path := ssh_key_path c; password := password c;
     deployment_base_path := deployment_base_path c;
     timeout := timeout c; max_retries := n |}.

(** Two configurations that agree on every field but [max_retries]. *)
Definition same_but_retries (c1 c2 : JetsonConfig) : Prop :=
  device_ip c1 = device_ip c2
  ∧ username c1 = username c2
  ∧ ssh_key_path c1 = ssh_key_path c2
  ∧ password c1 = password c2
  ∧ deployment_base_path c1 = deployment_base_path c2
  ∧ timeout c1 = timeout c2.

(** Values of the dictionaries of [to_dict] and [_check_deployment_files]. *)
Inductive pyvalue :=
| PNone
| PStr (s : string)
| PInt (z : Z)
| PBool (b : bool).

Definition of_opt (o : option string) : pyvalue :=
  match o with None => PNone | Some s => PStr s end.

Definition pyvalue_truthy (v : pyvalue) : bool :=
  match v with
  | PNone => false
  | PStr s => Py.truthy s
  | PInt z => negb (z =? 0)
  | PBool b => b
  end.

Definition repr_value (v : pyvalue) : string :=
  match v with
  | PNone => "None"
  | PStr s => Py.repr_str s
  | PInt z => Py.repr_int z
  | PBool b => if b then "True" else "False"
  end.

(** A [dict] in insertion order. *)
Definition dict := list (string * pyvalue).

Fixpoint dict_get (k : string) (d : dict) : option pyvalue :=
  match d with
  | [] => None
  | (k', v) :: r => if String.eqb k k' then Some v else dict_get k r
  end.

(** [d[k] = v]: an existing key keeps its place, a new one goes last. *)
Fixpoint dict_set (k : string) (v : pyvalue) (d : dict) : dict :=
  match d with
  | [] => [(k, v)]
  | (k', v') :: r =>
    if String.eqb k k' then (k', v) :: r else (k', v') :: dict_set k v r
  end.

Definition repr_dict (d : dict) : string :=
  "{" +:+ Py.join ", " (map (λ kv, Py.repr_str kv.1 +:+ ": " +:+ repr_value kv.2) d)
      +:+ "}".

Definition to_dict (c : JetsonConfig) : dict :=
  [ ("device_ip", PStr (device_ip c));
    ("username", PStr (username c));
    ("ssh_key_path", of_opt (ssh_key_path c));
    ("password", of_opt (password c));
    ("deployment_base_path", PStr (deployment_base_path c));
    ("timeout", PInt (timeout c));
    ("max_retries", PInt (max_retries c)) ].

(** [JetsonConfig.__str__]: works on the dictionary of [to_dict], a fresh
    object; [self] is not assigned. *)
Definition __str__ (c : JetsonConfig) : string :=
  let config_dict := to_dict c in
  let config_dict :=
    match dict_get "password" config_dict with
    | Some v => if pyvalue_truthy v
                then dict_set "password" (PStr "***hidden***") config_dict
                else config_dict
    | None => config_dict
    end in
  "JetsonConfig(" +:+ repr_dict config_dict +:+ ")".

Section Config.
Context {W : Type} {E : Env W}.

(** Lines 84-93 of [validate]: the range check raises [ValueError] inside
    the [try] whose handler is [except ValueError: pass]. *)
Definition check_ip_part (ip : string) (part : string) : M W unit :=
  match Py.int part with
  | None => raise (mk_exn ValueError ("invalid literal for int() with base 10: " +:+ Py.repr_str part))
  | Some int_part =>
    if (0 <=? int_part) && (int_part <=? 255) then ret tt
    else raise (mk_exn ValueError ("Invalid IP address: " +:+ ip))
  end.

Definition check_ip (ip : string) : M W unit :=
  let ip_parts := Py.split "." ip in
  if (length ip_parts =? 4)%nat
  then try_except_if is_ValueError
         (for_each ip_parts (check_ip_part ip))
         (λ _, ret tt)
  else ret tt.

Definition default_key_paths : list string :=
  ["~/.ssh/jetson_key"; "~/.ssh/id_rsa"; "~/.ssh/id_ed25519"].

(** The [for ... break] over [default_key_paths]: the first one that
    exists, expanded. *)
Fixpoint find_default_key (paths : list string) (w : W) : option string :=
  match paths with
  | [] => None
  | key_path :: r =>
    let expanded_path := expanduser key_path w in
    if path_exists expanded_path w then Some expanded_path
    else find_default_key r w
  end.

Definition nl : string := String Py.newline EmptyString.

Definition no_credentials_text : string :=
  "Either ssh_key_path or password must be provided." +:+ nl
  +:+ "No default SSH key found in ~/.ssh/" +:+ nl
  +:+ "Please either:" +:+ nl
  +:+ "  1. Set ssh_key_path in config" +:+ nl
  +:+ "  2. Set password in config" +:+ nl
  +:+ "  3. Create SSH key: ssh-keygen -t rsa -f ~/.ssh/jetson_key".

Definition key_not_found_text (ssh_key_path key_path : string) : string :=
  "SSH key not found: " +:+ ssh_key_path +:+ nl
  +:+ "Expanded path: " +:+ key_path +:+ nl
  +:+ "Please create SSH key or update ssh_key_path in config".

(** [JetsonConfig.validate]; the configuration it returns is [self] after
    the call. *)
Definition validate (c : JetsonConfig) : M W JetsonConfig :=
  if negb (Py.truthy (device_ip c))
  then raise (mk_exn ValueError "device_ip is required")
  else
    check_ip (device_ip c) ;;;
    c <- (if negb (Py.truthy_opt (ssh_key_path c)) && negb (Py.truthy_opt (password c))
          then
            found <- gets (find_default_key default_key_paths) ;;
            let c := match found with
                     | Some k => set_ssh_key_path (Some k) c
                     | None => c
                     end in
            if negb (Py.truthy_opt (ssh_key_path c))
            then raise (mk_exn ValueError no_credentials_text)
            else ret c
          else ret c) ;;
    match ssh_key_path c with
    | Some k =>
      if Py.truthy k
      then
        key_path <- gets (expanduser k) ;;
        present <- gets (path_exists key_path) ;;
        if negb present
        then raise (mk_exn FileNotFoundError (key_not_found_text k key_path))
        else ret tt
      else ret tt
    | None => ret tt
    end ;;;
    if timeout c <=? 0
    then raise (mk_exn ValueError "timeout must be positive")
    else if max_retries c <? 0
    then raise (mk_exn ValueError "max_retries must be non-negative")
    else ret c.

End Config.

(** ** ssh_manager.py *)

(** [CommandResult]: the dictionary returned by [execute_command]. *)
Record CommandResult := {
  exit_status : Z;
  stdout : string;
  stderr : string;
  command : string;
  success : bool
}.

(** The state of the program: [SSHManager._ssh_client] and the world. *)
Record State (W : Type) := mkState { _ssh_client : option Client; world : W }.
Arguments mkState {W} _ _.
Arguments _ssh_client {W} _.
Arguments world {W} _.

Definition probe_command : string := "echo " +:+ Py.dquote +:+ "test" +:+ Py.dquote.

Section SSHManager.
Context {W : Type} {E : Env W}.
Variable config : JetsonConfig.

(** Runs a computation of the environment on the world of the state. *)
Definition lift {A} (m : M W A) : M (State W) A :=
  λ st, match m (world st) with
        | (w, r) => (mkState (_ssh_client st) w, r)
        end.

Definition lift_step (f : W → W) : M (State W) unit :=
  step (λ st, mkState (_ssh_client st) (f (world st))).

Definition set_ssh_client (c : option Client) : M (State W) unit :=
  step (λ st, mkState c (world st)).

(** The arguments of the two calls of [SSHClient.connect]: the key when
    [ssh_key_path] is set, the password otherwise. *)
Definition credentials : connect_args :=
  if Py.truthy_opt (ssh_key_path config)
  then {| hostname := device_ip config; ca_username := username config;
          key_filename := ssh_key_path config; ca_password := None;
          ca_timeout := timeout config |}
  else {| hostname := device_ip config; ca_username := username config;
          key_filename := None; ca_password := Some (password config);
          ca_timeout := timeout config |}.

(** Lines 35-62 of [connect]: a new client is stored in [_ssh_client]
    before the attempt, and stays there when the attempt fails. *)
Definition new_connection : M (State W) Client :=
  client <- (λ st, match SSHClient_new (world st) with
                   | (w, c) => (mkState (Some c) w, Ok c)
                   end) ;;
  try_except
    (lift (SSHClient_connect client credentials) ;;; ret client)
    (λ e, raise (mk_exn ConnectionError ("SSH connection failed: " +:+ str_exn e))).

Definition connect : M (State W) Client :=
  cached <- gets _ssh_client ;;
  match cached with
  | Some client =>
    alive <- try_except
               (lift (exec_command client probe_command 5) ;;; ret true)
               (λ _, lift_step (SSHClient_close client) ;;;
                     set_ssh_client None ;;; ret false) ;;
    if alive : bool then ret client else new_connection
  | None => new_connection
  end.

(** [timeout = timeout or self.config.timeout] *)
Definition effective_timeout (t : option Z) : Z :=
  match t with
  | Some t => if t =? 0 then timeout config else t
  | None => timeout config
  end.

(** [stream.read().decode('utf-8').strip()] *)
Definition decode_text (bs : list Byte.byte) : M (State W) string :=
  match Py.decode_utf8 bs with
  | Some s => ret (Py.strip s)
  | None => raise (mk_exn UnicodeDecodeError (decode_error_text bs))
  end.

(** The [try] block of [execute_command] with its handler. *)
Definition run_command (ssh_client : Client) (command : string) (t : Z)
  : M (State W) CommandResult :=
  try_except
    (channel <- lift (exec_command ssh_client command t) ;;
     exit_status <- lift (recv_exit_status channel) ;;
     out <- lift (read_stdout channel) ;;
     stdout_text <- decode_text out ;;
     err <- lift (read_stderr channel) ;;
     stderr_text <- decode_text err ;;
     ret {| exit_status := exit_status; stdout := stdout_text;
            stderr := stderr_text; command := command;
            success := exit_status =? 0 |})
    (λ e, raise (mk_exn Exception
                   ("Failed to execute command '" +:+ command +:+ "': " +:+ str_exn e))).

Definition execute_command (command : string) (t : option Z)
  : M (State W) CommandResult :=
  let t := effective_timeout t in
  ssh_client <- connect ;;
  run_command ssh_client command t.

(** What can go wrong inside the [try] block of [execute_command], from the
    world in which the command is sent: a call of the transport raises, or
    an output is not UTF-8. *)
Inductive command_failure (c : Client) (command : string) (t : Z) (w : W)
  : exn → Prop :=
| exec_fails w1 e :
    exec_command c command t w = (w1, Raise e) →
    command_failure c command t w e
| recv_fails w1 ch w2 e :
    exec_command c command t w = (w1, Ok ch) →
    recv_exit_status ch w1 = (w2, Raise e) →
    command_failure c command t w e
| stdout_fails w1 ch w2 code w3 e :
    exec_command c command t w = (w1, Ok ch) →
    recv_exit_status ch w1 = (w2, Ok code) →
    read_stdout ch w2 = (w3, Raise e) →
    command_failure c command t w e
| stdout_undecodable w1 ch w2 code w3 out :
    exec_command c command t w = (w1, Ok ch) →
    recv_exit_status ch w1 = (w2, Ok code) →
    read_stdout ch w2 = (w3, Ok out) →
    Py.decode_utf8 out = None →
    command_failure c command t w (mk_exn UnicodeDecodeError (decode_error_text out))
| stderr_fails w1 ch w2 code w3 out w4 e :
    exec_command c command t w = (w1, Ok ch) →
    recv_exit_status ch w1 = (w2, Ok code) →
    read_stdout ch w2 = (w3, Ok out) →
    read_stderr ch w3 = (w4, Raise e) →
    command_failure c command t w e
| stderr_undecodable w1 ch w2 code w3 out w4 err :
    exec_command c command t w = (w1, Ok ch) →
    recv_exit_status ch w1 = (w2, Ok code) →
    read_stdout ch w2 = (w3, Ok out) →
    read_stderr ch w3 = (w4, Ok err) →
    Py.decode_utf8 err = None →
    command_failure c command t w (mk_exn UnicodeDecodeError (decode_error_text err)).

(** [with SCPClient(...) as scp_client: body]: the client is closed on the
    way out, whether [body] returned or raised. *)
Definition with_scp {A} (ssh_client : Client) (body : Scp → M (State W) A)
  : M (State W) A :=
  scp_client <- lift (SCPClient_open ssh_client) ;;
  λ st, match body scp_client st with
        | (st', r) => (mkState (_ssh_client st') (SCPClient_close scp_client (world st')), r)
        end.

Definition transfer_file (local_path remote_path : string) : M (State W) unit :=
  ssh_client <- connect ;;
  try_except
    (with_scp ssh_client (λ scp_client,
       let remote_dir := Py.path_str (Py.parent (Py.to_Path remote_path)) in
       execute_command ("mkdir -p " +:+ remote_dir) None ;;;
       lift (SCPClient_put scp_client local_path remote_path)))
    (λ e, raise (mk_exn Exception ("SCP transfer failed: " +:+ str_exn e))).

Definition close : M (State W) unit :=
  cached <- gets _ssh_client ;;
  match cached with
  | Some client => lift_step (SSHClient_close client) ;;; set_ssh_client None
  | None => ret tt
  end.

End SSHManager.

(** ** simple_package_builder.py *)

(** [package_info]: the dictionary returned by [build_simple_package];
    [size_mb] is the quotient [size / (1024 * 1024)], kept exact. *)
Record package_info := {
  package_path : string;
  pi_deployment_name : string;
  pi_created_at : string;
  size_mb : Q;
  included_files : list string
}.

Definition text_file (s : string) : file_entry :=
  {| content := list_byte_of_string s; executable := false |}.

Definition empty_package : package := {| pkg_dirs := ∅; pkg_files := ∅ |}.

Definition add_dir (d : string) (p : package) : package :=
  {| pkg_dirs := {[d]} ∪ pkg_dirs p; pkg_files := pkg_files p |}.

Definition add_file (path : string) (e : file_entry) (p : package) : package :=
  {| pkg_dirs := pkg_dirs p; pkg_files := <[path := e]> (pkg_files p) |}.

(** [dest_dir / file_name], as text relative to the package root. *)
Definition rel (dest_dir file_name : string) : string :=
  Py.path_str (Py.div (Py.to_Path dest_dir) file_name).

(** [sorted] on a list of [str]. *)
Fixpoint insert_sorted (x : string) (l : list string) : list string :=
  match l with
  | [] => [x]
  | y :: r => if String.leb x y then x :: l else y :: insert_sorted x r
  end.

Definition sorted (l : list string) : list string := foldr insert_sorted [] l.

Definition _get_file_list (p : package) : list string :=
  sorted (map fst (map_to_list (pkg_files p))).



Definition catalog : list string :=
  [ "face_features.pkl"; "face_database.json"; "model_params.json";
    "inference_server_rtsp.py"; "model_server.py"; "client.py";
    "Dockerfile.inference-server"; "Dockerfile.model-server";
    "model_server_requirements.txt"; "face_model_v2.pkl"; "label_encoder.pkl";
    "random_forest_model.pkl"; "amrit_test.jpg" ].

Definition data_files : list string :=
  [ "face_features.pkl"; "face_database.json"; "model_params.json";
    "face_model_v2.pkl"; "label_encoder.pkl"; "random_forest_model.pkl" ].

Definition script_files : list string :=
  [ "inference_server_rtsp.py"; "client.py"; "model_server.py"; "amrit_test.jpg" ].

Definition docker_files : list string :=
  [ "Dockerfile.inference-server"; "Dockerfile.model-server";
    "model_server_requirements.txt" ].

Definition readme_text (deployment_name model_uri created base : string)
  (cfg : dict) : string :=
  "Face Recognition Deployment Package
=====================================

Deployment Name: " +:+ deployment_name +:+ "
Model URI: " +:+ model_uri +:+ "
Created: " +:+ created +:+ "
Plugin: MLflow Simple Jetson Transfer

Package Contents:
================

models/
  └── MLflow model files

data/
  ├── face_features.pkl     # Face feature embeddings
  ├── face_database.json    # Face database
  └── model_params.json     # Model parameters

scripts/
  ├── inference_server.py   # Inference server script
  └── client.py            # Client script
  └── model_server.py
  └── inference_server_stream.py # Inference server streaming with mjpeg and rtsp

docker/ (if present)
  ├── Dockerfile.inference-server
  └── Dockerfile.model-server
  └── Dockerfile.inference-server-stream

Usage on Jetson:
===============

1. Files are extracted to: " +:+ base +:+ "/" +:+ deployment_name +:+ "/

2. To run inference server manually:
   cd " +:+ base +:+ "/" +:+ deployment_name +:+ "/scripts/
   python3 inference_server.py

3. To use Docker (if Dockerfile present):
   cd " +:+ base +:+ "/" +:+ deployment_name +:+ "/docker/
   docker build -f Dockerfile.inference-server -t " +:+ deployment_name +:+ " .
   docker run -p 8080:8080 --device=/dev/video0 " +:+ deployment_name +:+ "

   From the mlflow_deployment directory:
   docker build -f face_recognition_files/docker/Dockerfile.inference-server-stream -t face-inference-mlf-plugin-stream:latest .
   docker run -d --name face-inference-mlf-plugin-stream --runtime=nvidia --network host -p 5001:5001 -p 8554:8554 -v $(pwd)/output:/app/output -v  $(pwd)/temp_frames:/app/temp_frames --volume /tmp/argus_socket:/tmp/argus_socket --volume /usr/src/tensorrt/data:/usr/src/tensorrt/data:ro --device /dev/nvhost-ctrl --device /dev/nvhost-ctrl-gpu --device /dev/nvhost-gpu --device /dev/nvhost-as-gpu --device /dev/nvhost-vic --device /dev/nvhost-msenc --device /dev/nvmap -v /dev:/dev --device /dev/video0 --privileged -e MODEL_SERVICE_URL=http://localhost:5000 face-inference-mlf-plugin-stream:latest
   
Configuration:
=============
" +:+ (match cfg with [] => "No additional configuration" | _ => repr_dict cfg end) +:+ "

Note: This package only transfers files. No automatic startup or Docker deployment.
".

Section PackageBuilder.
Context {W : Type} {E : Env W}.
Variable config : JetsonConfig.

Definition project_root : Py.Path :=
  Py.parent (Py.parent (Py.parent (Py.to_Path module_file))).

Definition search_paths : list Py.Path :=
  [ Py.div project_root "jetson"; Py.div project_root "models";
    Py.div project_root "jetson/docker" ].

(** The inner loop of [_locate_files]: the first root that has the file. *)
Fixpoint locate_in (roots : list Py.Path) (file_name : string) (w : W)
  : option string :=
  match roots with
  | [] => None
  | search_path :: r =>
    let potential_file := Py.path_str (Py.div search_path file_name) in
    if path_exists potential_file w then Some potential_file
    else locate_in r file_name w
  end.

(** [self.face_recognition_files] as [__init__] sets it, then as
    [_locate_files] fills it. *)
Definition initial_files : gmap string (option string) :=
  list_to_map (map (λ f, (f, None)) catalog).

Definition _locate_files (w : W) : gmap string (option string) :=
  fold_left (λ d file_name,
               match locate_in search_paths file_name w with
               | Some found => <[file_name := Some found]> d
               | None => d
               end)
            catalog initial_files.

Variable face_recognition_files : gmap string (option string).

(** [source_path = self.face_recognition_files.get(f)] followed by the test
    [source_path and Path(source_path).exists()]. *)
Definition usable_source (file_name : string) (w : W) : option string :=
  match face_recognition_files !! file_name with
  | Some (Some source_path) =>
    if Py.truthy source_path
       && path_exists (Py.path_str (Py.to_Path source_path)) w
    then Some source_path else None
  | _ => None
  end.

Definition _copy_model_files (model_path dest_dir : string) (w : W) (p : package)
  : package :=
  let p := add_dir dest_dir p in
  let model_source := Py.to_Path model_path in
  if is_file (Py.path_str model_source) w
  then add_file (rel dest_dir (Py.name model_source))
                (read_file (Py.path_str model_source) w) p
  else if is_dir (Py.path_str model_source) w
  then foldr (λ f q, add_file (rel (rel dest_dir "mlflow_model") f.1) f.2 q)
             (add_dir (rel dest_dir "mlflow_model") p)
             (walk_files (Py.path_str model_source) w)
  else add_file (rel dest_dir "model_placeholder.txt")
                (text_file ("Model not found at: " +:+ model_path)) p.

(** [shutil.copy2(source_path, dest_path)] after the test of
    [usable_source]. *)
Definition copy2 (source_path : string) : M W file_entry :=
  λ w, match copy2_error source_path w with
       | Some e => (w, Raise e)
       | None => (w, Ok (read_file source_path w))
       end.

(** A [for] loop over a catalog that builds the package; an exception of a
    turn leaves the loop. *)
Fixpoint for_each_file (step : package → string → M W package) (names : list string)
  (p : package) : M W package :=
  match names with
  | [] => ret p
  | file_name :: r => p <- step p file_name ;; for_each_file step r p
  end.

Definition _copy_face_recognition_data (dest_dir : string) (p : package)
  : M W package :=
  for_each_file
    (λ p file_name,
       source <- gets (usable_source file_name) ;;
       match source with
       | Some source_path =>
         entry <- copy2 source_path ;;
         ret (add_file (rel dest_dir file_name) entry p)
       | None =>
         ret (add_file (rel dest_dir (file_name +:+ ".placeholder"))
                (text_file ("Original file not found: " +:+ file_name)) p)
       end)
    data_files (add_dir dest_dir p).

Definition _copy_scripts (dest_dir : string) (p : package) : M W package :=
  for_each_file
    (λ p script_name,
       source <- gets (usable_source script_name) ;;
       match source with
       | Some source_path =>
         entry <- copy2 source_path ;;
         ret (add_file (rel dest_dir script_name)
                {| content := content entry; executable := true |} p)
       | None => ret p
       end)
    script_files (add_dir dest_dir p).

Definition _copy_docker_files (dest_dir : string) (p : package) : M W package :=
  for_each_file
    (λ p docker_file,
       source <- gets (usable_source docker_file) ;;
       match source with
       | Some source_path =>
         let p := add_dir dest_dir p in
         entry <- copy2 source_path ;;
         ret (add_file (rel dest_dir docker_file) entry p)
       | None => ret p
       end)
    docker_files p.

(** The exception of the first copy that raises, over a catalog. *)
Fixpoint copy_failure (names : list string) (w : W) : option exn :=
  match names with
  | [] => None
  | file_name :: r =>
    match usable_source file_name w with
    | Some source_path =>
      match copy2_error source_path w with
      | Some e => Some e
      | None => copy_failure r w
      end
    | None => copy_failure r w
    end
  end.

(** What the three loops leave when every copy goes through. *)
Definition staged_data (dest_dir : string) (w : W) (p : package)
  : package :=
  fold_left
    (λ p file_name,
       match usable_source file_name w with
       | Some source_path => add_file (rel dest_dir file_name) (read_file source_path w) p
       | None => add_file (rel dest_dir (file_name +:+ ".placeholder"))
                          (text_file ("Original file not found: " +:+ file_name)) p
       end)
    data_files (add_dir dest_dir p).

Definition staged_scripts (dest_dir : string) (w : W) (p : package) : package :=
  fold_left
    (λ p script_name,
       match usable_source script_name w with
       | Some source_path =>
         add_file (rel dest_dir script_name)
                  {| content := content (read_file source_path w); executable := true |} p
       | None => p
       end)
    script_files (add_dir dest_dir p).

Definition staged_docker (dest_dir : string) (w : W) (p : package) : package :=
  fold_left
    (λ p docker_file,
       match usable_source docker_file w with
       | Some source_path =>
         add_file (rel dest_dir docker_file) (read_file source_path w) (add_dir dest_dir p)
       | None => p
       end)
    docker_files p.

Definition _create_readme (deployment_name model_uri : string) (cfg : dict)
  (p : package) : M W package :=
  λ w, match now_strftime w with
       | (w', created) =>
         (w', Ok (add_file "README.txt"
                    (text_file (readme_text deployment_name model_uri created
                                  (deployment_base_path config) cfg)) p))
       end.

(** Steps 1 to 5 of [build_simple_package]: the package directory as it is
    when the archive is made. *)
Definition stage_package (model_path deployment_name model_uri : string)
  (cfg : dict) : M W package :=
  p <- gets (λ w, _copy_model_files model_path "models" w empty_package) ;;
  p <- _copy_face_recognition_data "data" p ;;
  p <- _copy_scripts "scripts" p ;;
  p <- _copy_docker_files "docker" p ;;
  _create_readme deployment_name model_uri cfg p.

(** The package that [stage_package] returns when it returns, written
    out. *)
Definition staged (model_path deployment_name model_uri : string) (cfg : dict)
  (w : W) : package :=
  add_file "README.txt"
    (text_file (readme_text deployment_name model_uri (now_strftime w).2
                  (deployment_base_path config) cfg))
    (staged_docker "docker" w
       (staged_scripts "scripts" w
          (staged_data "data" w
             (_copy_model_files model_path "models" w empty_package)))).

Definition _create_tar_package (p : package) (deployment_name : string) : M W string :=
  try_except
    (tar_path <- write_tar p deployment_name ;;
     present <- gets (path_exists tar_path) ;;
     if negb present
     then raise (mk_exn Exception ("Package file was not created: " +:+ tar_path))
     else ret tar_path)
    (λ e, raise (mk_exn Exception ("Package creation failed: " +:+ str_exn e))).

Definition build_simple_package (model_path deployment_name model_uri : string)
  (cfg : dict) : M W package_info :=
  p <- stage_package model_path deployment_name model_uri cfg ;;
  package_path <- _create_tar_package p deployment_name ;;
  created_at <- (λ w, match now_isoformat w with (w', t) => (w', Ok t) end) ;;
  size <- getsize package_path ;;
  ret {| package_path := package_path;
         pi_deployment_name := deployment_name;
         pi_created_at := created_at;
         size_mb := Qmake size 1048576;
         included_files := _get_file_list p |}.

End PackageBuilder.

(** ** simple_plugin.py *)

Record model_info := {
  mi_model_uri : string;
  local_path : string;
  temp_dir : string
}.

Record transfer_info := {
  remote_package_path : string;
  remote_deployment_path : string;
  package_size_mb : Q
}.

Record extraction_info := {
  deployment_path : string;
  timestamp : string;
  ei_status : string
}.

(** The dictionary returned by [create_deployment]. *)
Record deployment_result := {
  dr_name : string;
  dr_model_uri : string;
  flavor : string;
  dr_status : string;
  deployment_type : string;
  jetson_path : string;
  transferred_files : list string;
  created_at : string;
  dr_config : dict;
  dr_size_mb : Q
}.

(** A record of [list_deployments]; [file_status] is the key that
    [get_deployment] adds. *)
Record deployment := {
  name : string;
  path : string;
  file_count : pyvalue;
  has_model : pyvalue;
  has_face_files : pyvalue;
  status : string;
  file_status : option (gmap string pyvalue)
}.

Definition with_file_status (fs : gmap string pyvalue) (d : deployment) : deployment :=
  {| name := name d; path := path d; file_count := file_count d;
     has_model := has_model d; has_face_files := has_face_files d;
     status := status d; file_status := Some fs |}.

Section Plugin.
Context {W : Type} {E : Env W}.
Variable config : JetsonConfig.
Variable face_recognition_files : gmap string (option string).

Abbreviation execute := (execute_command config).

(** [f"{self.config.deployment_base_path}/{deployment_name}"] *)
Definition deployment_dir (deployment_name : string) : string :=
  deployment_base_path config +:+ "/" +:+ deployment_name.

(** [d[k]] on a [dict] of the program: [KeyError] when absent. *)
Definition getitem (d : gmap string pyvalue) (k : string) : M (State W) pyvalue :=
  match d !! k with
  | Some v => ret v
  | None => raise (mk_exn KeyError (Py.repr_str k))
  end.

(** [v > 0] *)
Definition gt_zero (v : pyvalue) : M (State W) bool :=
  match v with
  | PInt z => ret (0 <? z)
  | PBool b => ret b
  | _ => raise (mk_exn (LibraryError "TypeError")
                  "'>' not supported between instances of 'str' and 'int'")
  end.

Definition _download_model (model_uri : string) : M (State W) model_info :=
  try_except
    (temp_dir <- lift (mkdtemp "mlflow_simple_") ;;
     local_path <- lift (_download_artifact_from_uri model_uri temp_dir) ;;
     ret {| mi_model_uri := model_uri; local_path := local_path; temp_dir := temp_dir |})
    (λ e, raise (mk_exn Exception
                   ("Failed to download model from " +:+ model_uri +:+ ": " +:+ str_exn e))).

Definition _transfer_files (pi : package_info) (deployment_name : string)
  : M (State W) transfer_info :=
  try_except
    (let remote_deployment_path := deployment_dir deployment_name in
     execute ("mkdir -p " +:+ remote_deployment_path) None ;;;
     let remote_package_path := remote_deployment_path +:+ "/files_package.tar.gz" in
     transfer_file config (package_path pi) remote_package_path ;;;
     ret {| remote_package_path := remote_package_path;
            remote_deployment_path := remote_deployment_path;
            package_size_mb := size_mb pi |})
    (λ e, raise (mk_exn Exception ("Failed to transfer files: " +:+ str_exn e))).

Definition _extract_files (ti : transfer_info) (deployment_name : string)
  : M (State W) extraction_info :=
  try_except
    (let extract_cmd :=
       "cd " +:+ remote_deployment_path ti +:+ " && tar -xzf files_package.tar.gz" in
     result <- execute extract_cmd None ;;
     (if negb (success result)
      then raise (mk_exn Exception ("Extraction failed: " +:+ stderr result))
      else ret tt) ;;;
     let chmod_cmd :=
       "find " +:+ remote_deployment_path ti
       +:+ " -type f -name '*.py' -exec chmod +x {} +" in
     execute chmod_cmd None ;;;
     let cleanup_cmd := "rm -f " +:+ remote_package_path ti in
     execute cleanup_cmd None ;;;
     now <- (λ st, match now_isoformat (world st) with
                   | (w, t) => (mkState (_ssh_client st) w, Ok t)
                   end) ;;
     ret {| deployment_path := remote_deployment_path ti;
            timestamp := now; ei_status := "extracted" |})
    (λ e, raise (mk_exn Exception ("Failed to extract files: " +:+ str_exn e))).

Definition _cleanup_deployment_files (deployment_name : string) : M (State W) unit :=
  try_except
    (let deployment_path := deployment_dir deployment_name in
     let cleanup_cmd := "rm -rf " +:+ deployment_path in
     execute cleanup_cmd None ;;; ret tt)
    (λ _, ret tt).

Definition _cleanup_failed_transfer (deployment_name : string) : M (State W) unit :=
  try_except (_cleanup_deployment_files deployment_name) (λ _, ret tt).

(** The [try] block of [create_deployment]. *)
Definition create_steps (name model_uri : string) (flavor : option string)
  (deployment_config : dict) : M (State W) deployment_result :=
  model_info <- _download_model model_uri ;;
  package_info <- lift (build_simple_package config face_recognition_files
                          (local_path model_info) name model_uri deployment_config) ;;
  transfer_info <- _transfer_files package_info name ;;
  extraction_info <- _extract_files transfer_info name ;;
  ret {| dr_name := name;
         dr_model_uri := model_uri;
         flavor := match flavor with
                   | Some f => if Py.truthy f then f else "pytorch"
                   | None => "pytorch"
                   end;
         dr_status := "files_transferred";
         deployment_type := "file_transfer_only";
         jetson_path := deployment_path extraction_info;
         transferred_files := included_files package_info;
         created_at := timestamp extraction_info;
         dr_config := deployment_config;
         dr_size_mb := size_mb package_info |}.

Definition create_deployment (name model_uri : string) (flavor : option string)
  (cfg : option dict) : M (State W) deployment_result :=
  let deployment_config := match cfg with Some d => d | None => [] end in
  try_except
    (create_steps name model_uri flavor deployment_config)
    (λ e, _cleanup_failed_transfer name ;;;
          raise (mk_exn MlflowException
                   ("Failed to transfer files to Jetson: " +:+ str_exn e))).

Definition update_deployment (name model_uri : string) (flavor : option string)
  (cfg : option dict) : M (State W) deployment_result :=
  try_except
    (_cleanup_deployment_files name ;;;
     create_deployment name model_uri flavor cfg)
    (λ e, raise (mk_exn MlflowException ("Failed to update deployment: " +:+ str_exn e))).

Definition delete_deployment (name : string) : M (State W) unit :=
  try_except
    (_cleanup_deployment_files name)
    (λ e, raise (mk_exn MlflowException ("Failed to delete deployment: " +:+ str_exn e))).

(** The words of the specification for [update]: [delete_deployment] on the
    name, then [create_deployment] with the same arguments.  This is what
    [update_deployment] is compared with. *)
Definition delete_then_create (name model_uri : string) (flavor : option string)
  (cfg : option dict) : M (State W) deployment_result :=
  delete_deployment name ;;;
  create_deployment name model_uri flavor cfg.

Definition checks (deployment_path : string) : list (string * string) :=
  [ ("has_model", "find " +:+ deployment_path
                  +:+ " -name '*.pkl' -o -name '*.pth' -o -name '*.pt' | head -1");
    ("has_face_features", "find " +:+ deployment_path +:+ " -name 'face_features.pkl' | head -1");
    ("has_face_database", "find " +:+ deployment_path +:+ " -name 'face_database.json' | head -1");
    ("has_model_params", "find " +:+ deployment_path +:+ " -name 'model_params.json' | head -1");
    ("has_inference_script", "find " +:+ deployment_path +:+ " -name 'inference_server.py' | head -1") ].

(** The loop over [checks.items()], on the dictionary built so far. *)
Fixpoint run_checks (l : list (string * string)) (fs : gmap string pyvalue)
  : M (State W) (gmap string pyvalue) :=
  match l with
  | [] => ret fs
  | (check_name, check_cmd) :: r =>
    result <- execute check_cmd None ;;
    run_checks r (<[check_name :=
                     PBool (success result && Py.truthy (Py.strip (stdout result)))]> fs)
  end.

(** [file_status.get(k, False)], as a truth value. *)
Definition get_flag (fs : gmap string pyvalue) (k : string) : bool :=
  match fs !! k with
  | Some v => pyvalue_truthy v
  | None => false
  end.

(** The [try] block of [_check_deployment_files]. *)
Definition check_steps (deployment_name : string) : M (State W) (gmap string pyvalue) :=
  let deployment_path := deployment_dir deployment_name in
  let count_cmd := "find " +:+ deployment_path +:+ " -type f | wc -l" in
  count_result <- execute count_cmd None ;;
  file_count <- (if success count_result
                 then match Py.int (stdout count_result) with
                      | Some n => ret n
                      | None => raise (mk_exn ValueError
                                  ("invalid literal for int() with base 10: "
                                   +:+ Py.repr_str (stdout count_result)))
                      end
                 else ret 0) ;;
  fs <- run_checks (checks deployment_path) {[ "file_count" := PInt file_count ]} ;;
  ret (<["has_face_files" :=
          PBool (get_flag fs "has_face_features"
                 && get_flag fs "has_face_database"
                 && get_flag fs "has_model_params")]> fs).

Definition _check_deployment_files (deployment_name : string)
  : M (State W) (gmap string pyvalue) :=
  try_except
    (check_steps deployment_name)
    (λ e, ret (<["error" := PStr (str_exn e)]> {[ "file_count" := PInt 0 ]})).

(** One turn of the loop of [_list_file_deployments], adding to the
    records collected so far. *)
Definition scan_dir (deployment_dir : string) (deployments : list deployment)
  : M (State W) (list deployment) :=
  if Py.truthy (Py.strip deployment_dir)
  then
    let deployment_name := Py.name (Py.to_Path deployment_dir) in
    fs <- _check_deployment_files deployment_name ;;
    file_count <- getitem fs "file_count" ;;
    has_model <- getitem fs "has_model" ;;
    has_face_files <- getitem fs "has_face_files" ;;
    file_count' <- getitem fs "file_count" ;;
    present <- gt_zero file_count' ;;
    ret (deployments ++ [ {| name := deployment_name;
                             path := deployment_dir;
                             file_count := file_count;
                             has_model := has_model;
                             has_face_files := has_face_files;
                             status := if present : bool then "files_present" else "empty";
                             file_status := None |} ])
  else ret deployments.

Fixpoint scan_dirs (deployment_dirs : list string) (deployments : list deployment)
  : M (State W) (list deployment) :=
  match deployment_dirs with
  | [] => ret deployments
  | d :: r => deployments <- scan_dir d deployments ;; scan_dirs r deployments
  end.

(** The [try] block of [_list_file_deployments]. *)
Definition list_steps : M (State W) (list deployment) :=
  let base := deployment_base_path config in
  let find_cmd := "find " +:+ base +:+ " -maxdepth 1 -type d -not -path " +:+ base in
  result <- execute find_cmd None ;;
  if negb (success result) then ret []
  else scan_dirs (Py.split Py.newline (stdout result)) [].

Definition _list_file_deployments : M (State W) (list deployment) :=
  try_except list_steps (λ _, ret []).

Definition list_deployments : M (State W) (list deployment) :=
  try_except _list_file_deployments (λ _, ret []).

(** The loop of [get_deployment]: the first record with that name. *)
Fixpoint find_deployment (name' : string) (deployments : list deployment)
  : M (State W) deployment :=
  match deployments with
  | [] => raise (mk_exn MlflowException ("Deployment '" +:+ name' +:+ "' not found"))
  | d :: r =>
    if String.eqb (name d) name'
    then fs <- _check_deployment_files name' ;; ret (with_file_status fs d)
    else find_deployment name' r
  end.

Definition get_deployment (name' : string) : M (State W) deployment :=
  try_except
    (deployments <- list_deployments ;; find_deployment name' deployments)
    (λ e, raise (mk_exn MlflowException ("Failed to get deployment: " +:+ str_exn e))).

Definition predict : M (State W) unit :=
  raise (mk_exn MlflowException
           ("Prediction is not supported by the Jetson file transfer plugin. "
            +:+ "This plugin only transfers files to Jetson devices. "
            +:+ "For predictions, SSH to the Jetson device and run the inference server manually.")).

End Plugin.

(** ** The files of the device *)

(** [under p q]: [q] is [p] or lies below it. *)
Definition under (p q : string) : bool :=
  String.eqb p q || Py.startswith (p +:+ "/") q.

(** What [rm -rf p] leaves of a set of paths. *)
Definition rm_rf (p : string) (r : gset string) : gset string :=
  filter (λ q, under p q = false) r.

(** The laws of a device whose files are observed through [remote].  They
    say which calls of the transport can change the files: a command that
    [exec_command] accepts is carried out, one that it refuses is not, and
    nothing else in the handling of a session touches the files. *)
Record device_laws {W : Type} (E : Env W) (remote : W → gset string) : Prop := {
  new_remote : ∀ w, remote (SSHClient_new w).1 = remote w;
  connect_remote : ∀ c a w, remote (SSHClient_connect c a w).1 = remote w;
  close_remote : ∀ c w, remote (SSHClient_close c w) = remote w;
  probe_remote : ∀ c t w, remote (exec_command c probe_command t w).1 = remote w;
  recv_remote : ∀ ch w, remote (recv_exit_status ch w).1 = remote w;
  stdout_remote : ∀ ch w, remote (read_stdout ch w).1 = remote w;
  stderr_remote : ∀ ch w, remote (read_stderr ch w).1 = remote w;
  rm_rf_done : ∀ c p t w w' ch,
    exec_command c ("rm -rf " +:+ p) t w = (w', Ok ch) → remote w' = rm_rf p (remote w);
  rm_rf_lost : ∀ c p t w w' e,
    exec_command c ("rm -rf " +:+ p) t w = (w', Raise e) → remote w' = remote w
}.

(** ** A scripted device

    One environment that computes.  The device keeps a set of paths and
    carries out [rm -rf], [mkdir -p], [rm -f] and the extraction of the
    transferred archive; any other command changes nothing.  [link] scripts
    the network: each attempt to connect, each command and each upload
    takes the next entry, [false] meaning that it fails; when the script
    runs out the network is up.  [printed] gives the exit status and the
    output of the commands that have some. *)
Module Sim.

Definition output : Type := Z * list Byte.byte * list Byte.byte.

Record sim := {
  files : gset string;
  connected : list Client;
  link : list bool;
  printed : list (string * output);
  channels : list (Channel * output);
  next_id : N;
  local_files : list (string * file_entry);
  registry : list string
}.

Definition pop_link (w : sim) : bool * sim :=
  match link w with
  | [] => (true, w)
  | up :: r =>
    (up, {| files := files w; connected := connected w; link := r;
            printed := printed w; channels := channels w; next_id := next_id w;
            local_files := local_files w; registry := registry w |})
  end.

Definition set_files (f : gset string) (w : sim) : sim :=
  {| files := f; connected := connected w; link := link w;
     printed := printed w; channels := channels w; next_id := next_id w;
     local_files := local_files w; registry := registry w |}.

Definition set_connected (l : list Client) (w : sim) : sim :=
  {| files := files w; connected := l; link := link w;
     printed := printed w; channels := channels w; next_id := next_id w;
     local_files := local_files w; registry := registry w |}.

Definition add_channel (o : output) (w : sim) : sim * Channel :=
  ({| files := files w; connected := connected w; link := link w;
      printed := printed w; channels := (next_id w, o) :: channels w;
      next_id := N.succ (next_id w);
      local_files := local_files w; registry := registry w |}, next_id w).

Definition add_local (p : string) (e : file_entry) (w : sim) : sim :=
  {| files := files w; connected := connected w; link := link w;
     printed := printed w; channels := channels w; next_id := next_id w;
     local_files := (p, e) :: local_files w; registry := registry w |}.

Definition drop (n : nat) (s : string) : string :=
  String.substring n (String.length s - n) s.

Definition tar_suffix : string := " && tar -xzf files_package.tar.gz".

(** The shell of the device: the files after the command, and what the
    command prints when [printed] has nothing for it. *)
Definition shell (cmd : string) (f : gset string) : gset string * output :=
  if Py.startswith "rm -rf " cmd then (rm_rf (drop 7 cmd) f, (0, [], []))
  else if Py.startswith "mkdir -p " cmd then ({[drop 9 cmd]} ∪ f, (0, [], []))
  else if Py.startswith "rm -f " cmd then (f ∖ {[drop 6 cmd]}, (0, [], []))
  else if Py.startswith "cd " cmd
          && String.eqb (drop (String.length cmd - String.length tar_suffix) cmd) tar_suffix
  then let d := String.substring 3 (String.length cmd - String.length tar_suffix - 3) cmd in
       if bool_decide (d +:+ "/files_package.tar.gz" ∈ f)
       then ({[d +:+ "/README.txt"]} ∪ f, (0, [], []))
       else (f, (2, [], list_byte_of_string "tar: files_package.tar.gz: Cannot open"))
  else (f, (0, [], [])).

Fixpoint assoc {A B} (eqb : A → A → bool) (k : A) (l : list (A * B)) : option B :=
  match l with
  | [] => None
  | (k', v) :: r => if eqb k k' then Some v else assoc eqb k r
  end.

Definition is_connected (c : Client) (w : sim) : bool :=
  existsb (N.eqb c) (connected w).

Definition foreign (cls msg : string) : exn := mk_exn (LibraryError cls) msg.

Definition sim_new (w : sim) : sim * Client :=
  ({| files := files w; connected := connected w; link := link w;
      printed := printed w; channels := channels w; next_id := N.succ (next_id w);
      local_files := local_files w; registry := registry w |}, next_id w).

Definition sim_connect (c : Client) (_ : connect_args) : M sim unit :=
  λ w, match pop_link w with
       | (true, w') => (set_connected (c :: connected w') w', Ok tt)
       | (false, w') => (w', Raise (foreign "TimeoutError" "timed out"))
       end.

Definition sim_exec (c : Client) (cmd : string) (_ : Z) : M sim Channel :=
  λ w, if is_connected c w
       then match pop_link w with
            | (true, w') =>
              match shell cmd (files w') with
              | (f, o) =>
                let o := match assoc String.eqb cmd (printed w') with
                         | Some o' => o'
                         | None => o
                         end in
                match add_channel o (set_files f w') with
                | (w'', ch) => (w'', Ok ch)
                end
              end
            | (false, w') => (w', Raise (foreign "OSError" "Socket is closed"))
            end
       else (w, Raise (foreign "SSHException" "SSH session not active")).

Definition sim_read {A} (f : output → A) (ch : Channel) : M sim A :=
  λ w, match assoc N.eqb ch (channels w) with
       | Some o => (w, Ok (f o))
       | None => (w, Raise (foreign "SSHException" "Channel closed"))
       end.

Definition sim_close (c : Client) (w : sim) : sim :=
  set_connected (filter (λ c', N.eqb c c' = false) (connected w)) w.

Definition has_local (p : string) (w : sim) : bool :=
  match assoc String.eqb p (local_files w) with Some _ => true | None => false end.

Definition sim_scp_open (c : Client) : M sim Scp :=
  λ w, if is_connected c w then (w, Ok c)
       else (w, Raise (foreign "SSHException" "SSH session not active")).

Definition sim_put (_ : Scp) (local_path remote_path : string) : M sim unit :=
  λ w, if has_local local_path w
       then match pop_link w with
            | (true, w') => (set_files ({[remote_path]} ∪ files w') w', Ok tt)
            | (false, w') => (w', Raise (foreign "SCPException" "Connection lost"))
            end
       else (w, Raise (foreign "FileNotFoundError" "No such file or directory")).

(** A local path is a directory when a local file lies below it. *)
Definition is_local_dir (p : string) (w : sim) : bool :=
  existsb (λ f, Py.startswith (p +:+ "/") f.1) (local_files w).

Definition sim_copy2_error (p : string) (w : sim) : option exn :=
  if has_local p w then None
  else if is_local_dir p w
  then Some (foreign "IsADirectoryError" ("[Errno 21] Is a directory: " +:+ Py.repr_str p))
  else Some (mk_exn FileNotFoundError
               ("[Errno 2] No such file or directory: " +:+ Py.repr_str p)).

Definition sim_download (uri dir : string) : M sim string :=
  λ w, if existsb (String.eqb uri) (registry w)
       then (add_local (dir +:+ "/model.pkl") (text_file uri) w, Ok (dir +:+ "/model.pkl"))
       else (w, Raise (mk_exn MlflowException ("Registered Model " +:+ uri +:+ " not found"))).

Definition sim_tar (p : package) (deployment_name : string) : M sim string :=
  λ w, let tar_path := "/tmp/mlflow_jetson_" +:+ deployment_name +:+ "_files.tar.gz" in
       (add_local tar_path (text_file (Py.join " " (_get_file_list p))) w, Ok tar_path).

Definition sim_read_file (p : string) (w : sim) : file_entry :=
  match assoc String.eqb p (local_files w) with
  | Some e => e
  | None => text_file ""
  end.

#[global] Instance env : Env sim := {|
  SSHClient_new := sim_new;
  SSHClient_connect := sim_connect;
  exec_command := sim_exec;
  recv_exit_status := sim_read (λ o, o.1.1);
  read_stdout := sim_read (λ o, o.1.2);
  read_stderr := sim_read (λ o, o.2);
  SSHClient_close := sim_close;
  decode_error_text := λ _, "'utf-8' codec can't decode bytes: invalid data";
  SCPClient_open := sim_scp_open;
  SCPClient_put := sim_put;
  SCPClient_close := λ _ w, w;
  mkdtemp := λ prefix w, (w, Ok ("/tmp/" +:+ prefix +:+ "0"));
  _download_artifact_from_uri := sim_download;
  module_file := "/opt/project/mlflow_plugin/jetson_deployment/simple_package_builder.py";
  expanduser := λ p _, if Py.startswith "~/" p then "/home/user" +:+ drop 1 p else p;
  path_exists := λ p w, has_local p w || is_local_dir p w;
  is_file := has_local;
  is_dir := is_local_dir;
  read_file := sim_read_file;
  walk_files := λ _ _, [];
  copy2_error := sim_copy2_error;
  write_tar := sim_tar;
  getsize := λ p w, (w, Ok (Z.of_nat (length (content (sim_read_file p w)))));
  now_isoformat := λ w, (w, "2025-01-01T00:00:00");
  now_strftime := λ w, (w, "2025-01-01 00:00:00")
|}.

(** A device with no deployment, a network that is up, a registry that
    knows one model, and a local disk without companion files. *)
Definition quiet : sim :=
  {| files := ∅; connected := []; link := []; printed := []; channels := [];
     next_id := 0%N; local_files := []; registry := ["models:/face/1"] |}.

Definition with_link (l : list bool) (w : sim) : sim :=
  {| files := files w; connected := connected w; link := l;
     printed := printed w; channels := channels w; next_id := next_id w;
     local_files := local_files w; registry := registry w |}.

Definition with_printed (l : list (string * output)) (w : sim) : sim :=
  {| files := files w; connected := connected w; link := link w;
     printed := l; channels := channels w; next_id := next_id w;
     local_files := local_files w; registry := registry w |}.

Definition start (w : sim) : State sim := mkState None w.

(** The device with the deployment [demo] on it; the same with a network
    that drops after the fourth exchange, and with one whose first exchange
    fails. *)
Definition demo_dir : string := "/home/newcastleuni/mlflow_deployments/demo".

Definition deployed : sim := set_files {[demo_dir; demo_dir +:+ "/README.txt"]} quiet.

Definition link_drops_after_mkdir : sim :=
  with_link [true; true; true; true; false; false; false] deployed.

Definition link_down_once : sim := with_link [false] deployed.

(** The plugin on a device reached by password. *)
Definition cfg : JetsonConfig := set_password (Some "secret") (default_config "10.0.0.5").

(** A key file on the local disk, and a configuration that names it besides
    its password. *)
Definition key_and_password : JetsonConfig := set_ssh_key_path (Some "/keys/id_rsa") cfg.

Definition disk_with_key : sim := add_local "/keys/id_rsa" (text_file "key") quiet.

End Sim.

(** ** The rest of ssh_manager.py *)

(** requests: [requests.get(url, timeout=t)], giving the status code of the
    response and the seconds it took. *)
Class Http (W : Type) := {
  requests_get : string → Z → M W (Z * Q)
}.

(** The dictionary of [check_service_health]; the keys that one of its two
    forms lacks are [None]. *)
Record health := {
  port_listening : option bool;
  http_responsive : option bool;
  response_time : option Q;
  h_timestamp : string;
  healthy : bool;
  h_error : option string
}.

Section SSHManagerRest.
Context {W : Type} {E : Env W} {H : Http W}.
Variable config : JetsonConfig.

Definition isoformat_now : M (State W) string :=
  λ st, match now_isoformat (world st) with
        | (w, t) => (mkState (_ssh_client st) w, Ok t)
        end.

(** The loop of [create_deployment_directory] over its commands. *)
Fixpoint run_mkdirs (commands : list string) : M (State W) unit :=
  match commands with
  | [] => ret tt
  | cmd :: r =>
    result <- execute_command config cmd None ;;
    (if negb (success result)
     then raise (mk_exn Exception ("Failed to create directory: " +:+ stderr result))
     else ret tt) ;;;
    run_mkdirs r
  end.

Definition directory_commands (deployment_path : string) : list string :=
  [ "mkdir -p " +:+ deployment_path;
    "mkdir -p " +:+ deployment_path +:+ "/models";
    "mkdir -p " +:+ deployment_path +:+ "/logs";
    "mkdir -p " +:+ deployment_path +:+ "/scripts" ].

Definition create_deployment_directory (deployment_name : string)
  : M (State W) string :=
  let deployment_path := deployment_base_path config +:+ "/" +:+ deployment_name in
  run_mkdirs (directory_commands deployment_path) ;;;
  ret deployment_path.

Definition extract_deployment_package (package_path extraction_path : string)
  : M (State W) unit :=
  let extract_cmd := "cd " +:+ extraction_path +:+ " && tar -xzf " +:+ package_path in
  result <- execute_command config extract_cmd None ;;
  (if negb (success result)
   then raise (mk_exn Exception ("Package extraction failed: " +:+ stderr result))
   else ret tt) ;;;
  let chmod_cmd := "find " +:+ extraction_path +:+ " -name '*.sh' -exec chmod +x {} +" in
  execute_command config chmod_cmd None ;;;
  ret tt.

Definition check_service_health (port : Z) : M (State W) health :=
  try_except
    (netstat_result <- execute_command config
                         ("netstat -tulpn | grep :" +:+ Py.repr_int port) None ;;
     let port_listening :=
       success netstat_result
       && Py.is_substring (Py.repr_int port) (stdout netstat_result) in
     let health_url :=
       "http://" +:+ device_ip config +:+ ":" +:+ Py.repr_int port +:+ "/health" in
     probe <- try_except
                (response <- lift (requests_get health_url 10) ;;
                 ret (response.1 =? 200, Some response.2))
                (λ _, ret (false, None)) ;;
     now <- isoformat_now ;;
     ret {| port_listening := Some port_listening;
            http_responsive := Some probe.1;
            response_time := probe.2;
            h_timestamp := now;
            healthy := port_listening && probe.1;
            h_error := None |})
    (λ e, now <- isoformat_now ;;
          ret {| port_listening := None; http_responsive := None;
                 response_time := None; h_timestamp := now;
                 healthy := false; h_error := Some (str_exn e) |}).

(** [SSHManager.cleanup_deployment]: the result is only logged. *)
Definition cleanup_deployment (deployment_name : string) : M (State W) unit :=
  let deployment_path := deployment_base_path config +:+ "/" +:+ deployment_name in
  let cleanup_cmd := "rm -rf " +:+ deployment_path in
  execute_command config cleanup_cmd None ;;; ret tt.

(** [with SSHManager(config) as manager: body]: [__enter__] gives the
    manager, [__exit__] calls [close] and lets an exception of the body
    pass. *)
Definition with_manager {A} (body : M (State W) A) : M (State W) A :=
  λ st, match body st with
        | (st', r) => ((close st').1, r)
        end.

End SSHManagerRest.

(** The health endpoint of the scripted device answers on its own
    address. *)
#[global] Instance sim_http : Http Sim.sim := {|
  requests_get := λ url _ w,
    if Py.startswith "http://10.0.0.5:" url then (w, Ok (200, Qmake 1 20))
    else (w, Raise (Sim.foreign "ConnectionError" "Connection refused"))
|}.

(** * Theorems *)

(** ** The monad *)

Section MonadLaws.
Context {S A B : Type}.

Lemma bind_ok (m : M S A) (k : A → M S B) s s' a :
  m s = (s', Ok a) → bind m k s = k a s'.
Proof. intros H. unfold bind. rewrite H. reflexivity. Qed.

Lemma bind_raise (m : M S A) (k : A → M S B) s s' e :
  m s = (s', Raise e) → bind m k s = (s', Raise e).
Proof. intros H. unfold bind. rewrite H. reflexivity. Qed.

Lemma try_ok (m : M S A) h s s' a :
  m s = (s', Ok a) → try_except m h s = (s', Ok a).
Proof. intros H. unfold try_except. rewrite H. reflexivity. Qed.

Lemma try_raise (m : M S A) h s s' e :
  m s = (s', Raise e) → try_except m h s = h e s'.
Proof. intros H. unfold try_except. rewrite H. reflexivity. Qed.

End MonadLaws.

Section SSHManagerFacts.
Context {W : Type} {E : Env W}.
Variable config : JetsonConfig.

(** Opening a session on a fresh client. *)
Lemma new_connection_ok st w1 c w2 :
  SSHClient_new (world st) = (w1, c) →
  SSHClient_connect c (credentials config) w1 = (w2, Ok tt) →
  new_connection config st = (mkState (Some c) w2, Ok c).
Proof.
  intros Hn Hc. unfold new_connection, bind, try_except, lift, ret. simpl.
  rewrite Hn. simpl. rewrite Hc. reflexivity.
Qed.

Lemma new_connection_raise st w1 c w2 e :
  SSHClient_new (world st) = (w1, c) →
  SSHClient_connect c (credentials config) w1 = (w2, Raise e) →
  new_connection config st
  = (mkState (Some c) w2,
     Raise (mk_exn ConnectionError ("SSH connection failed: " +:+ str_exn e))).
Proof.
  intros Hn Hc. unfold new_connection, bind, try_except, lift, raise. simpl.
  rewrite Hn. simpl. rewrite Hc. reflexivity.
Qed.

Lemma connect_uncached st :
  _ssh_client st = None → connect config st = new_connection config st.
Proof. intros H. unfold connect, bind, gets. rewrite H. reflexivity. Qed.

Lemma connect_alive st c w1 ch :
  _ssh_client st = Some c →
  exec_command c probe_command 5 (world st) = (w1, Ok ch) →
  connect config st = (mkState (Some c) w1, Ok c).
Proof.
  intros H Hp. unfold connect, bind, gets, try_except, lift, ret.
  rewrite H, Hp. simpl. rewrite H. reflexivity.
Qed.

Lemma connect_dead st c w1 e :
  _ssh_client st = Some c →
  exec_command c probe_command 5 (world st) = (w1, Raise e) →
  connect config st = new_connection config (mkState None (SSHClient_close c w1)).
Proof.
  intros H Hp.
  unfold connect, bind, gets, try_except, lift, lift_step, set_ssh_client, step, ret.
  rewrite H, Hp. reflexivity.
Qed.

(** What [connect] raises is a [ConnectionError]. *)
Lemma new_connection_raises st st' e :
  new_connection config st = (st', Raise e) →
  class_of e = ConnectionError
  ∧ ∃ cause, str_exn e = "SSH connection failed: " +:+ str_exn cause.
Proof.
  unfold new_connection, bind, try_except, lift, ret, raise. simpl.
  destruct (SSHClient_new (world st)) as [w1 c]. simpl.
  destruct (SSHClient_connect c (credentials config) w1) as [w2 [[]|cause]];
    intros [= <- <-]; simpl; eauto.
Qed.

Lemma connect_raises st st' e :
  connect config st = (st', Raise e) →
  class_of e = ConnectionError
  ∧ ∃ cause, str_exn e = "SSH connection failed: " +:+ str_exn cause.
Proof.
  destruct (_ssh_client st) as [c|] eqn:Hc.
  - destruct (exec_command c probe_command 5 (world st)) as [w1 [ch|e0]] eqn:Hp.
    + rewrite (connect_alive _ _ _ _ Hc Hp). discriminate.
    + rewrite (connect_dead _ _ _ _ Hc Hp). apply new_connection_raises.
  - rewrite (connect_uncached _ Hc). apply new_connection_raises.
Qed.

Lemma execute_command_eq st st1 c cmd t :
  connect config st = (st1, Ok c) →
  execute_command config cmd t st
  = run_command c cmd (effective_timeout config t) st1.
Proof. intros H. unfold execute_command. cbv zeta. by rewrite (bind_ok _ _ _ _ _ H). Qed.

Lemma run_command_ok st c cmd t w1 ch w2 code w3 out so w4 err se :
  exec_command c cmd t (world st) = (w1, Ok ch) →
  recv_exit_status ch w1 = (w2, Ok code) →
  read_stdout ch w2 = (w3, Ok out) → Py.decode_utf8 out = Some so →
  read_stderr ch w3 = (w4, Ok err) → Py.decode_utf8 err = Some se →
  run_command c cmd t st
  = (mkState (_ssh_client st) w4,
     Ok {| exit_status := code; stdout := Py.strip so; stderr := Py.strip se;
           command := cmd; success := code =? 0 |}).
Proof.
  intros He Hr Ho Hdo Hs Hds.
  unfold run_command, try_except, bind, lift, decode_text, ret. simpl.
  rewrite He. simpl. rewrite Hr. simpl. rewrite Ho. simpl. rewrite Hdo. simpl.
  rewrite Hs. simpl. rewrite Hds. reflexivity.
Qed.

(** Every result of [run_command] carries the command and the flag
    [exit_status == 0]; every exception is the wrapped cause of a
    [command_failure]. *)
Lemma run_command_cases st c cmd t st' r :
  run_command c cmd t st = (st', r) →
  match r with
  | Ok res => command res = cmd ∧ success res = (exit_status res =? 0)
  | Raise e =>
    ∃ cause, command_failure c cmd t (world st) cause
             ∧ e = mk_exn Exception
                     ("Failed to execute command '" +:+ cmd +:+ "': " +:+ str_exn cause)
  end.
Proof.
  unfold run_command, try_except, bind, lift, decode_text, ret, raise. simpl.
  destruct (exec_command c cmd t (world st)) as [w1 [ch|e1]] eqn:He; simpl;
    [| intros [= <- <-]; eexists; split; [eapply exec_fails; eauto | done]].
  destruct (recv_exit_status ch w1) as [w2 [code|e2]] eqn:Hr; simpl;
    [| intros [= <- <-]; eexists; split; [eapply recv_fails; eauto | done]].
  destruct (read_stdout ch w2) as [w3 [out|e3]] eqn:Ho; simpl;
    [| intros [= <- <-]; eexists; split; [eapply stdout_fails; eauto | done]].
  destruct (Py.decode_utf8 out) as [so|] eqn:Hdo; simpl;
    [| intros [= <- <-]; eexists; split; [eapply stdout_undecodable; eauto | done]].
  destruct (read_stderr ch w3) as [w4 [err|e4]] eqn:Hs; simpl;
    [| intros [= <- <-]; eexists; split; [eapply stderr_fails; eauto | done]].
  destruct (Py.decode_utf8 err) as [se|] eqn:Hds; simpl;
    [| intros [= <- <-]; eexists; split; [eapply stderr_undecodable; eauto | done]].
  intros [= <- <-]. simpl. done.
Qed.

(** C4.  [connect] probes a cached session with [echo "test"] under a
    timeout of five seconds and keeps it when the probe goes through;
    when the probe raises, the cached session is closed and discarded, a new
    one is established and cached, and the command of the operation that
    called [connect] runs on the new session; without a cached session a
    new one is established at once; when the new session cannot be
    established, whether or not one was cached, [connect] raises
    [ConnectionError], and it raises nothing else. *)
Theorem connect_probes_and_replaces (st : State W) :
  (∀ c w1 ch,
     _ssh_client st = Some c →
     exec_command c probe_command 5 (world st) = (w1, Ok ch) →
     connect config st = (mkState (Some c) w1, Ok c))
  ∧ (∀ c w1 e w2 c',
       _ssh_client st = Some c →
       exec_command c probe_command 5 (world st) = (w1, Raise e) →
       SSHClient_new (SSHClient_close c w1) = (w2, c') →
       (∀ w3 u, SSHClient_connect c' (credentials config) w2 = (w3, Ok u) →
          connect config st = (mkState (Some c') w3, Ok c')
          ∧ ∀ cmd t, execute_command config cmd t st
                     = run_command c' cmd (effective_timeout config t)
                         (mkState (Some c') w3))
       ∧ (∀ w3 cause,
            SSHClient_connect c' (credentials config) w2 = (w3, Raise cause) →
            connect config st
            = (mkState (Some c') w3,
               Raise (mk_exn ConnectionError
                        ("SSH connection failed: " +:+ str_exn cause)))))
  ∧ (∀ w1 c' w2 u,
       _ssh_client st = None →
       SSHClient_new (world st) = (w1, c') →
       SSHClient_connect c' (credentials config) w1 = (w2, Ok u) →
       connect config st = (mkState (Some c') w2, Ok c'))
  ∧ (∀ w1 c' w2 cause,
       _ssh_client st = None →
       SSHClient_new (world st) = (w1, c') →
       SSHClient_connect c' (credentials config) w1 = (w2, Raise cause) →
       connect config st
       = (mkState (Some c') w2,
          Raise (mk_exn ConnectionError ("SSH connection failed: " +:+ str_exn cause))))
  ∧ (∀ st' e, connect config st = (st', Raise e) → class_of e = ConnectionError).
Proof.
  split; [| split; [| split; [| split]]].
  - intros c w1 ch Hc Hp. by apply (connect_alive _ _ _ _ Hc Hp).
  - intros c w1 e w2 c' Hc Hp Hn.
    pose proof (connect_dead _ _ _ _ Hc Hp) as Hd. split.
    + intros w3 [] Hk.
      assert (connect config st = (mkState (Some c') w3, Ok c')) as Hok.
      { rewrite Hd. by apply (new_connection_ok _ w2). }
      split; [done|]. intros cmd t. by apply execute_command_eq.
    + intros w3 cause Hf. rewrite Hd. by apply (new_connection_raise _ w2).
  - intros w1 c' w2 [] Hc Hn Hk. rewrite (connect_uncached _ Hc).
    by apply (new_connection_ok _ w1).
  - intros w1 c' w2 cause Hc Hn Hf. rewrite (connect_uncached _ Hc).
    by apply (new_connection_raise _ w1).
  - intros st' e Hr. by destruct (connect_raises _ _ _ Hr).
Qed.

(** C3, amended.  When the session is there, the command completes and both
    outputs are UTF-8, [execute_command] returns the result, whatever the
    exit status, with [success] set exactly when the exit status is 0; it
    raises only when [connect] raises its [ConnectionError], when a call of
    the transport raises, or when an output cannot be decoded. *)
Theorem execute_command_result (cmd : string) (t : option Z) (st : State W) :
  (∀ st1 c w1 ch w2 code w3 out so w4 err se,
     connect config st = (st1, Ok c) →
     exec_command c cmd (effective_timeout config t) (world st1) = (w1, Ok ch) →
     recv_exit_status ch w1 = (w2, Ok code) →
     read_stdout ch w2 = (w3, Ok out) → Py.decode_utf8 out = Some so →
     read_stderr ch w3 = (w4, Ok err) → Py.decode_utf8 err = Some se →
     execute_command config cmd t st
     = (mkState (_ssh_client st1) w4,
        Ok {| exit_status := code; stdout := Py.strip so; stderr := Py.strip se;
              command := cmd; success := code =? 0 |}))
  ∧ (∀ st' res, execute_command config cmd t st = (st', Ok res) →
       command res = cmd ∧ (success res = true ↔ exit_status res = 0))
  ∧ (∀ st' e, execute_command config cmd t st = (st', Raise e) →
       (class_of e = ConnectionError ∧ connect config st = (st', Raise e))
       ∨ ∃ st1 c cause,
           connect config st = (st1, Ok c)
           ∧ command_failure c cmd (effective_timeout config t) (world st1) cause
           ∧ e = mk_exn Exception
                   ("Failed to execute command '" +:+ cmd +:+ "': " +:+ str_exn cause)).
Proof.
  split; [| split].
  - intros st1 c w1 ch w2 code w3 out so w4 err se Hc He Hr Ho Hdo Hs Hds.
    rewrite (execute_command_eq _ _ _ _ _ Hc).
    by apply (run_command_ok _ _ _ _ w1 ch w2 code w3 out so w4 err se).
  - intros st' res H.
    destruct (connect config st) as [st1 [c|e]] eqn:Hc.
    + rewrite (execute_command_eq _ _ _ _ _ Hc) in H.
      apply run_command_cases in H as [Hcmd Hs]. split; [done|].
      rewrite Hs. apply Z.eqb_eq.
    + unfold execute_command in H. by rewrite (bind_raise _ _ _ _ _ Hc) in H.
  - intros st' e H.
    destruct (connect config st) as [st1 [c|e0]] eqn:Hc.
    + right. rewrite (execute_command_eq _ _ _ _ _ Hc) in H.
      apply run_command_cases in H as (cause & Hf & ->). by exists st1, c, cause.
    + left. unfold execute_command in H. rewrite (bind_raise _ _ _ _ _ Hc) in H.
      injection H as <- <-. split; [|done]. by destruct (connect_raises _ _ _ Hc).
Qed.

End SSHManagerFacts.

(** A stale client is cached: the probe raises, and [connect] returns the
    new client. *)
Lemma connect_probes_and_replaces_witness :
  connect Sim.cfg (mkState (Some 7%N) Sim.quiet)
  = (mkState (Some 0%N) (Sim.set_connected [0%N] (Sim.sim_new Sim.quiet).1), Ok 0%N).
Proof.
  pose proof (connect_probes_and_replaces Sim.cfg (mkState (Some 7%N) Sim.quiet))
    as (_ & H & _).
  destruct (H 7%N Sim.quiet (Sim.foreign "SSHException" "SSH session not active")
              (Sim.sim_new Sim.quiet).1 0%N eq_refl eq_refl eq_refl) as [Hok _].
  exact (proj1 (Hok _ tt eq_refl)).
Defined.

(** The extraction command on a directory without archive: exit status 2,
    and a result with [success = false]. *)
Lemma execute_command_result_witness :
  (execute_command Sim.cfg "cd /d && tar -xzf files_package.tar.gz" None
     (Sim.start Sim.quiet)).2
  = Ok {| exit_status := 2; stdout := "";
          stderr := "tar: files_package.tar.gz: Cannot open";
          command := "cd /d && tar -xzf files_package.tar.gz";
          success := false |}.
Proof.
  pose proof (proj1 (execute_command_result Sim.cfg
                       "cd /d && tar -xzf files_package.tar.gz" None
                       (Sim.start Sim.quiet))) as H.
  assert (connect Sim.cfg (Sim.start Sim.quiet)
          = (mkState (Some 0%N) (Sim.set_connected [0%N] (Sim.sim_new Sim.quiet).1),
             Ok 0%N)) as Hc by (vm_compute; reflexivity).
  eapply H in Hc; cycle 1; [vm_compute; reflexivity .. |].
  rewrite Hc. vm_compute. reflexivity.
Defined.

(** C3, counterexample.  The command [cat model.bin] completes with exit
    status 0 and prints the byte 0xFF; [execute_command] raises. *)
Lemma execute_command_raises_on_completed_command :
  let w := Sim.with_printed [("cat model.bin", (0, [Byte.xff], []))] Sim.quiet in
  ∃ st1 c w1 ch w2 w3 w4,
    connect Sim.cfg (Sim.start w) = (st1, Ok c)
    ∧ exec_command c "cat model.bin" 120 (world st1) = (w1, Ok ch)
    ∧ recv_exit_status ch w1 = (w2, Ok 0)
    ∧ read_stdout ch w2 = (w3, Ok [Byte.xff])
    ∧ read_stderr ch w3 = (w4, Ok [])
    ∧ raised (execute_command Sim.cfg "cat model.bin" None (Sim.start w)).
Proof.
  do 7 eexists. repeat split; try (vm_compute; reflexivity).
  eexists. vm_compute. reflexivity.
Qed.

(** ** The orchestrator *)

Section PluginFacts.
Context {W : Type} {E : Env W}.
Variable config : JetsonConfig.
Variable face_recognition_files : gmap string (option string).

Abbreviation remove_command name := ("rm -rf " +:+ deployment_dir config name).

(** [_cleanup_deployment_files] is one attempt to run [rm -rf] on the
    deployment directory; whatever comes of it, the function returns. *)
Lemma cleanup_deployment_files_eq name st :
  _cleanup_deployment_files config name st
  = ((execute_command config (remove_command name) None st).1, Ok tt).
Proof.
  unfold _cleanup_deployment_files, try_except, bind, ret.
  by destruct (execute_command config _ None st) as [st' [res|e]].
Qed.

Lemma cleanup_failed_transfer_eq name st :
  _cleanup_failed_transfer config name st
  = ((execute_command config (remove_command name) None st).1, Ok tt).
Proof.
  unfold _cleanup_failed_transfer, try_except.
  by rewrite cleanup_deployment_files_eq.
Qed.

Lemma delete_deployment_eq name st :
  delete_deployment config name st
  = ((execute_command config (remove_command name) None st).1, Ok tt).
Proof.
  unfold delete_deployment, try_except.
  by rewrite cleanup_deployment_files_eq.
Qed.

Lemma create_deployment_ok name uri flv cfg st st1 r :
  create_steps config face_recognition_files name uri flv
    (match cfg with Some d => d | None => [] end) st = (st1, Ok r) →
  create_deployment config face_recognition_files name uri flv cfg st = (st1, Ok r).
Proof. intros H. unfold create_deployment. by rewrite (try_ok _ _ _ _ _ H). Qed.

Lemma create_deployment_raise name uri flv cfg st st1 e :
  create_steps config face_recognition_files name uri flv
    (match cfg with Some d => d | None => [] end) st = (st1, Raise e) →
  create_deployment config face_recognition_files name uri flv cfg st
  = ((execute_command config (remove_command name) None st1).1,
     Raise (mk_exn MlflowException
              ("Failed to transfer files to Jetson: " +:+ str_exn e))).
Proof.
  intros H. unfold create_deployment. rewrite (try_raise _ _ _ _ _ H).
  unfold bind. by rewrite cleanup_failed_transfer_eq.
Qed.

(** C1.  Whichever step of [create_deployment] raises (the download of the
    model, the build of the package, the transfer, the extraction), the
    steps after it are not run, [rm -rf] on the deployment directory of
    that name is attempted once through [execute_command], its outcome is
    ignored, and [MlflowException] is raised with the text of the failure
    after "Failed to transfer files to Jetson: "; a result is returned only
    when all four steps returned, and it is then the complete record. *)
Theorem create_deployment_cleans_up_and_raises
  (name uri : string) (flv : option string) (cfg : option dict) (st : State W) :
  let dc := match cfg with Some d => d | None => [] end in
  let steps := create_steps config face_recognition_files name uri flv dc in
  let create := create_deployment config face_recognition_files name uri flv cfg in
  let failed st1 e :=
    create st = ((execute_command config (remove_command name) None st1).1,
                 Raise (mk_exn MlflowException
                          ("Failed to transfer files to Jetson: " +:+ str_exn e))) in
  (∀ st1 e, _download_model uri st = (st1, Raise e) → failed st1 e)
  ∧ (∀ w1 tmp w2 cause,
       mkdtemp "mlflow_simple_" (world st) = (w1, Ok tmp) →
       _download_artifact_from_uri uri tmp w1 = (w2, Raise cause) →
       failed (mkState (_ssh_client st) w2)
         (mk_exn Exception
            ("Failed to download model from " +:+ uri +:+ ": " +:+ str_exn cause)))
  ∧ (∀ st1 mi st2 e,
       _download_model uri st = (st1, Ok mi) →
       lift (build_simple_package config face_recognition_files
               (local_path mi) name uri dc) st1 = (st2, Raise e) →
       failed st2 e)
  ∧ (∀ st1 mi st2 pi st3 e,
       _download_model uri st = (st1, Ok mi) →
       lift (build_simple_package config face_recognition_files
               (local_path mi) name uri dc) st1 = (st2, Ok pi) →
       _transfer_files config pi name st2 = (st3, Raise e) →
       failed st3 e)
  ∧ (∀ st1 mi st2 pi st3 ti st4 e,
       _download_model uri st = (st1, Ok mi) →
       lift (build_simple_package config face_recognition_files
               (local_path mi) name uri dc) st1 = (st2, Ok pi) →
       _transfer_files config pi name st2 = (st3, Ok ti) →
       _extract_files config ti name st3 = (st4, Raise e) →
       failed st4 e)
  ∧ (∀ st1 e, steps st = (st1, Raise e) → failed st1 e)
  ∧ (∀ st1 r, create st = (st1, Ok r) →
       ∃ st1' mi st2 pi st3 ti ei,
         _download_model uri st = (st1', Ok mi)
         ∧ lift (build_simple_package config face_recognition_files
                   (local_path mi) name uri dc) st1' = (st2, Ok pi)
         ∧ _transfer_files config pi name st2 = (st3, Ok ti)
         ∧ _extract_files config ti name st3 = (st1, Ok ei)
         ∧ dr_name r = name ∧ dr_status r = "files_transferred"
         ∧ jetson_path r = deployment_path ei
         ∧ transferred_files r = included_files pi).
Proof.
  intros dc steps create failed.
  assert (∀ st1 e, steps st = (st1, Raise e) → failed st1 e) as Hfail.
  { intros st1 e H. by apply create_deployment_raise. }
  assert (∀ st1 e, _download_model uri st = (st1, Raise e) → failed st1 e) as Hdown.
  { intros st1 e H. apply Hfail. unfold steps, create_steps.
    by rewrite (bind_raise _ _ _ _ _ H). }
  split; [| split; [| split; [| split; [| split; [| split]]]]].
  - exact Hdown.
  - intros w1 tmp w2 cause Ht Hd. apply Hdown.
    unfold _download_model, try_except, bind, lift, raise.
    rewrite Ht. cbn [world _ssh_client]. by rewrite Hd.
  - intros st1 mi st2 e H1 H2. apply Hfail. unfold steps, create_steps.
    rewrite (bind_ok _ _ _ _ _ H1). by rewrite (bind_raise _ _ _ _ _ H2).
  - intros st1 mi st2 pi st3 e H1 H2 H3. apply Hfail. unfold steps, create_steps.
    rewrite (bind_ok _ _ _ _ _ H1), (bind_ok _ _ _ _ _ H2).
    by rewrite (bind_raise _ _ _ _ _ H3).
  - intros st1 mi st2 pi st3 ti st4 e H1 H2 H3 H4. apply Hfail.
    unfold steps, create_steps.
    rewrite (bind_ok _ _ _ _ _ H1), (bind_ok _ _ _ _ _ H2), (bind_ok _ _ _ _ _ H3).
    by rewrite (bind_raise _ _ _ _ _ H4).
  - exact Hfail.
  - intros st1 r H.
    destruct (steps st) as [st' [r'|e]] eqn:Hs.
    2:{ unfold create in H. by rewrite (create_deployment_raise _ _ _ _ _ _ _ Hs) in H. }
    unfold create in H. rewrite (create_deployment_ok _ _ _ _ _ _ _ Hs) in H.
    injection H as <- <-.
    unfold steps, create_steps, bind in Hs.
    destruct (_download_model uri st) as [st1' [mi|?]] eqn:Hd; [| done].
    destruct (lift _ st1') as [st2 [pi|?]] eqn:Hb; [| done].
    destruct (_transfer_files config pi name st2) as [st3 [ti|?]] eqn:Ht; [| done].
    destruct (_extract_files config ti name st3) as [st4 [ei|?]] eqn:Hx; [| done].
    injection Hs as <- <-. by exists st1', mi, st2, pi, st3, ti, ei.
Qed.

(** [update_deployment] against [delete_then_create]: the same final state;
    the same result when one of them returns; when one raises so does the
    other, [update_deployment] with its own prefix before the text. *)
Lemma update_is_delete_then_create name uri flv cfg st :
  (update_deployment config face_recognition_files name uri flv cfg st).1
  = (delete_then_create config face_recognition_files name uri flv cfg st).1
  ∧ match (delete_then_create config face_recognition_files name uri flv cfg st).2 with
    | Ok r =>
      (update_deployment config face_recognition_files name uri flv cfg st).2 = Ok r
    | Raise e =>
      (update_deployment config face_recognition_files name uri flv cfg st).2
      = Raise (mk_exn MlflowException ("Failed to update deployment: " +:+ str_exn e))
    end.
Proof.
  unfold update_deployment, delete_then_create, try_except, bind, raise.
  rewrite delete_deployment_eq, cleanup_deployment_files_eq.
  destruct (create_deployment config face_recognition_files name uri flv cfg _)
    as [st' [r|e]]; simpl; done.
Qed.


(** *** Listing *)



Lemma list_deployments_eq st :
  list_deployments config st
  = match list_steps config st with
    | (st1, Ok l) => (st1, Ok l)
    | (st1, Raise _) => (st1, Ok [])
    end.
Proof.
  unfold list_deployments, _list_file_deployments, try_except, ret.
  by destruct (list_steps config st) as [st1 [l|e]].
Qed.

(** *** The files of the device under the orchestrator *)

Section Device.
Variable remote : W → gset string.
Hypothesis laws : device_laws E remote.

Lemma new_connection_keeps_files st :
  remote (world (new_connection config st).1) = remote (world st).
Proof.
  unfold new_connection, bind, try_except, lift, ret, raise. simpl.
  pose proof (new_remote _ _ laws (world st)) as Hn.
  destruct (SSHClient_new (world st)) as [w1 c]. simpl in *.
  pose proof (connect_remote _ _ laws c (credentials config) w1) as Hc.
  destruct (SSHClient_connect c (credentials config) w1) as [w2 [[]|e]];
    simpl in *; congruence.
Qed.

Lemma connect_keeps_files st :
  remote (world (connect config st).1) = remote (world st).
Proof.
  destruct (_ssh_client st) as [c|] eqn:Hc.
  - pose proof (probe_remote _ _ laws c 5 (world st)) as Hp.
    destruct (exec_command c probe_command 5 (world st)) as [w1 [ch|e]] eqn:He.
    + rewrite (connect_alive _ _ _ _ _ Hc He). exact Hp.
    + rewrite (connect_dead _ _ _ _ _ Hc He), new_connection_keeps_files.
      simpl in *. by rewrite (close_remote _ _ laws).
  - by rewrite (connect_uncached _ _ Hc), new_connection_keeps_files.
Qed.

(** Once the command is sent, waiting for it and reading its output do not
    touch the files. *)
Lemma run_command_files c cmd t st :
  remote (world (run_command c cmd t st).1)
  = remote (exec_command c cmd t (world st)).1.
Proof.
  unfold run_command, try_except, bind, lift, decode_text, ret, raise. simpl.
  destruct (exec_command c cmd t (world st)) as [w1 [ch|e1]]; simpl; [| done].
  pose proof (recv_remote _ _ laws ch w1) as Hr.
  destruct (recv_exit_status ch w1) as [w2 [code|e2]]; simpl in *; [| done].
  pose proof (stdout_remote _ _ laws ch w2) as Ho.
  destruct (read_stdout ch w2) as [w3 [out|e3]]; simpl in *; [| congruence].
  destruct (Py.decode_utf8 out); simpl; [| congruence].
  pose proof (stderr_remote _ _ laws ch w3) as Hs.
  destruct (read_stderr ch w3) as [w4 [err|e4]]; simpl in *; [| congruence].
  destruct (Py.decode_utf8 err); simpl; congruence.
Qed.

(** [execute_command] on [rm -rf p]: the files are those that [rm -rf]
    leaves when the command comes back with a result. *)
Lemma execute_rm_rf_ok p st st1 res :
  execute_command config ("rm -rf " +:+ p) None st = (st1, Ok res) →
  remote (world st1) = rm_rf p (remote (world st)).
Proof.
  intros H. pose proof (connect_keeps_files st) as Hk.
  destruct (connect config st) as [st0 [c|e]] eqn:Hc.
  - rewrite (execute_command_eq _ _ _ _ _ _ Hc) in H.
    pose proof (run_command_files c ("rm -rf " +:+ p)
                  (effective_timeout config None) st0) as Hf.
    rewrite H in Hf. simpl in Hk. rewrite <- Hk.
    destruct (exec_command c ("rm -rf " +:+ p) (effective_timeout config None)
                (world st0)) as [w1 [ch|e]] eqn:He; simpl in Hf; rewrite Hf.
    + exact (rm_rf_done _ _ laws _ _ _ _ _ _ He).
    + exfalso. unfold run_command, try_except, bind, lift in H.
      rewrite He in H. discriminate H.
  - unfold execute_command in H. by rewrite (bind_raise _ _ _ _ _ Hc) in H.
Qed.

Lemma rm_rf_removes p (r : gset string) q : under p q = true → q ∉ rm_rf p r.
Proof. unfold rm_rf. rewrite elem_of_filter. intros H [H' _]. congruence. Qed.

(** C5, amended.  [update_deployment] ends in the same state, hence with
    the same files on the device, as [delete_deployment] followed by
    [create_deployment] with the same arguments, and returns the same
    result when either returns; when they raise, [update_deployment] puts
    its own prefix before the text.  When the creation fails after the
    deletion and the [rm -rf] of its cleanup comes back with a result,
    nothing of the deployment is left on the device. *)
Theorem update_deployment_refines
  (name uri : string) (flv : option string) (cfg : option dict) (st : State W) :
  let update := update_deployment config face_recognition_files name uri flv cfg st in
  let spec := delete_then_create config face_recognition_files name uri flv cfg st in
  let dc := match cfg with Some d => d | None => [] end in
  update.1 = spec.1
  ∧ remote (world update.1) = remote (world spec.1)
  ∧ (∀ r, update.2 = Ok r ↔ spec.2 = Ok r)
  ∧ (∀ e, spec.2 = Raise e →
       update.2 = Raise (mk_exn MlflowException
                           ("Failed to update deployment: " +:+ str_exn e)))
  ∧ (∀ st0 u st1 e st2 res,
       delete_deployment config name st = (st0, Ok u) →
       create_steps config face_recognition_files name uri flv dc st0 = (st1, Raise e) →
       execute_command config (remove_command name) None st1 = (st2, Ok res) →
       update = (st2, Raise (mk_exn MlflowException
                               ("Failed to update deployment: "
                                +:+ "Failed to transfer files to Jetson: " +:+ str_exn e)))
       ∧ ∀ q, under (deployment_dir config name) q = true → q ∉ remote (world st2)).
Proof.
  intros update spec dc.
  destruct (update_is_delete_then_create name uri flv cfg st) as [Hst Hres].
  fold update spec in Hst, Hres.
  split; [done | split; [by rewrite Hst | split; [| split]]].
  - intros r. destruct spec.2 as [r'|e]; rewrite Hres; [| done].
    split; congruence.
  - intros e He. by rewrite He in Hres.
  - intros st0 u st1 e st2 res Hd Hc Hrm.
    assert (update = (st2, Raise (mk_exn MlflowException
                               ("Failed to update deployment: "
                                +:+ "Failed to transfer files to Jetson: " +:+ str_exn e))))
      as Hu.
    { unfold update, update_deployment, try_except, bind, raise.
      rewrite delete_deployment_eq in Hd. rewrite cleanup_deployment_files_eq.
      injection Hd as Hd _. rewrite Hd.
      rewrite (create_deployment_raise _ _ _ _ _ _ _ Hc). by rewrite Hrm. }
    split; [done|]. intros q Hq.
    rewrite (execute_rm_rf_ok _ _ _ _ Hrm). by apply rm_rf_removes.
Qed.

End Device.
End PluginFacts.


(** ** The configuration *)

(** Reduces the projections of a configuration that is written out. *)
Ltac fields :=
  cbn [device_ip username ssh_key_path password deployment_base_path timeout
       max_retries negb andb Py.truthy_opt] in *.

Section ConfigFacts.
Context {W : Type} {E : Env W}.

(** The check of the address never raises and never changes anything: its
    [ValueError] is caught by the handler around it. *)
Lemma check_ip_part_cases ip part (w : W) :
  check_ip_part ip part w = (w, Ok tt)
  ∨ ∃ e, check_ip_part ip part w = (w, Raise e) ∧ is_ValueError e = true.
Proof.
  unfold check_ip_part, raise, ret.
  destruct (Py.int part) as [n|]; [| right; eexists; split; reflexivity].
  destruct ((0 <=? n) && (n <=? 255)); [by left | right; eexists; split; reflexivity].
Qed.

Lemma check_ip_parts_cases ip parts (w : W) :
  for_each parts (check_ip_part ip) w = (w, Ok tt)
  ∨ ∃ e, for_each parts (check_ip_part ip) w = (w, Raise e) ∧ is_ValueError e = true.
Proof.
  induction parts as [|part parts IH]; [by left|].
  simpl. unfold bind.
  destruct (check_ip_part_cases ip part w) as [-> | (e & -> & He)]; [exact IH |].
  right. by exists e.
Qed.

Lemma check_ip_ok ip (w : W) : check_ip ip w = (w, Ok tt).
Proof.
  unfold check_ip. destruct (_ =? 4)%nat; [| done].
  unfold try_except_if.
  destruct (check_ip_parts_cases ip (Py.split "." ip) w) as [-> | (e & -> & ->)]; done.
Qed.

Lemma find_default_key_exists paths (w : W) k :
  find_default_key paths w = Some k → path_exists k w = true.
Proof.
  induction paths as [|p paths IH]; [done|]. simpl.
  destruct (path_exists (expanduser p w) w) eqn:Hp; [| exact IH].
  by intros [= <-].
Qed.

(** How [validate] can return: the key given, the password given, or a
    default key found on the disk. *)
Lemma validate_ok_inv c (w w' : W) c' :
  validate c w = (w', Ok c') →
  w' = w ∧ 0 < timeout c ∧ 0 ≤ max_retries c
  ∧ ((∃ k, ssh_key_path c = Some k ∧ Py.truthy k = true
           ∧ path_exists (expanduser k w) w = true ∧ c' = c)
     ∨ (Py.truthy_opt (ssh_key_path c) = false
        ∧ Py.truthy_opt (password c) = true ∧ c' = c)
     ∨ (Py.truthy_opt (ssh_key_path c) = false
        ∧ Py.truthy_opt (password c) = false
        ∧ ∃ k, Py.truthy k = true ∧ path_exists (expanduser k w) w = true
               ∧ c' = set_ssh_key_path (Some k) c)).
Proof.
  destruct c as [ip user key pw base tmo retries].
  unfold validate, bind, gets, raise, ret, set_ssh_key_path. fields.
  destruct (Py.truthy ip); fields; [| intros H; discriminate H].
  rewrite check_ip_ok.
  destruct (Py.truthy_opt key) eqn:Hk; fields.
  - destruct key as [k|]; fields; [| discriminate Hk]. rewrite Hk.
    destruct (path_exists (expanduser k w) w) eqn:Hex; fields;
      [| intros H; discriminate H].
    destruct (tmo <=? 0) eqn:Ht; [intros H; discriminate H |].
    destruct (retries <? 0) eqn:Hr; [intros H; discriminate H |].
    intros [= <- <-]. repeat split; try lia. left. by exists k.
  - destruct (Py.truthy_opt pw) eqn:Hp; fields.
    + destruct key as [k|]; fields; rewrite ?Hk;
        (destruct (tmo <=? 0) eqn:Ht; [intros H; discriminate H |];
         destruct (retries <? 0) eqn:Hr; [intros H; discriminate H |];
         intros [= <- <-]; repeat split; try lia; right; by left).
    + destruct (find_default_key default_key_paths w) as [found|] eqn:Hf; fields.
      * destruct (Py.truthy found) eqn:Hfound; fields; rewrite ?Hfound;
          [| intros H; discriminate H].
        destruct (path_exists (expanduser found w) w) eqn:Hex; fields;
          [| intros H; discriminate H].
        destruct (tmo <=? 0) eqn:Ht; [intros H; discriminate H |].
        destruct (retries <? 0) eqn:Hr; [intros H; discriminate H |].
        intros [= <- <-]. repeat split; try lia. right. right.
        repeat split; try done. by exists found.
      * rewrite Hk. intros H; discriminate H.
Qed.

(** C8, amended.  After [validate] has returned, at least one credential is
    set: the key path, which then names a file that exists, or the
    password.  Both may be set; [connect] then authenticates with the key
    and does not pass the password.  The password is the one given, the
    timeout is positive and the retry count is not negative. *)
Theorem validate_leaves_a_credential (c c' : JetsonConfig) (w w' : W) :
  validate c w = (w', Ok c') →
  w' = w
  ∧ (Py.truthy_opt (ssh_key_path c') = true ∨ Py.truthy_opt (password c') = true)
  ∧ (∀ k, ssh_key_path c' = Some k → Py.truthy k = true →
       path_exists (expanduser k w) w = true
       ∧ key_filename (credentials c') = Some k
       ∧ ca_password (credentials c') = None)
  ∧ (Py.truthy_opt (ssh_key_path c') = false →
       key_filename (credentials c') = None
       ∧ ca_password (credentials c') = Some (password c'))
  ∧ password c' = password c
  ∧ 0 < timeout c' ∧ 0 ≤ max_retries c'.
Proof.
  intros H. apply validate_ok_inv in H as (-> & Ht & Hr & Hcases).
  assert (∀ k, ssh_key_path c' = Some k → Py.truthy k = true →
            key_filename (credentials c') = Some k ∧ ca_password (credentials c') = None)
    as Hkey.
  { intros k Hk Ht'. unfold credentials. rewrite Hk. fields. by rewrite Ht'. }
  assert (Py.truthy_opt (ssh_key_path c') = false →
          key_filename (credentials c') = None
          ∧ ca_password (credentials c') = Some (password c')) as Hpw.
  { intros Hf. unfold credentials. by rewrite Hf. }
  split; [done|].
  destruct Hcases as [(k & Hk & Htk & Hex & ->) | [(Hk & Hp & ->) | (Hk & Hp & k & Htk & Hex & ->)]].
  - split; [left; by rewrite Hk |].
    split; [| done].
    intros k' Hk' Ht'. split; [| by apply Hkey]. congruence.
  - split; [by right |].
    split; [| done].
    intros k' Hk' Ht'. rewrite Hk' in Hk. fields. congruence.
  - destruct c as [ip user key pw base tmo retries]. unfold set_ssh_key_path in *. fields.
    split; [by left |].
    split; [| done].
    intros k' Hk' Ht'. split; [| by apply Hkey]. congruence.
Qed.

End ConfigFacts.

(** ** The retry count *)

Section Retries.
Context {W : Type} {E : Env W}.

Lemma same_but_retries_eq c1 c2 :
  same_but_retries c1 c2 → c2 = set_max_retries (max_retries c2) c1.
Proof.
  destruct c1, c2. unfold same_but_retries, set_max_retries. simpl.
  intros (-> & -> & -> & -> & -> & ->). reflexivity.
Qed.

(** [validate] reads [max_retries] only to compare it with 0. *)
Lemma validate_set_max_retries c n w :
  0 ≤ max_retries c → 0 ≤ n →
  validate (set_max_retries n c) w
  = match validate c w with
    | (w', Ok c') => (w', Ok (set_max_retries n c'))
    | (w', Raise e) => (w', Raise e)
    end.
Proof.
  intros Hc Hn. destruct c as [ip user key pw base tmo retries]. fields.
  assert ((retries <? 0) = false) as Hr by lia.
  assert ((n <? 0) = false) as Hn' by lia.
  unfold validate, bind, gets, raise, ret, set_max_retries, set_ssh_key_path. fields.
  destruct (Py.truthy ip); fields; [| reflexivity].
  rewrite check_ip_ok.
  destruct (Py.truthy_opt key) eqn:Hk; fields.
  - destruct key as [k|]; fields; [| discriminate Hk]. rewrite Hk.
    destruct (path_exists (expanduser k w) w); fields; [| reflexivity].
    rewrite Hr, Hn'. destruct (tmo <=? 0); reflexivity.
  - destruct (Py.truthy_opt pw) eqn:Hp; fields.
    + rewrite Hr, Hn'.
      destruct key as [k|]; fields; [rewrite Hk |]; destruct (tmo <=? 0); reflexivity.
    + destruct (find_default_key default_key_paths w) as [found|]; fields.
      * destruct (Py.truthy found) eqn:Hf; fields; rewrite ?Hf; [| reflexivity].
        destruct (path_exists (expanduser found w) w); fields; [| reflexivity].
        rewrite Hr, Hn'. destruct (tmo <=? 0); reflexivity.
      * rewrite Hk. reflexivity.
Qed.

(** C9.  Two configurations that differ only in [max_retries] give the same
    [connect], [execute_command], [transfer_file], [create_deployment],
    [update_deployment], [delete_deployment], [list_deployments] and
    [get_deployment]: on the same arguments and in the same state, the same
    result and the same final state.  With both counts non-negative,
    [validate], which the constructor of the plugin runs, accepts or
    rejects the two alike. *)
Theorem max_retries_is_never_consulted
  (c1 c2 : JetsonConfig) (frf : gmap string (option string)) :
  same_but_retries c1 c2 →
  0 ≤ max_retries c1 → 0 ≤ max_retries c2 →
  (∀ st : State W, connect c1 st = connect c2 st)
  ∧ (∀ cmd t (st : State W), execute_command c1 cmd t st = execute_command c2 cmd t st)
  ∧ (∀ l r (st : State W), transfer_file c1 l r st = transfer_file c2 l r st)
  ∧ (∀ name uri flv cfg (st : State W),
       create_deployment c1 frf name uri flv cfg st
       = create_deployment c2 frf name uri flv cfg st)
  ∧ (∀ name uri flv cfg (st : State W),
       update_deployment c1 frf name uri flv cfg st
       = update_deployment c2 frf name uri flv cfg st)
  ∧ (∀ name (st : State W), delete_deployment c1 name st = delete_deployment c2 name st)
  ∧ (∀ st : State W, list_deployments c1 st = list_deployments c2 st)
  ∧ (∀ name (st : State W), get_deployment c1 name st = get_deployment c2 name st)
  ∧ (∀ w : W,
       match validate c1 w, validate c2 w with
       | (w1, Ok c1'), (w2, Ok c2') => w1 = w2 ∧ same_but_retries c1' c2'
       | (w1, Raise e1), (w2, Raise e2) => w1 = w2 ∧ e1 = e2
       | _, _ => False
       end).
Proof.
  intros Hsame H1 H2. rewrite (same_but_retries_eq _ _ Hsame).
  assert (0 ≤ max_retries c2) as Hn by done. revert Hn.
  generalize (max_retries c2) as n. intros n Hn. clear Hsame H2 c2.
  destruct c1 as [ip user key pw base tmo retries].
  repeat split; try reflexivity.
  intros w. rewrite (validate_set_max_retries _ _ _ H1 Hn).
  destruct (validate _ w) as [w1 [c'|e]]; [| done].
  split; [done|]. by destruct c'.
Qed.

End Retries.


Lemma validate_leaves_a_credential_witness :
  Py.truthy_opt (ssh_key_path Sim.cfg) = true ∨ Py.truthy_opt (password Sim.cfg) = true.
Proof.
  exact (proj1 (proj2 (validate_leaves_a_credential Sim.cfg Sim.cfg Sim.quiet Sim.quiet
                         eq_refl))).
Defined.

(** C8, counterexample.  The key file exists and a password is set:
    [validate] returns, the configuration is unchanged, and both the key
    and the password are there to authenticate with. *)
Lemma validate_accepts_key_and_password :
  validate Sim.key_and_password Sim.disk_with_key
  = (Sim.disk_with_key, Ok Sim.key_and_password)
  ∧ ssh_key_path Sim.key_and_password = Some "/keys/id_rsa"
  ∧ path_exists "/keys/id_rsa" Sim.disk_with_key = true
  ∧ password Sim.key_and_password = Some "secret".
Proof. repeat split. Qed.

(** C10, amended.  With a password set and not empty, [str(config)] is the
    text below: the entry of the password reads ['***hidden***'], and the
    password is not among the values the text is made of.  So the text is
    the same for any other non-empty password; and the dictionary of the
    configuration itself still holds the password. *)
Theorem str_hides_password (c : JetsonConfig) (pw : string) :
  password c = Some pw → Py.truthy pw = true →
  __str__ c
  = "JetsonConfig("
    +:+ ("{" +:+ Py.join ", "
           [ "'device_ip': " +:+ Py.repr_str (device_ip c);
             "'username': " +:+ Py.repr_str (username c);
             "'ssh_key_path': " +:+ Py.repr_opt (ssh_key_path c);
             "'password': '***hidden***'";
             "'deployment_base_path': " +:+ Py.repr_str (deployment_base_path c);
             "'timeout': " +:+ Py.repr_int (timeout c);
             "'max_retries': " +:+ Py.repr_int (max_retries c) ]
         +:+ "}")
    +:+ ")"
  ∧ (∀ pw', Py.truthy pw' = true → __str__ (set_password (Some pw') c) = __str__ c)
  ∧ dict_get "password" (to_dict c) = Some (PStr pw).
Proof.
  intros Hpw Ht.
  assert (∀ c' p, password c' = Some p → Py.truthy p = true →
            __str__ c'
            = "JetsonConfig("
              +:+ ("{" +:+ Py.join ", "
                     [ "'device_ip': " +:+ Py.repr_str (device_ip c');
                       "'username': " +:+ Py.repr_str (username c');
                       "'ssh_key_path': " +:+ Py.repr_opt (ssh_key_path c');
                       "'password': '***hidden***'";
                       "'deployment_base_path': " +:+ Py.repr_str (deployment_base_path c');
                       "'timeout': " +:+ Py.repr_int (timeout c');
                       "'max_retries': " +:+ Py.repr_int (max_retries c') ]
                   +:+ "}")
              +:+ ")") as Hstr.
  { intros c' p Hp Htp. unfold __str__, to_dict. rewrite Hp.
    change (dict_get "password" _) with (Some (PStr p)).
    cbv beta iota. change (pyvalue_truthy (PStr p)) with (Py.truthy p). rewrite Htp.
    destruct (ssh_key_path c'); reflexivity. }
  split; [by apply (Hstr c pw) | split].
  - intros pw' Ht'. rewrite (Hstr c pw Hpw Ht).
    by rewrite (Hstr (set_password (Some pw') c) pw' eq_refl Ht').
  - unfold to_dict. by rewrite Hpw.
Qed.

Lemma str_hides_password_witness :
  __str__ (set_password (Some "hunter2") Sim.cfg) = __str__ Sim.cfg.
Proof.
  exact (proj1 (proj2 (str_hides_password Sim.cfg "secret" eq_refl eq_refl))
           "hunter2" eq_refl).
Defined.

(** C10, counterexample.  The password is the text that is shown in its
    place: [str(config)] contains the password. *)
Lemma str_shows_a_password_equal_to_the_mask :
  let c := set_password (Some "***hidden***") (default_config "10.0.0.5") in
  password c = Some "***hidden***"
  ∧ Py.truthy "***hidden***" = true
  ∧ Py.is_substring "***hidden***" (__str__ c) = true.
Proof. repeat split. Qed.

(** ** The package *)

Section PackageFacts.
Context {W : Type} {E : Env W}.
Variable config : JetsonConfig.




Lemma fold_left_keeps (step : package → string → package) l p k :
  (∀ q g, In g l → pkg_files (step q g) !! k = pkg_files q !! k) →
  pkg_files (fold_left step l p) !! k = pkg_files p !! k.
Proof.
  revert p. induction l as [|g l IH]; intros p H; [done|].
  simpl. rewrite IH; [apply H; by left | intros q g' Hg'; apply H; by right].
Qed.

Lemma add_file_other path e p k :
  k ≠ path → pkg_files (add_file path e p) !! k = pkg_files p !! k.
Proof. intros H. unfold add_file. simpl. by rewrite lookup_insert_ne. Qed.

Variable frf : gmap string (option string).

Lemma copy_data_keeps dest w p k :
  (∀ g, In g data_files → k ≠ rel dest g ∧ k ≠ rel dest (g +:+ ".placeholder")) →
  pkg_files (staged_data frf dest w p) !! k = pkg_files p !! k.
Proof.
  intros H. unfold staged_data. rewrite fold_left_keeps; [done|].
  intros q g Hg. destruct (H g Hg).
  destruct (usable_source frf g w); by apply add_file_other.
Qed.

Lemma copy_scripts_keeps dest w p k :
  (∀ g, In g script_files → usable_source frf g w = None ∨ k ≠ rel dest g) →
  pkg_files (staged_scripts frf dest w p) !! k = pkg_files p !! k.
Proof.
  intros H. unfold staged_scripts. rewrite fold_left_keeps; [done|].
  intros q g Hg. destruct (H g Hg) as [-> | Hne]; [done|].
  destruct (usable_source frf g w); [by apply add_file_other | done].
Qed.

Lemma copy_docker_keeps dest w p k :
  (∀ g, In g docker_files → usable_source frf g w = None ∨ k ≠ rel dest g) →
  pkg_files (staged_docker frf dest w p) !! k = pkg_files p !! k.
Proof.
  intros H. unfold staged_docker. rewrite fold_left_keeps; [done|].
  intros q g Hg. destruct (H g Hg) as [-> | Hne]; [done|].
  destruct (usable_source frf g w); [by rewrite add_file_other | done].
Qed.

(** The model is staged under [models] (or at an absolute path, should the
    walk of the model directory report one). *)
Lemma rel_under d x :
  d = "models" ∨ d = "models/mlflow_model" →
  Py.startswith "/" (rel d x) = true ∨ Py.startswith "models" (rel d x) = true.
Proof.
  intros Hd. unfold rel, Py.div.
  destruct (Py.truthy (Py.root (Py.to_Path x))) eqn:Hr.
  - left. unfold Py.path_str, Py.to_Path in *. cbn [Py.root Py.parts] in *.
    destruct (Py.startswith "//" x && negb (Py.startswith "///" x)); [reflexivity|].
    destruct (Py.startswith "/" x); [reflexivity | discriminate Hr].
  - right. destruct Hd as [-> | ->]; unfold Py.path_str; cbn [Py.root Py.parts].
    + change (Py.parts (Py.to_Path "models")) with ["models"].
      change (Py.root (Py.to_Path "models")) with "".
      destruct (Py.parts (Py.to_Path x)); reflexivity.
    + change (Py.parts (Py.to_Path "models/mlflow_model")) with ["models"; "mlflow_model"].
      change (Py.root (Py.to_Path "models/mlflow_model")) with "".
      destruct (Py.parts (Py.to_Path x)); reflexivity.
Qed.

Lemma copy_model_keeps model_path w k :
  Py.startswith "/" k = false → Py.startswith "models" k = false →
  pkg_files (_copy_model_files model_path "models" w empty_package) !! k = None.
Proof.
  intros Hs Hm.
  assert (∀ d x, d = "models" ∨ d = "models/mlflow_model" → k ≠ rel d x) as Hne.
  { intros d x Hd ->. destruct (rel_under d x Hd); congruence. }
  unfold _copy_model_files.
  destruct (is_file _ w); [by rewrite add_file_other by (apply Hne; by left) |].
  destruct (is_dir _ w); [| by rewrite add_file_other by (apply Hne; by left)].
  change (rel "models" "mlflow_model") with "models/mlflow_model".
  induction (walk_files _ w) as [|f l IH]; [done|].
  cbn [foldr]. rewrite add_file_other; [done|]. apply Hne. by right.
Qed.






(** *** The copies that can raise *)

Lemma copy_failure_app l1 l2 w :
  copy_failure frf (l1 ++ l2) w
  = match copy_failure frf l1 w with
    | Some e => Some e
    | None => copy_failure frf l2 w
    end.
Proof.
  induction l1 as [|g l1 IH]; [done |]. cbn [app copy_failure].
  destruct (usable_source frf g w) as [s|]; [| exact IH].
  destruct (copy2_error s w); [done | exact IH].
Qed.

Lemma copy_failure_none l w :
  copy_failure frf l w = None
  ↔ ∀ g s, In g l → usable_source frf g w = Some s → copy2_error s w = None.
Proof.
  induction l as [|g l IH]; cbn [copy_failure In]; [by split |].
  split.
  - intros H g' s [<- | Hg'] Hu.
    + rewrite Hu in H. by destruct (copy2_error s w).
    + destruct (usable_source frf g w) as [s'|];
        [destruct (copy2_error s' w); [discriminate H |] |];
        by apply (proj1 IH H g' s).
  - intros H.
    assert (copy_failure frf l w = None) as Hl
      by (apply IH; intros g' s Hg'; apply H; by right).
    destruct (usable_source frf g w) as [s|] eqn:Hu; [| exact Hl].
    rewrite (H g s) by auto. exact Hl.
Qed.

Lemma copy_failure_some l w e :
  copy_failure frf l w = Some e →
  ∃ g s, In g l ∧ usable_source frf g w = Some s ∧ copy2_error s w = Some e.
Proof.
  induction l as [|g l IH]; cbn [copy_failure]; [discriminate |].
  destruct (usable_source frf g w) as [s|] eqn:Hu.
  - destruct (copy2_error s w) as [e'|] eqn:Hc.
    + intros [= ->]. exists g, s. by repeat split; [left | |].
    + intros H. destruct (IH H) as (g' & s' & Hg' & H'). exists g', s'.
      by split; [right |].
  - intros H. destruct (IH H) as (g' & s' & Hg' & H'). exists g', s'.
    by split; [right |].
Qed.

(** A loop whose turn copies the file when it is usable. *)
Lemma for_each_file_eq (step : package → string → M W package)
  (staged_step : package → string → package) w l :
  (∀ q g, step q g w
          = match usable_source frf g w with
            | Some s => match copy2_error s w with
                        | Some e => (w, Raise e)
                        | None => (w, Ok (staged_step q g))
                        end
            | None => (w, Ok (staged_step q g))
            end) →
  ∀ p, for_each_file step l p w
       = match copy_failure frf l w with
         | Some e => (w, Raise e)
         | None => (w, Ok (fold_left staged_step l p))
         end.
Proof.
  intros Hstep. induction l as [|g l IH]; intros p; [reflexivity |].
  cbn [for_each_file copy_failure fold_left]. unfold bind. rewrite Hstep.
  destruct (usable_source frf g w) as [s|]; [| apply IH].
  destruct (copy2_error s w); [reflexivity | apply IH].
Qed.

Lemma copy_data_eq dest p w :
  _copy_face_recognition_data frf dest p w
  = match copy_failure frf data_files w with
    | Some e => (w, Raise e)
    | None => (w, Ok (staged_data frf dest w p))
    end.
Proof.
  unfold _copy_face_recognition_data, staged_data. apply for_each_file_eq.
  intros q g. unfold bind, gets, copy2, ret.
  destruct (usable_source frf g w) as [s|]; [| reflexivity].
  by destruct (copy2_error s w).
Qed.

Lemma copy_scripts_eq dest p w :
  _copy_scripts frf dest p w
  = match copy_failure frf script_files w with
    | Some e => (w, Raise e)
    | None => (w, Ok (staged_scripts frf dest w p))
    end.
Proof.
  unfold _copy_scripts, staged_scripts. apply for_each_file_eq.
  intros q g. unfold bind, gets, copy2, ret.
  destruct (usable_source frf g w) as [s|]; [| reflexivity].
  by destruct (copy2_error s w).
Qed.

Lemma copy_docker_eq dest p w :
  _copy_docker_files frf dest p w
  = match copy_failure frf docker_files w with
    | Some e => (w, Raise e)
    | None => (w, Ok (staged_docker frf dest w p))
    end.
Proof.
  unfold _copy_docker_files, staged_docker. apply for_each_file_eq.
  intros q g. unfold bind, gets, copy2, ret.
  destruct (usable_source frf g w) as [s|]; [| reflexivity].
  by destruct (copy2_error s w).
Qed.

(** The staging raises the exception of the first copy that raises, and
    returns the package written out in [staged] when none does. *)
Lemma stage_package_eq model_path name uri cfg w :
  stage_package config frf model_path name uri cfg w
  = match copy_failure frf (data_files ++ script_files ++ docker_files) w with
    | Some e => (w, Raise e)
    | None => ((now_strftime w).1, Ok (staged config frf model_path name uri cfg w))
    end.
Proof.
  rewrite !copy_failure_app. unfold stage_package.
  unfold bind at 1. unfold gets at 1.
  unfold bind at 1. rewrite copy_data_eq.
  destruct (copy_failure frf data_files w); [reflexivity |].
  unfold bind at 1. rewrite copy_scripts_eq.
  destruct (copy_failure frf script_files w); [reflexivity |].
  unfold bind at 1. rewrite copy_docker_eq.
  destruct (copy_failure frf docker_files w); [reflexivity |].
  unfold _create_readme, staged. by destruct (now_strftime w).
Qed.

Lemma stage_package_ok model_path name uri cfg w w' p :
  stage_package config frf model_path name uri cfg w = (w', Ok p) →
  w' = (now_strftime w).1 ∧ p = staged config frf model_path name uri cfg w
  ∧ copy_failure frf (data_files ++ script_files ++ docker_files) w = None.
Proof.
  rewrite stage_package_eq.
  destruct (copy_failure frf _ w); [discriminate |]. by intros [= <- <-].
Qed.

Lemma staged_absent model_path name uri cfg w k :
  Py.startswith "/" k = false → Py.startswith "models" k = false →
  (∀ g, In g data_files → k ≠ rel "data" g ∧ k ≠ rel "data" (g +:+ ".placeholder")) →
  (∀ g, In g script_files → usable_source frf g w = None ∨ k ≠ rel "scripts" g) →
  (∀ g, In g docker_files → usable_source frf g w = None ∨ k ≠ rel "docker" g) →
  k ≠ "README.txt" →
  pkg_files (staged config frf model_path name uri cfg w) !! k = None.
Proof.
  intros Hs Hm Hd Hsc Hdo Hr. unfold staged.
  rewrite add_file_other by done.
  rewrite copy_docker_keeps by done. rewrite copy_scripts_keeps by done.
  rewrite copy_data_keeps by done. by apply copy_model_keeps.
Qed.


End PackageFacts.

Section MissingFiles.
Context {W : Type} {E : Env W}.
Variable config : JetsonConfig.


End MissingFiles.

(** ** The scripted device *)

Lemma substring_all s : String.substring 0 (String.length s) s = s.
Proof. induction s as [|c s IH]; [done|]. simpl. by rewrite IH. Qed.

Lemma pop_link_files w : Sim.files (Sim.pop_link w).2 = Sim.files w.
Proof. unfold Sim.pop_link. by destruct (Sim.link w). Qed.

Lemma sim_read_keeps {A} (f : Sim.output → A) ch w : (Sim.sim_read f ch w).1 = w.
Proof. unfold Sim.sim_read. by destruct (Sim.assoc _ _ _). Qed.

(** What [sim_exec] does to the files is what [shell] does to them, when
    the command goes through, and nothing otherwise. *)
Lemma sim_exec_files c cmd t w w' r :
  Sim.sim_exec c cmd t w = (w', r) →
  match r with
  | Ok _ => Sim.files w' = (Sim.shell cmd (Sim.files w)).1
  | Raise _ => Sim.files w' = Sim.files w
  end.
Proof.
  unfold Sim.sim_exec. destruct (Sim.is_connected c w); [| by intros [= <- <-]].
  pose proof (pop_link_files w) as Hp.
  destruct (Sim.pop_link w) as [[|] w1]; cbn [snd] in Hp; [| by intros [= <- <-]].
  rewrite Hp. destruct (Sim.shell cmd (Sim.files w)) as [f o]. cbn [fst].
  unfold Sim.add_channel. by intros [= <- <-].
Qed.

Lemma shell_rm_rf p f : (Sim.shell ("rm -rf " +:+ p) f).1 = rm_rf p f.
Proof.
  unfold Sim.shell, Sim.drop.
  change (Py.startswith "rm -rf " ("rm -rf " +:+ p)) with true. cbn [fst].
  change (String.length ("rm -rf " +:+ p) - 7)%nat with (String.length p - 0)%nat.
  change (String.substring 7 (String.length p - 0) ("rm -rf " +:+ p))
    with (String.substring 0 (String.length p - 0) p).
  by rewrite Nat.sub_0_r, substring_all.
Qed.

Lemma shell_probe f : Sim.shell probe_command f = (f, (0, [], [])).
Proof. reflexivity. Qed.

Lemma sim_device_laws : device_laws Sim.env Sim.files.
Proof.
  split; cbn [SSHClient_new SSHClient_connect SSHClient_close exec_command
              recv_exit_status read_stdout read_stderr Sim.env].
  - done.
  - intros c a w. unfold Sim.sim_connect. pose proof (pop_link_files w) as Hp.
    by destruct (Sim.pop_link w) as [[|] w1].
  - done.
  - intros c t w.
    pose proof (sim_exec_files c probe_command t w) as H.
    destruct (Sim.sim_exec c probe_command t w) as [w' [ch|e]];
      specialize (H _ _ eq_refl); cbn [fst]; rewrite H; [| done].
    by rewrite shell_probe.
  - intros ch w. by rewrite sim_read_keeps.
  - intros ch w. by rewrite sim_read_keeps.
  - intros ch w. by rewrite sim_read_keeps.
  - intros c p t w w' ch H. apply sim_exec_files in H. by rewrite H, shell_rm_rf.
  - intros c p t w w' e H. by apply sim_exec_files in H.
Qed.

(** ** Runs on the scripted device *)

(** The registry does not know the model: the download raises, and so does
    [create_deployment], with the text of the registry at the end. *)
Lemma create_deployment_cleans_up_and_raises_witness :
  (create_deployment Sim.cfg initial_files "demo" "models:/missing/1" None None
     (Sim.start Sim.quiet)).2
  = Raise (mk_exn MlflowException
             ("Failed to transfer files to Jetson: "
              +:+ "Failed to download model from models:/missing/1: "
              +:+ "Registered Model models:/missing/1 not found")).
Proof.
  pose proof (create_deployment_cleans_up_and_raises Sim.cfg initial_files
                "demo" "models:/missing/1" None None (Sim.start Sim.quiet)) as H.
  cbv zeta in H. destruct H as (H & _).
  erewrite H; [| vm_compute; reflexivity].
  vm_compute. reflexivity.
Defined.



(** The model is unknown, the network is up: the update fails after the
    deletion, the cleanup goes through, and the directory is gone. *)
Lemma update_deployment_refines_witness :
  Sim.demo_dir
  ∉ Sim.files (world (update_deployment Sim.cfg initial_files "demo"
                        "models:/missing/1" None None (Sim.start Sim.deployed)).1).
Proof.
  pose proof (update_deployment_refines Sim.cfg initial_files Sim.files
                sim_device_laws "demo" "models:/missing/1" None None
                (Sim.start Sim.deployed)) as H.
  cbv zeta in H. destruct H as (_ & _ & _ & _ & H).
  edestruct H as [Hu Hq]; [vm_compute; reflexivity .. |].
  rewrite Hu. apply Hq. vm_compute. reflexivity.
Defined.

(** C5, counterexample.  The deletion is carried out, the directory is made
    again, then the network drops: the transfer fails, the cleanup cannot
    connect, [update_deployment] raises, and the directory is on the
    device. *)
Lemma update_failure_can_leave_the_directory :
  let st := Sim.start Sim.link_drops_after_mkdir in
  let update := update_deployment Sim.cfg initial_files "demo" "models:/face/1"
                  None None st in
  elements (Sim.files (world (delete_deployment Sim.cfg "demo" st).1)) = []
  ∧ update.2
    = Raise (mk_exn MlflowException
               ("Failed to update deployment: Failed to transfer files to Jetson: "
                +:+ "Failed to transfer files: SSH connection failed: timed out"))
  ∧ elements (Sim.files (world update.1)) = [Sim.demo_dir].
Proof. repeat split; vm_compute; reflexivity. Qed.


(** Seven retries instead of three. *)
Lemma max_retries_is_never_consulted_witness :
  create_deployment Sim.cfg initial_files "demo" "models:/face/1" None None
    (Sim.start Sim.quiet)
  = create_deployment (set_max_retries 7 Sim.cfg) initial_files "demo"
      "models:/face/1" None None (Sim.start Sim.quiet).
Proof.
  pose proof (max_retries_is_never_consulted (W := Sim.sim) Sim.cfg
                (set_max_retries 7 Sim.cfg) initial_files
                ltac:(repeat split) ltac:(vm_compute; discriminate)
                ltac:(vm_compute; discriminate)) as (_ & _ & _ & H & _).
  apply H.
Defined.

(** * Further properties *)

(** ** config.py: [validate] *)

Section ValidateFacts.
Context {W : Type} {E : Env W}.

(** [validate] after its tests on the address, with the two comparisons of
    lines 127 to 136 as the code evaluates them. *)
Lemma validate_checked (c : JetsonConfig) (w : W) :
  Py.truthy (device_ip c) = true →
  (timeout c <=? 0) = false → (max_retries c <? 0) = false →
  (∃ k, ssh_key_path c = Some k ∧ Py.truthy k = true
        ∧ path_exists (expanduser k w) w = true)
  ∨ (Py.truthy_opt (ssh_key_path c) = false ∧ Py.truthy_opt (password c) = true) →
  validate c w = (w, Ok c).
Proof.
  destruct c as [ip user key pw base tmo retries]. fields.
  intros Hip Ht' Hr' Hcred.
  unfold validate, bind, gets, raise, ret, set_ssh_key_path. fields.
  rewrite Hip. fields. rewrite check_ip_ok.
  destruct Hcred as [(k & -> & Hk & Hex) | [Hk Hp]]; fields.
  - rewrite Hk. fields. rewrite Hk, Hex. fields. by rewrite Ht', Hr'.
  - rewrite Hk, Hp. fields.
    destruct key as [k|]; fields; rewrite ?Hk; by rewrite Ht', Hr'.
Qed.

(** X1.  [validate] returns the configuration as it is, and touches nothing,
    whenever the address is not empty, the timeout is positive, the retry
    count is not negative, and either the key path is set and its expanded
    path exists, or no key path is set and a password is.  The form of the
    address plays no part: the range check of its four numbers cannot make
    [validate] raise. *)
Theorem validate_accepts (c : JetsonConfig) (w : W) :
  Py.truthy (device_ip c) = true →
  0 < timeout c → 0 ≤ max_retries c →
  (∃ k, ssh_key_path c = Some k ∧ Py.truthy k = true
        ∧ path_exists (expanduser k w) w = true)
  ∨ (Py.truthy_opt (ssh_key_path c) = false ∧ Py.truthy_opt (password c) = true) →
  validate c w = (w, Ok c).
Proof.
  intros Hip Ht Hr Hcred. apply validate_checked; [exact Hip | | | exact Hcred].
  - apply Z.leb_gt. exact Ht.
  - apply Z.ltb_ge. exact Hr.
Qed.

(** The raises of [validate] in an environment that expands every path. *)
Lemma validate_raise_cases (c : JetsonConfig) (w w' : W) (e : exn) :
  validate c w = (w', Raise e) →
  w' = w
  ∧ ((Py.truthy (device_ip c) = false
      ∧ e = mk_exn ValueError "device_ip is required")
     ∨ (Py.truthy_opt (ssh_key_path c) = false
        ∧ Py.truthy_opt (password c) = false
        ∧ Py.truthy_opt (find_default_key default_key_paths w) = false
        ∧ e = mk_exn ValueError no_credentials_text)
     ∨ (∃ k, Py.truthy k = true
             ∧ (ssh_key_path c = Some k
                ∨ (Py.truthy_opt (ssh_key_path c) = false
                   ∧ Py.truthy_opt (password c) = false
                   ∧ find_default_key default_key_paths w = Some k))
             ∧ path_exists (expanduser k w) w = false
             ∧ e = mk_exn FileNotFoundError (key_not_found_text k (expanduser k w)))
     ∨ (timeout c ≤ 0 ∧ e = mk_exn ValueError "timeout must be positive")
     ∨ (0 < timeout c ∧ max_retries c < 0
        ∧ e = mk_exn ValueError "max_retries must be non-negative")).
Proof.
  destruct c as [ip user key pw base tmo retries]. fields.
  unfold validate, bind, gets, raise, ret, set_ssh_key_path. fields.
  destruct (Py.truthy ip) eqn:Hip; fields;
    [| intros [= <- <-]; split; [done | by left]].
  rewrite check_ip_ok.
  assert (∀ key' (w1 : W) r,
            (if tmo <=? 0
             then λ s : W, (s, Raise (mk_exn ValueError "timeout must be positive"))
             else if retries <? 0
                  then λ s : W,
                      (s, Raise (mk_exn ValueError "max_retries must be non-negative"))
                  else λ s : W,
                      (s, Ok {| device_ip := ip; username := user;
                                ssh_key_path := key'; password := pw;
                                deployment_base_path := base; timeout := tmo;
                                max_retries := retries |})) w1 = (w', Raise r) →
            w' = w1
            ∧ ((tmo ≤ 0 ∧ r = mk_exn ValueError "timeout must be positive")
               ∨ (0 < tmo ∧ retries < 0
                  ∧ r = mk_exn ValueError "max_retries must be non-negative")))
    as Hlast.
  { intros key' w1 r. destruct (tmo <=? 0) eqn:Ht.
    - intros [= <- <-]. split; [done|]. left. split; [lia | done].
    - destruct (retries <? 0) eqn:Hr; [| intros H; discriminate H].
      intros [= <- <-]. split; [done|]. right. repeat split; [lia | lia]. }
  destruct (Py.truthy_opt key) eqn:Hk; fields.
  - destruct key as [k|]; fields; [| discriminate Hk]. rewrite Hk.
    destruct (path_exists (expanduser k w) w) eqn:Hex; fields.
    + intros H. apply Hlast in H as [-> H]. split; [done|]. tauto.
    + intros [= <- <-]. split; [done|]. right. right. left.
      exists k. repeat split; auto.
  - destruct (Py.truthy_opt pw) eqn:Hp; fields.
    + destruct key as [k|]; fields; rewrite ?Hk;
        (intros H; apply Hlast in H as [-> H]; split; [done|]; tauto).
    + destruct (find_default_key default_key_paths w) as [found|] eqn:Hf; fields.
      * destruct (Py.truthy found) eqn:Hfound; fields; rewrite ?Hfound.
        -- destruct (path_exists (expanduser found w) w) eqn:Hex; fields.
           ++ intros H. apply Hlast in H as [-> H]. split; [done|]. tauto.
           ++ intros [= <- <-]. split; [done|]. right. right. left.
              exists found. repeat split; auto.
        -- intros [= <- <-]. split; [done|]. right. left. by repeat split; fields.
      * rewrite Hk. intros [= <- <-]. split; [done|]. right. left. by repeat split; fields.
Qed.

(** X2.  What a [ValueError] or a [FileNotFoundError] of [validate] means.
    A [ValueError] is raised for the empty address, for no credential and
    no default key that exists, for a timeout that is not positive or for
    a negative retry count, and for nothing else: an address of a wrong
    form is not among the reasons.  A [FileNotFoundError] is raised for a
    key path in effect, given or found by default, that does not exist
    after expansion.  The files are left as they were.  Exceptions of
    other classes are not part of the statement: [Path.expanduser] raises
    [RuntimeError] when a home directory cannot be determined, and the
    environment here gives the expansion as a path. *)
Theorem validate_errors (c : JetsonConfig) (w w' : W) (e : exn) :
  validate c w = (w', Raise e) →
  w' = w
  ∧ (class_of e = ValueError →
     (Py.truthy (device_ip c) = false
      ∧ e = mk_exn ValueError "device_ip is required")
     ∨ (Py.truthy_opt (ssh_key_path c) = false
        ∧ Py.truthy_opt (password c) = false
        ∧ Py.truthy_opt (find_default_key default_key_paths w) = false
        ∧ e = mk_exn ValueError no_credentials_text)
     ∨ (timeout c ≤ 0 ∧ e = mk_exn ValueError "timeout must be positive")
     ∨ (0 < timeout c ∧ max_retries c < 0
        ∧ e = mk_exn ValueError "max_retries must be non-negative"))
  ∧ (class_of e = FileNotFoundError →
     ∃ k, Py.truthy k = true
          ∧ (ssh_key_path c = Some k
             ∨ (Py.truthy_opt (ssh_key_path c) = false
                ∧ Py.truthy_opt (password c) = false
                ∧ find_default_key default_key_paths w = Some k))
          ∧ path_exists (expanduser k w) w = false
          ∧ e = mk_exn FileNotFoundError (key_not_found_text k (expanduser k w))).
Proof.
  intros Hraise.
  destruct (validate_raise_cases c w w' e Hraise) as [-> Hcases].
  split; [reflexivity |].
  destruct Hcases as [[Hip ->] | [(Hk & Hp & Hf & ->) | [(k & Hk & Hsrc & Hex & ->) | Hlast]]].
  - split; [intros _; by left | discriminate].
  - split; [intros _; right; by left | discriminate].
  - split; [discriminate | intros _; by exists k].
  - split; [intros _; by do 2 right | ].
    destruct Hlast as [[_ ->] | (_ & _ & ->)]; discriminate.
Qed.

(** The first default key that exists. *)
Lemma find_default_key_first (l1 : list string) p l2 (w : W) :
  (∀ q, In q l1 → path_exists (expanduser q w) w = false) →
  path_exists (expanduser p w) w = true →
  find_default_key (l1 ++ p :: l2) w = Some (expanduser p w).
Proof.
  intros Hno Hp. induction l1 as [|q l1 IH]; cbn [app find_default_key].
  - by rewrite Hp.
  - rewrite (Hno q) by (by left). apply IH. intros q' Hq'. apply Hno. by right.
Qed.

Lemma find_default_key_none (l : list string) (w : W) :
  (∀ q, In q l → path_exists (expanduser q w) w = false) →
  find_default_key l w = None.
Proof.
  intros Hno. induction l as [|q l IH]; [done|]. cbn [find_default_key].
  rewrite (Hno q) by (by left). apply IH. intros q' Hq'. apply Hno. by right.
Qed.

(** X3.  With neither a key path nor a password, [validate] takes the first
    of [~/.ssh/jetson_key], [~/.ssh/id_rsa], [~/.ssh/id_ed25519] whose
    expanded path exists and stores that expanded path as the key path;
    when none exists it raises the [ValueError] that asks for a
    credential, whatever the other fields are. *)
Theorem validate_default_key (c : JetsonConfig) (w : W) :
  Py.truthy (device_ip c) = true →
  Py.truthy_opt (ssh_key_path c) = false →
  Py.truthy_opt (password c) = false →
  (∀ l1 p l2,
     default_key_paths = l1 ++ p :: l2 →
     (∀ q, In q l1 → path_exists (expanduser q w) w = false) →
     path_exists (expanduser p w) w = true →
     Py.truthy (expanduser p w) = true →
     path_exists (expanduser (expanduser p w) w) w = true →
     0 < timeout c → 0 ≤ max_retries c →
     validate c w = (w, Ok (set_ssh_key_path (Some (expanduser p w)) c)))
  ∧ ((∀ q, In q default_key_paths → path_exists (expanduser q w) w = false) →
     validate c w = (w, Raise (mk_exn ValueError no_credentials_text))).
Proof.
  destruct c as [ip user key pw base tmo retries]. fields.
  intros Hip Hk Hp. split.
  - intros l1 p l2 Hl Hno Hex Htk Hex' Ht Hr.
    assert ((tmo <=? 0) = false) as Ht' by lia.
    assert ((retries <? 0) = false) as Hr' by lia.
    unfold validate, bind, gets, raise, ret, set_ssh_key_path. fields.
    rewrite Hip. fields. rewrite check_ip_ok, Hk, Hp. fields.
    rewrite Hl, (find_default_key_first l1 p l2 w Hno Hex). fields.
    rewrite Htk. fields. rewrite Htk, Hex'. fields. by rewrite Ht', Hr'.
  - intros Hno.
    unfold validate, bind, gets, raise, ret, set_ssh_key_path. fields.
    rewrite Hip. fields. rewrite check_ip_ok, Hk, Hp. fields.
    rewrite (find_default_key_none _ w Hno). fields. by rewrite Hk.
Qed.

(** X4.  [validate] is idempotent: a configuration that it returned is
    returned again, unchanged, by a second call in the same world. *)
Theorem validate_idempotent (c c' : JetsonConfig) (w w' : W) :
  validate c w = (w', Ok c') → validate c' w = (w, Ok c').
Proof.
  intros H.
  assert (Py.truthy (device_ip c) = true) as Hip.
  { destruct (Py.truthy (device_ip c)) eqn:Hip; [done|].
    unfold validate in H. rewrite Hip in H. discriminate H. }
  apply validate_ok_inv in H as (-> & Ht & Hr & Hcases).
  destruct Hcases as [(k & Hk & Htk & Hex & ->) | [(Hk & Hp & ->) | (Hk & Hp & k & Htk & Hex & ->)]].
  - apply validate_checked; try done; try lia. left. by exists k.
  - apply validate_checked; try done; try lia. by right.
  - destruct c as [ip user key pw base tmo retries]. unfold set_ssh_key_path. fields.
    apply validate_checked; fields; try done; try lia. left. by exists k.
Qed.

End ValidateFacts.

Lemma validate_accepts_witness :
  validate (set_password (Some "pw") (default_config "999.999.999.999")) Sim.quiet
  = (Sim.quiet, Ok (set_password (Some "pw") (default_config "999.999.999.999"))).
Proof.
  apply validate_accepts; [reflexivity | reflexivity | discriminate |].
  right. split; reflexivity.
Defined.

Lemma validate_errors_witness :
  validate (default_config "10.0.0.5") Sim.quiet
  = (Sim.quiet, Raise (mk_exn ValueError no_credentials_text))
  ∧ Py.truthy_opt (find_default_key default_key_paths Sim.quiet) = false.
Proof.
  assert (validate (default_config "10.0.0.5") Sim.quiet
          = (Sim.quiet, Raise (mk_exn ValueError no_credentials_text))) as Hv
    by (vm_compute; reflexivity).
  split; [exact Hv |].
  destruct (validate_errors _ _ _ _ Hv) as (_ & Hvalue & _).
  destruct (Hvalue eq_refl) as [[H _] | [(_ & _ & H & _) | [[H _] | (_ & H & _)]]].
  - discriminate H.
  - exact H.
  - exfalso. revert H. vm_compute. intros H. by apply H.
  - exfalso. revert H. vm_compute. discriminate.
Defined.

Lemma validate_default_key_witness :
  validate (default_config "10.0.0.5")
    (Sim.add_local "/home/user/.ssh/id_rsa" (text_file "key") Sim.quiet)
  = (Sim.add_local "/home/user/.ssh/id_rsa" (text_file "key") Sim.quiet,
     Ok (set_ssh_key_path (Some "/home/user/.ssh/id_rsa") (default_config "10.0.0.5"))).
Proof.
  pose proof (proj1 (validate_default_key (default_config "10.0.0.5")
                       (Sim.add_local "/home/user/.ssh/id_rsa" (text_file "key") Sim.quiet)
                       eq_refl eq_refl eq_refl)) as H.
  apply (H ["~/.ssh/jetson_key"] "~/.ssh/id_rsa" ["~/.ssh/id_ed25519"]);
    try (vm_compute; reflexivity).
  - intros q [<- | []]. vm_compute. reflexivity.
  - vm_compute. discriminate.
Defined.

Lemma validate_idempotent_witness :
  validate Sim.key_and_password Sim.disk_with_key
  = (Sim.disk_with_key, Ok Sim.key_and_password).
Proof.
  exact (validate_idempotent Sim.key_and_password Sim.key_and_password
           Sim.disk_with_key Sim.disk_with_key eq_refl).
Defined.

(** ** ssh_manager.py: the operations built on [execute_command] *)

Section ManagerRestFacts.
Context {W : Type} {E : Env W}.
Variable config : JetsonConfig.

Lemma close_eq (st : State W) :
  close st
  = (mkState None (match _ssh_client st with
                   | Some c => SSHClient_close c (world st)
                   | None => world st
                   end), Ok tt).
Proof.
  unfold close, bind, gets, lift_step, set_ssh_client, step.
  destruct st as [[c|] w]; reflexivity.
Qed.

(** X5.  [close] never raises and leaves no client cached; without a cached
    client it changes nothing, so a second [close] in succession changes
    nothing.  A [with] block over the manager ends with no client cached
    whether its body returned or raised, and gives what the body gave. *)
Theorem close_releases_the_session {A : Type} (body : M (State W) A) (st : State W) :
  (close st).2 = Ok tt
  ∧ _ssh_client (close st).1 = None
  ∧ (_ssh_client st = None → close st = (st, Ok tt))
  ∧ close (close st).1 = ((close st).1, Ok tt)
  ∧ _ssh_client (with_manager body st).1 = None
  ∧ (with_manager body st).2 = (body st).2.
Proof.
  rewrite !close_eq. cbn [fst snd _ssh_client world].
  split; [done | split; [done | split; [| split; [done | split]]]].
  - intros Hn. destruct st as [c w]. cbn in Hn. by subst c.
  - unfold with_manager. destruct (body st) as [st' r]. by rewrite close_eq.
  - unfold with_manager. by destruct (body st) as [st' r].
Qed.

(** A command that comes back without success stops [run_mkdirs]. *)
Lemma run_mkdirs_app l1 l2 (st : State W) :
  run_mkdirs config (l1 ++ l2) st
  = (run_mkdirs config l1 ;;; run_mkdirs config l2) st.
Proof.
  revert st. induction l1 as [|cmd l1 IH]; intros st; [reflexivity|].
  cbn [app run_mkdirs]. unfold bind.
  destruct (execute_command config cmd None st) as [st1 [res|e]]; [| reflexivity].
  destruct (negb (success res)); [reflexivity |].
  unfold ret. rewrite IH. reflexivity.
Qed.

(** X6.  [create_deployment_directory] returns the path
    [<base>/<name>], and only that; it issues its four [mkdir -p] in order
    and stops at the first that ends with a non-zero status, raising
    "Failed to create directory: " with the error output of that command,
    in the state that command left. *)
Theorem create_deployment_directory_stops_at_failure (name : string) (st : State W) :
  let path := deployment_base_path config +:+ "/" +:+ name in
  (∀ st' p, create_deployment_directory config name st = (st', Ok p) → p = path)
  ∧ (∀ l1 cmd l2 st1 st2 res,
       directory_commands path = l1 ++ cmd :: l2 →
       run_mkdirs config l1 st = (st1, Ok tt) →
       execute_command config cmd None st1 = (st2, Ok res) →
       success res = false →
       create_deployment_directory config name st
       = (st2, Raise (mk_exn Exception
                        ("Failed to create directory: " +:+ stderr res)))).
Proof.
  intros path. split.
  - intros st' p. unfold create_deployment_directory, bind, ret. fold path.
    destruct (run_mkdirs config (directory_commands path) st) as [st1 [[]|e]];
      [by intros [= _ <-] | discriminate].
  - intros l1 cmd l2 st1 st2 res Hl H1 Hc Hs.
    assert (run_mkdirs config (l1 ++ cmd :: l2) st
            = (st2, Raise (mk_exn Exception
                             ("Failed to create directory: " +:+ stderr res)))) as Hr.
    { rewrite run_mkdirs_app. rewrite (bind_ok _ _ _ _ _ H1).
      cbn [run_mkdirs]. rewrite (bind_ok _ _ _ _ _ Hc). rewrite Hs. reflexivity. }
    unfold create_deployment_directory. fold path. rewrite Hl.
    by rewrite (bind_raise _ _ _ _ _ Hr).
Qed.

(** X7.  [extract_deployment_package] raises "Package extraction failed: "
    with the error output when [tar] ends with a non-zero status, and then
    sends nothing more; when [tar] succeeds it returns as soon as the
    [chmod] command comes back, whatever the status of that command. *)
Theorem extract_deployment_package_checks_tar_only
  (package_path extraction_path : string) (st : State W) :
  let extract_cmd := "cd " +:+ extraction_path +:+ " && tar -xzf " +:+ package_path in
  let chmod_cmd := "find " +:+ extraction_path +:+ " -name '*.sh' -exec chmod +x {} +" in
  (∀ st1 res,
     execute_command config extract_cmd None st = (st1, Ok res) →
     success res = false →
     extract_deployment_package config package_path extraction_path st
     = (st1, Raise (mk_exn Exception ("Package extraction failed: " +:+ stderr res))))
  ∧ (∀ st1 res st2 res',
       execute_command config extract_cmd None st = (st1, Ok res) →
       success res = true →
       execute_command config chmod_cmd None st1 = (st2, Ok res') →
       extract_deployment_package config package_path extraction_path st
       = (st2, Ok tt)).
Proof.
  intros extract_cmd chmod_cmd. split.
  - intros st1 res Hx Hs. unfold extract_deployment_package.
    rewrite (bind_ok _ _ _ _ _ Hx). rewrite Hs. reflexivity.
  - intros st1 res st2 res' Hx Hs Hc. unfold extract_deployment_package.
    rewrite (bind_ok _ _ _ _ _ Hx). rewrite Hs. cbn [negb].
    unfold bind at 1. unfold ret at 1.
    rewrite (bind_ok _ _ _ _ _ Hc). reflexivity.
Qed.

(** X8.  [SSHManager.cleanup_deployment] sends the command that
    [_cleanup_deployment_files] of the plugin sends and ends in the same
    state; it returns whenever the command comes back, successful or not,
    and, unlike the plugin's, lets an exception of [execute_command]
    through unchanged. *)
Theorem cleanup_deployment_propagates (name : string) (st : State W) :
  (cleanup_deployment config name st).1 = (_cleanup_deployment_files config name st).1
  ∧ (∀ st1 res,
       execute_command config ("rm -rf " +:+ deployment_dir config name) None st
       = (st1, Ok res) →
       cleanup_deployment config name st = (st1, Ok tt))
  ∧ (∀ st1 e,
       execute_command config ("rm -rf " +:+ deployment_dir config name) None st
       = (st1, Raise e) →
       cleanup_deployment config name st = (st1, Raise e)
       ∧ _cleanup_deployment_files config name st = (st1, Ok tt)).
Proof.
  rewrite cleanup_deployment_files_eq.
  unfold cleanup_deployment, deployment_dir, bind, ret.
  split; [| split].
  - by destruct (execute_command config _ None st) as [st1 [res|e]].
  - intros st1 res Hx. by rewrite Hx.
  - intros st1 e Hx. by rewrite Hx.
Qed.

(** X9.  [transfer_file] raises the [ConnectionError] of [connect] as it
    is, and everything else as "SCP transfer failed: " with the text of the
    cause.  The status of its [mkdir -p] is not looked at: when the session
    and the SCP client are there, the command comes back and the upload
    goes through, it returns, and the SCP client has been closed. *)
Theorem transfer_file_outcomes (local_path remote_path : string) (st : State W) :
  (∀ st' e, transfer_file config local_path remote_path st = (st', Raise e) →
     (class_of e = ConnectionError ∧ connect config st = (st', Raise e))
     ∨ (class_of e = Exception
        ∧ ∃ cause, str_exn e = "SCP transfer failed: " +:+ str_exn cause))
  ∧ (∀ st1 c w2 scp st3 res w4 u,
       connect config st = (st1, Ok c) →
       SCPClient_open c (world st1) = (w2, Ok scp) →
       execute_command config
         ("mkdir -p " +:+ Py.path_str (Py.parent (Py.to_Path remote_path))) None
         (mkState (_ssh_client st1) w2) = (st3, Ok res) →
       SCPClient_put scp local_path remote_path (world st3) = (w4, Ok u) →
       transfer_file config local_path remote_path st
       = (mkState (_ssh_client st3) (SCPClient_close scp w4), Ok tt)).
Proof.
  split.
  - intros st' e. unfold transfer_file. unfold bind at 1.
    destruct (connect config st) as [st1 [c|e0]] eqn:Hc.
    + unfold try_except, raise.
      destruct (with_scp c _ st1) as [st2 [[]|cause]]; [discriminate |].
      intros [= <- <-]. right. split; [done | by exists cause].
    + intros [= <- <-]. left. split; [| done].
      by destruct (connect_raises _ _ _ _ Hc).
  - intros st1 c w2 scp st3 res w4 [] Hc Ho Hm Hp.
    unfold transfer_file. rewrite (bind_ok _ _ _ _ _ Hc).
    unfold try_except, with_scp. unfold bind at 1. unfold lift at 1.
    rewrite Ho. unfold bind. rewrite Hm. unfold lift. by rewrite Hp.
Qed.

End ManagerRestFacts.

Section HealthFacts.
Context {W : Type} {E : Env W} {H : Http W}.
Variable config : JetsonConfig.

(** X10.  [check_service_health] never raises.  When the [netstat] command
    comes back, the port counts as listening if the command succeeded and
    its output contains the digits of the port, the HTTP probe of
    [http://<device>:<port>/health] counts as responsive if it answered
    200, a probe that raises counts as unresponsive, and [healthy] holds
    exactly when both do.  When [execute_command] raises, the answer is
    unhealthy and carries the text of the exception. *)
Theorem check_service_health_never_raises (port : Z) (st : State W) :
  let netstat := "netstat -tulpn | grep :" +:+ Py.repr_int port in
  let url := "http://" +:+ device_ip config +:+ ":" +:+ Py.repr_int port +:+ "/health" in
  ∃ st' h,
    check_service_health config port st = (st', Ok h)
    ∧ (healthy h = true ↔ port_listening h = Some true ∧ http_responsive h = Some true)
    ∧ (∀ st1 e, execute_command config netstat None st = (st1, Raise e) →
         healthy h = false ∧ h_error h = Some (str_exn e) ∧ port_listening h = None)
    ∧ (∀ st1 res, execute_command config netstat None st = (st1, Ok res) →
         h_error h = None
         ∧ port_listening h
           = Some (success res && Py.is_substring (Py.repr_int port) (stdout res))
         ∧ (∀ w2 e, requests_get url 10 (world st1) = (w2, Raise e) →
              http_responsive h = Some false ∧ response_time h = None
              ∧ healthy h = false)
         ∧ (∀ w2 code secs, requests_get url 10 (world st1) = (w2, Ok (code, secs)) →
              http_responsive h = Some (code =? 200) ∧ response_time h = Some secs)).
Proof.
  intros netstat url.
  unfold check_service_health. fold netstat url.
  unfold try_except at 1. unfold bind at 1.
  destruct (execute_command config netstat None st) as [st1 [res|e]] eqn:Hn.
  - unfold try_except, bind, lift, ret, isoformat_now.
    destruct (requests_get url 10 (world st1)) as [w2 [[code secs]|e]] eqn:Hg;
      cbn [world _ssh_client fst snd];
      destruct (now_isoformat w2) as [w3 now]; eexists _, _; (split; [reflexivity |]);
      cbn [healthy port_listening http_responsive response_time h_error].
    + split.
      { rewrite andb_true_iff.
        split; [intros [-> ->]; done | intros [[= ->] [= ->]]; done]. }
      split; [intros st1' e' Heq; discriminate Heq |].
      intros st1' res' Heq. injection Heq as <- <-.
      split; [reflexivity |]. split; [reflexivity |]. split.
      * intros w2' e' Hg'. rewrite Hg in Hg'. discriminate Hg'.
      * intros w2' code' secs' Hg'. rewrite Hg in Hg'.
        injection Hg' as _ <- <-. done.
    + split.
      { rewrite andb_false_r. split; [discriminate | intros [_ Hf]; discriminate Hf]. }
      split; [intros st1' e' Heq; discriminate Heq |].
      intros st1' res' Heq. injection Heq as <- <-.
      split; [reflexivity |]. split; [reflexivity |]. split.
      * intros w2' e' _. by rewrite andb_false_r.
      * intros w2' code' secs' Hg'. rewrite Hg in Hg'. discriminate Hg'.
  - unfold bind, ret, isoformat_now.
    destruct (now_isoformat (world st1)) as [w3 now]. eexists _, _.
    split; [reflexivity |].
    cbn [healthy port_listening http_responsive response_time h_error].
    split; [split; [discriminate | intros [Hf _]; discriminate Hf] |].
    split; [| intros st1' res' Heq; discriminate Heq].
    intros st1' e' Heq. injection Heq as <- <-. done.
Qed.

End HealthFacts.

(** A manager with a cached client, and a body that raises. *)
Lemma close_releases_the_session_witness :
  close (mkState (@None Client) Sim.quiet) = (mkState None Sim.quiet, Ok tt).
Proof.
  exact (proj1 (proj2 (proj2 (close_releases_the_session
                                (raise (A := unit) (mk_exn Exception "x"))
                                (mkState None Sim.quiet)))) eq_refl).
Defined.

(** The device answers the first [mkdir] with a non-zero status. *)
Lemma create_deployment_directory_stops_at_failure_witness :
  let w := Sim.with_printed
             [("mkdir -p /home/newcastleuni/mlflow_deployments/demo",
               (1, [], list_byte_of_string "mkdir: Permission denied"))] Sim.quiet in
  (create_deployment_directory Sim.cfg "demo" (Sim.start w)).2
  = Raise (mk_exn Exception "Failed to create directory: mkdir: Permission denied").
Proof.
  intros w.
  pose proof (create_deployment_directory_stops_at_failure Sim.cfg "demo" (Sim.start w))
    as Hthm.
  cbv zeta in Hthm. destruct Hthm as [_ Hthm].
  assert (∃ st2, create_deployment_directory Sim.cfg "demo" (Sim.start w)
                 = (st2, Raise (mk_exn Exception
                                  "Failed to create directory: mkdir: Permission denied")))
    as [st2 ->]; [| reflexivity].
  eexists.
  eapply (Hthm [] _ _ (Sim.start w)) with (res := {| exit_status := 1; stdout := "";
            stderr := "mkdir: Permission denied";
            command := "mkdir -p /home/newcastleuni/mlflow_deployments/demo";
            success := false |});
    [reflexivity | reflexivity | vm_compute; reflexivity | reflexivity].
Defined.

Lemma extract_deployment_package_checks_tar_only_witness :
  (extract_deployment_package Sim.cfg "files_package.tar.gz" "/d" (Sim.start Sim.quiet)).2
  = Raise (mk_exn Exception
             "Package extraction failed: tar: files_package.tar.gz: Cannot open").
Proof.
  pose proof (extract_deployment_package_checks_tar_only Sim.cfg "files_package.tar.gz"
                "/d" (Sim.start Sim.quiet)) as Hthm.
  cbv zeta in Hthm. destruct Hthm as [Hthm _].
  assert (∃ st1, extract_deployment_package Sim.cfg "files_package.tar.gz" "/d"
                   (Sim.start Sim.quiet)
                 = (st1, Raise (mk_exn Exception
                      "Package extraction failed: tar: files_package.tar.gz: Cannot open")))
    as [st1 ->]; [| reflexivity].
  eexists.
  eapply Hthm with (res := {| exit_status := 2; stdout := "";
            stderr := "tar: files_package.tar.gz: Cannot open";
            command := "cd /d && tar -xzf files_package.tar.gz";
            success := false |});
    [vm_compute; reflexivity | reflexivity].
Defined.

(** The network is down: the manager's cleanup raises, the plugin's
    returns. *)
Lemma cleanup_deployment_propagates_witness :
  raised (cleanup_deployment Sim.cfg "demo" (Sim.start Sim.link_down_once))
  ∧ (_cleanup_deployment_files Sim.cfg "demo" (Sim.start Sim.link_down_once)).2 = Ok tt.
Proof.
  pose proof (proj2 (proj2 (cleanup_deployment_propagates Sim.cfg "demo"
                              (Sim.start Sim.link_down_once)))) as Hthm.
  edestruct Hthm as [H1 H2]; [vm_compute; reflexivity |].
  rewrite H1, H2. split; [by eexists | reflexivity].
Defined.

(** The local file is missing: the upload raises inside the [try]. *)
Lemma transfer_file_outcomes_witness :
  class_of (mk_exn Exception "SCP transfer failed: No such file or directory")
  = ConnectionError
  ∨ ∃ cause, "SCP transfer failed: No such file or directory"
             = "SCP transfer failed: " +:+ str_exn cause.
Proof.
  pose proof (proj1 (transfer_file_outcomes Sim.cfg "/tmp/none" "/r/f.tar.gz"
                       (Sim.start Sim.quiet))) as Hthm.
  edestruct Hthm as [[Hc _] | [_ Hx]]; [vm_compute; reflexivity | by left | by right].
Defined.

(** The device lists the port and answers the health request. *)
Lemma check_service_health_never_raises_witness :
  let w := Sim.with_printed
             [("netstat -tulpn | grep :8080",
               (0, list_byte_of_string "tcp 0 0 0.0.0.0:8080 LISTEN", []))] Sim.quiet in
  ∃ st' h, check_service_health Sim.cfg 8080 (Sim.start w) = (st', Ok h)
           ∧ healthy h = true.
Proof.
  intros w.
  destruct (check_service_health_never_raises Sim.cfg 8080 (Sim.start w))
    as (st' & h & Hh & Hiff & _ & Hok).
  exists st', h. split; [exact Hh |]. apply Hiff.
  edestruct Hok as (_ & Hp & _ & Hr); [vm_compute; reflexivity |].
  split; [rewrite Hp; vm_compute; reflexivity |].
  edestruct Hr as [Hr' _]; [vm_compute; reflexivity |]. rewrite Hr'. reflexivity.
Defined.

(** ** simple_plugin.py: the steps of a deployment *)

Section StepFacts.
Context {W : Type} {E : Env W}.
Variable config : JetsonConfig.
Variable face_recognition_files : gmap string (option string).

(** The paths in what the two steps return. *)
Lemma transfer_files_path pi name st st' ti :
  _transfer_files config pi name st = (st', Ok ti) →
  remote_deployment_path ti = deployment_dir config name.
Proof.
  unfold _transfer_files, try_except, bind, ret, raise.
  destruct (execute_command config _ None st) as [st1 [res|e]]; [| discriminate].
  destruct (transfer_file config _ _ st1) as [st2 [[]|e]]; [| discriminate].
  by intros [= _ <-].
Qed.

Lemma extract_files_path ti name st st' ei :
  _extract_files config ti name st = (st', Ok ei) →
  deployment_path ei = remote_deployment_path ti.
Proof.
  unfold _extract_files, try_except, bind, ret, raise.
  destruct (execute_command config _ None st) as [st1 [res|e]]; [| discriminate].
  destruct (negb (success res)); [discriminate |].
  destruct (execute_command config _ None st1) as [st2 [res2|e]]; [| discriminate].
  destruct (execute_command config _ None st2) as [st3 [res3|e]]; [| discriminate].
  destruct (now_isoformat (world st3)) as [w4 now]. by intros [= _ <-].
Qed.

(** X11.  [_transfer_files] uploads to [<base>/<name>/files_package.tar.gz]:
    when it returns, those are the paths it reports.  It does not look at
    the status of its [mkdir -p]: the upload is attempted whenever that
    command comes back.  Whatever it raises is an [Exception] that reads
    "Failed to transfer files: " and the text of the cause. *)
Theorem transfer_files_outcomes (pi : package_info) (name : string) (st : State W) :
  let dir := deployment_dir config name in
  (∀ st' ti, _transfer_files config pi name st = (st', Ok ti) →
     remote_deployment_path ti = dir
     ∧ remote_package_path ti = dir +:+ "/files_package.tar.gz"
     ∧ package_size_mb ti = size_mb pi)
  ∧ (∀ st1 res,
       execute_command config ("mkdir -p " +:+ dir) None st = (st1, Ok res) →
       (_transfer_files config pi name st).1
       = (transfer_file config (package_path pi) (dir +:+ "/files_package.tar.gz") st1).1)
  ∧ (∀ st' e, _transfer_files config pi name st = (st', Raise e) →
       class_of e = Exception
       ∧ ∃ cause, str_exn e = "Failed to transfer files: " +:+ str_exn cause).
Proof.
  intros dir. unfold _transfer_files, try_except. fold dir.
  split; [| split].
  - intros st' ti. unfold bind, ret, raise.
    destruct (execute_command config _ None st) as [st1 [res|e]]; [| discriminate].
    destruct (transfer_file config _ _ st1) as [st2 [[]|e]]; [| discriminate].
    by intros [= _ <-].
  - intros st1 res Hm. rewrite (bind_ok _ _ _ _ _ Hm). unfold bind, ret, raise.
    by destruct (transfer_file config _ _ st1) as [st2 [[]|e]].
  - intros st' e. unfold bind, ret, raise.
    destruct (execute_command config _ None st) as [st1 [res|e1]].
    + destruct (transfer_file config _ _ st1) as [st2 [[]|e2]]; [discriminate |].
      intros [= <- <-]. split; [done | by exists e2].
    + intros [= <- <-]. split; [done | by exists e1].
Qed.

(** X12.  [_extract_files] checks the status of [tar] and of nothing else.
    When [tar] ends with a non-zero status it raises "Failed to extract
    files: Extraction failed: " with the error output, and neither the
    [chmod] nor the removal of the archive is sent.  When [tar] succeeds
    and the two later commands come back, with whatever status, it returns
    the deployment path it was given, marked "extracted". *)
Theorem extract_files_outcomes (ti : transfer_info) (name : string) (st : State W) :
  let dir := remote_deployment_path ti in
  let extract_cmd := "cd " +:+ dir +:+ " && tar -xzf files_package.tar.gz" in
  let chmod_cmd := "find " +:+ dir +:+ " -type f -name '*.py' -exec chmod +x {} +" in
  let cleanup_cmd := "rm -f " +:+ remote_package_path ti in
  (∀ st1 res,
     execute_command config extract_cmd None st = (st1, Ok res) →
     success res = false →
     _extract_files config ti name st
     = (st1, Raise (mk_exn Exception
                      ("Failed to extract files: Extraction failed: " +:+ stderr res))))
  ∧ (∀ st1 res st2 res2 st3 res3,
       execute_command config extract_cmd None st = (st1, Ok res) →
       success res = true →
       execute_command config chmod_cmd None st1 = (st2, Ok res2) →
       execute_command config cleanup_cmd None st2 = (st3, Ok res3) →
       ∃ st4 ei, _extract_files config ti name st = (st4, Ok ei)
                 ∧ world st4 = (now_isoformat (world st3)).1
                 ∧ deployment_path ei = dir ∧ ei_status ei = "extracted")
  ∧ (∀ st' ei, _extract_files config ti name st = (st', Ok ei) →
       deployment_path ei = dir)
  ∧ (∀ st' e, _extract_files config ti name st = (st', Raise e) →
       class_of e = Exception
       ∧ ∃ cause, str_exn e = "Failed to extract files: " +:+ str_exn cause).
Proof.
  intros dir extract_cmd chmod_cmd cleanup_cmd.
  unfold _extract_files, try_except. fold dir. fold extract_cmd chmod_cmd cleanup_cmd.
  split; [| split; [| split]].
  - intros st1 res Hx Hs. rewrite (bind_ok _ _ _ _ _ Hx). rewrite Hs. reflexivity.
  - intros st1 res st2 res2 st3 res3 Hx Hs Hc Hr.
    rewrite (bind_ok _ _ _ _ _ Hx). rewrite Hs. cbn [negb].
    unfold bind at 1. unfold ret at 1.
    rewrite (bind_ok _ _ _ _ _ Hc), (bind_ok _ _ _ _ _ Hr).
    unfold bind, ret. destruct (now_isoformat (world st3)) as [w4 now].
    eexists _, _. split; [reflexivity |]. done.
  - intros st' ei. unfold bind, ret, raise.
    destruct (execute_command config extract_cmd None st) as [st1 [res|e]]; [| discriminate].
    destruct (negb (success res)); [discriminate |].
    destruct (execute_command config chmod_cmd None st1) as [st2 [res2|e]]; [| discriminate].
    destruct (execute_command config cleanup_cmd None st2) as [st3 [res3|e]]; [| discriminate].
    destruct (now_isoformat (world st3)) as [w4 now]. by intros [= _ <-].
  - intros st' e. unfold bind, ret, raise.
    destruct (execute_command config extract_cmd None st) as [st1 [res|e1]];
      [| intros [= <- <-]; split; [done | by exists e1]].
    destruct (negb (success res));
      [intros [= <- <-]; split; [done | by eexists (mk_exn Exception _)] |].
    destruct (execute_command config chmod_cmd None st1) as [st2 [res2|e2]];
      [| intros [= <- <-]; split; [done | by exists e2]].
    destruct (execute_command config cleanup_cmd None st2) as [st3 [res3|e3]];
      [| intros [= <- <-]; split; [done | by exists e3]].
    destruct (now_isoformat (world st3)) as [w4 now]. discriminate.
Qed.

(** X13.  A deployment that [create_deployment] reports as done is at
    [<base>/<name>]: the result carries that path, the name and the model
    locator given, the flavor given or "pytorch" when none or an empty one
    was given, the configuration given or the empty one, and the status
    "files_transferred". *)
Theorem create_deployment_result (name uri : string) (flv : option string)
  (cfg : option dict) (st st' : State W) (r : deployment_result) :
  create_deployment config face_recognition_files name uri flv cfg st = (st', Ok r) →
  jetson_path r = deployment_dir config name
  ∧ dr_name r = name ∧ dr_model_uri r = uri
  ∧ flavor r = match flv with
               | Some f => if Py.truthy f then f else "pytorch"
               | None => "pytorch"
               end
  ∧ dr_config r = match cfg with Some d => d | None => [] end
  ∧ dr_status r = "files_transferred"
  ∧ deployment_type r = "file_transfer_only".
Proof.
  intros Hc.
  destruct (create_steps config face_recognition_files name uri flv
              (match cfg with Some d => d | None => [] end) st) as [st1 [r'|e]] eqn:Hs.
  2:{ by rewrite (create_deployment_raise _ _ _ _ _ _ _ _ _ Hs) in Hc. }
  rewrite (create_deployment_ok _ _ _ _ _ _ _ _ _ Hs) in Hc. injection Hc as <- <-.
  unfold create_steps, bind, ret in Hs.
  destruct (_download_model uri st) as [st2 [mi|?]]; [| discriminate].
  destruct (lift _ st2) as [st3 [pi|?]]; [| discriminate].
  destruct (_transfer_files config pi name st3) as [st4 [ti|?]] eqn:Ht; [| discriminate].
  destruct (_extract_files config ti name st4) as [st5 [ei|?]] eqn:Hx; [| discriminate].
  injection Hs as <- <-. cbn.
  rewrite (extract_files_path _ _ _ _ _ Hx), (transfer_files_path _ _ _ _ _ Ht). done.
Qed.

(** X14.  What leaves the public operations of the plugin: [create],
    [update] and [get] raise [MlflowException] and nothing else, [predict]
    always raises it and changes nothing, [delete] and [list] do not
    raise. *)
Theorem only_MlflowException_leaves_the_plugin (st : State W) :
  (∀ name uri flv cfg st' e,
     create_deployment config face_recognition_files name uri flv cfg st = (st', Raise e) →
     class_of e = MlflowException)
  ∧ (∀ name uri flv cfg st' e,
       update_deployment config face_recognition_files name uri flv cfg st = (st', Raise e) →
       class_of e = MlflowException)
  ∧ (∀ name st' e, get_deployment config name st = (st', Raise e) →
       class_of e = MlflowException)
  ∧ (∃ e, predict st = (st, Raise e) ∧ class_of e = MlflowException)
  ∧ (∀ name, (delete_deployment config name st).2 = Ok tt)
  ∧ (∃ l, (list_deployments config st).2 = Ok l).
Proof.
  split; [| split; [| split; [| split; [| split]]]].
  - intros name uri flv cfg st' e. unfold create_deployment, try_except, bind, raise.
    destruct (create_steps _ _ _ _ _ _ st) as [st1 [r|e1]]; [discriminate |].
    rewrite cleanup_failed_transfer_eq. by intros [= _ <-].
  - intros name uri flv cfg st' e. unfold update_deployment, try_except, raise.
    destruct (bind _ _ st) as [st1 [r|e1]]; [discriminate | by intros [= _ <-]].
  - intros name st' e. unfold get_deployment, try_except, raise.
    destruct (bind _ _ st) as [st1 [r|e1]]; [discriminate | by intros [= _ <-]].
  - eexists. split; reflexivity.
  - intros name. by rewrite delete_deployment_eq.
  - rewrite list_deployments_eq.
    destruct (list_steps config st) as [st1 [l|e]]; by eexists.
Qed.

End StepFacts.

(** The package is on the local disk and the network is up. *)
Lemma transfer_files_outcomes_witness :
  let pi := {| package_path := "/tmp/p.tar.gz"; pi_deployment_name := "demo";
               pi_created_at := "2025-01-01T00:00:00"; size_mb := Qmake 1 2;
               included_files := ["README.txt"] |} in
  let w := Sim.add_local "/tmp/p.tar.gz" (text_file "archive") Sim.quiet in
  ∃ st' ti, _transfer_files Sim.cfg pi "demo" (Sim.start w) = (st', Ok ti)
            ∧ remote_package_path ti
              = "/home/newcastleuni/mlflow_deployments/demo/files_package.tar.gz".
Proof.
  intros pi w.
  assert (∃ st' ti, _transfer_files Sim.cfg pi "demo" (Sim.start w) = (st', Ok ti))
    as (st' & ti & Hrun) by (eexists _, _; vm_compute; reflexivity).
  exists st', ti. split; [exact Hrun |].
  pose proof (transfer_files_outcomes Sim.cfg pi "demo" (Sim.start w)) as Hthm.
  cbv zeta in Hthm. destruct Hthm as (Hok & _ & _).
  destruct (Hok _ _ Hrun) as (_ & Hp & _). rewrite Hp. reflexivity.
Defined.

(** No archive was uploaded: [tar] cannot open it. *)
Lemma extract_files_outcomes_witness :
  let ti := {| remote_package_path := Sim.demo_dir +:+ "/files_package.tar.gz";
               remote_deployment_path := Sim.demo_dir; package_size_mb := Qmake 1 2 |} in
  (_extract_files Sim.cfg ti "demo" (Sim.start Sim.quiet)).2
  = Raise (mk_exn Exception
             ("Failed to extract files: Extraction failed: "
              +:+ "tar: files_package.tar.gz: Cannot open")).
Proof.
  intros ti.
  pose proof (extract_files_outcomes Sim.cfg ti "demo" (Sim.start Sim.quiet)) as Hthm.
  cbv zeta in Hthm. destruct Hthm as (Hfail & _).
  assert (∃ st1, _extract_files Sim.cfg ti "demo" (Sim.start Sim.quiet)
                 = (st1, Raise (mk_exn Exception
                                  ("Failed to extract files: Extraction failed: "
                                   +:+ "tar: files_package.tar.gz: Cannot open"))))
    as [st1 ->]; [| reflexivity].
  eexists.
  eapply Hfail with (res := {| exit_status := 2; stdout := "";
            stderr := "tar: files_package.tar.gz: Cannot open";
            command := "cd /home/newcastleuni/mlflow_deployments/demo"
                       +:+ " && tar -xzf files_package.tar.gz";
            success := false |});
    [vm_compute; reflexivity | reflexivity].
Defined.

(** The registry knows the model and the network is up. *)
Lemma create_deployment_result_witness :
  ∃ st' r,
    create_deployment Sim.cfg initial_files "demo" "models:/face/1" None None
      (Sim.start Sim.quiet) = (st', Ok r)
    ∧ jetson_path r = "/home/newcastleuni/mlflow_deployments/demo"
    ∧ flavor r = "pytorch".
Proof.
  assert (∃ st' r,
            create_deployment Sim.cfg initial_files "demo" "models:/face/1" None None
              (Sim.start Sim.quiet) = (st', Ok r))
    as (st' & r & Hrun) by (eexists _, _; vm_compute; reflexivity).
  exists st', r. split; [exact Hrun |].
  destruct (create_deployment_result Sim.cfg initial_files "demo" "models:/face/1"
              None None _ _ _ Hrun) as (Hp & _ & _ & Hf & _).
  split; [rewrite Hp; reflexivity | exact Hf].
Defined.

(** The registry does not know the model. *)
Lemma only_MlflowException_leaves_the_plugin_witness :
  ∃ st' e,
    create_deployment Sim.cfg initial_files "demo" "models:/missing/1" None None
      (Sim.start Sim.quiet) = (st', Raise e)
    ∧ class_of e = MlflowException.
Proof.
  assert (∃ st' e,
            create_deployment Sim.cfg initial_files "demo" "models:/missing/1" None None
              (Sim.start Sim.quiet) = (st', Raise e))
    as (st' & e & Hrun) by (eexists _, _; vm_compute; reflexivity).
  exists st', e. split; [exact Hrun |].
  exact (proj1 (only_MlflowException_leaves_the_plugin Sim.cfg initial_files
                  (Sim.start Sim.quiet)) _ _ _ _ _ _ Hrun).
Defined.

(** ** simple_plugin.py: the status of a deployment, listing and lookup *)

Section StatusFacts.
Context {W : Type} {E : Env W}.
Variable config : JetsonConfig.

(** The loop over the checks writes a boolean under each check name and
    leaves the other keys alone. *)
Lemma run_checks_shape l :
  ∀ fs st st' fs',
    run_checks config l fs st = (st', Ok fs') →
    (∀ k, k ∉ l.*1 → fs' !! k = fs !! k)
    ∧ (∀ k, k ∈ l.*1 → ∃ b, fs' !! k = Some (PBool b)).
Proof.
  induction l as [|[n c] l IH]; intros fs st st' fs' Hrun.
  - unfold run_checks, ret in Hrun. injection Hrun as <- <-.
    split; [done |]. intros k Hk. by apply not_elem_of_nil in Hk.
  - cbn [run_checks] in Hrun. unfold bind in Hrun.
    destruct (execute_command config c None st) as [st1 [res|e]]; [| discriminate].
    apply IH in Hrun as [Hout Hin]. split.
    + intros k Hk. cbn in Hk. apply not_elem_of_cons in Hk as [Hne Hk].
      rewrite (Hout k Hk). by rewrite lookup_insert_ne.
    + intros k Hk. destruct (decide (k ∈ l.*1)) as [Hl | Hl]; [by apply Hin |].
      cbn in Hk. apply elem_of_cons in Hk as [-> | Hk]; [| done].
      rewrite (Hout _ Hl), lookup_insert_eq. by eexists.
Qed.

(** The dictionary that the [try] block of [_check_deployment_files]
    builds. *)
Lemma check_steps_shape name st st' fs :
  check_steps config name st = (st', Ok fs) →
  ∃ z m f d p i,
    fs !! "file_count" = Some (PInt z)
    ∧ fs !! "has_model" = Some (PBool m)
    ∧ fs !! "has_face_features" = Some (PBool f)
    ∧ fs !! "has_face_database" = Some (PBool d)
    ∧ fs !! "has_model_params" = Some (PBool p)
    ∧ fs !! "has_inference_script" = Some (PBool i)
    ∧ fs !! "has_face_files" = Some (PBool (f && d && p))
    ∧ fs !! "error" = None
    ∧ ∀ st1 res,
        execute_command config
          ("find " +:+ deployment_dir config name +:+ " -type f | wc -l") None st
        = (st1, Ok res) →
        if success res then Py.int (stdout res) = Some z else z = 0.
Proof.
  unfold check_steps. intros Hrun.
  destruct (execute_command config _ None st) as [st1 [res|e]] eqn:Hcount.
  2:{ by rewrite (bind_raise _ _ _ _ _ Hcount) in Hrun. }
  rewrite (bind_ok _ _ _ _ _ Hcount) in Hrun. unfold bind in Hrun.
  assert (∃ z, (if success res
                then match Py.int (stdout res) with
                     | Some n => ret n
                     | None => raise (mk_exn ValueError
                                        ("invalid literal for int() with base 10: "
                                         +:+ Py.repr_str (stdout res)))
                     end
                else ret 0) st1 = (st1, Ok z)
               ∧ if success res then Py.int (stdout res) = Some z else z = 0)
    as (z & Hz & Hzrel).
  { destruct (success res); [| by exists 0].
    destruct (Py.int (stdout res)) as [n|]; [by exists n |].
    unfold raise in Hrun. discriminate Hrun. }
  rewrite Hz in Hrun.
  destruct (run_checks config _ _ st1) as [st2 [fs1|e]] eqn:Hchecks; [| discriminate].
  unfold ret in Hrun. injection Hrun as <- <-.
  apply run_checks_shape in Hchecks as [Hout Hin].
  cbn [checks fmap list_fmap fst] in Hout, Hin.
  destruct (Hin "has_model") as [m Hm]; [repeat first [apply list_elem_of_here | apply list_elem_of_further] |].
  destruct (Hin "has_face_features") as [f Hf]; [repeat first [apply list_elem_of_here | apply list_elem_of_further] |].
  destruct (Hin "has_face_database") as [d Hd]; [repeat first [apply list_elem_of_here | apply list_elem_of_further] |].
  destruct (Hin "has_model_params") as [p Hp]; [repeat first [apply list_elem_of_here | apply list_elem_of_further] |].
  destruct (Hin "has_inference_script") as [i Hi]; [repeat first [apply list_elem_of_here | apply list_elem_of_further] |].
  exists z, m, f, d, p, i.
  unfold get_flag. rewrite Hf, Hd, Hp. cbn [pyvalue_truthy].
  rewrite lookup_insert_eq. rewrite !lookup_insert_ne by done.
  rewrite Hm, Hf, Hd, Hp, Hi.
  rewrite !Hout by (repeat (apply not_elem_of_cons; split; [done |]); apply not_elem_of_nil).
  rewrite lookup_singleton_eq, lookup_singleton_ne by done.
  repeat (split; [reflexivity |]).
  intros st1' res' [= <- <-]. exact Hzrel.
Qed.

(** [_check_deployment_files] returns, with the three entries that a record
    of the listing reads or with the dictionary of a failed check. *)
Lemma check_deployment_files_returns (name : string) (st : State W) :
  ∃ st' fs,
    _check_deployment_files config name st = (st', Ok fs)
    ∧ ((∃ z m b, fs !! "file_count" = Some (PInt z)
                 ∧ fs !! "has_model" = Some (PBool m)
                 ∧ fs !! "has_face_files" = Some (PBool b))
       ∨ ∃ e, fs = <["error" := PStr (str_exn e)]> {[ "file_count" := PInt 0 ]}).
Proof.
  unfold _check_deployment_files.
  destruct (check_steps config name st) as [st' [fs|e]] eqn:Hsteps.
  - rewrite (try_ok _ _ _ _ _ Hsteps). exists st', fs. split; [done |]. left.
    destruct (check_steps_shape _ _ _ _ Hsteps)
      as (z & m & f & d & p & i & Hz & Hm & _ & _ & _ & _ & Hff & _).
    by exists z, m, (f && d && p).
  - rewrite (try_raise _ _ _ _ _ Hsteps). unfold ret. eexists _, _. split; [done |].
    right. by exists e.
Qed.

(** X15.  [_check_deployment_files] always returns a dictionary with an
    integer under ["file_count"].  Either every command went through: then
    the five flags are booleans, ["has_face_files"] is the conjunction of
    the flags for the features, the database and the parameters, the count
    is the number that [wc -l] printed, or 0 when the counting command
    ended with a non-zero status, and there is no ["error"].  Or something
    raised: then the dictionary is [{"file_count": 0, "error": <text>}] and
    has none of the flags. *)
Theorem check_deployment_files_shape (name : string) (st : State W) :
  ∃ st' fs,
    _check_deployment_files config name st = (st', Ok fs)
    ∧ (∃ z, fs !! "file_count" = Some (PInt z))
    ∧ ((check_steps config name st = (st', Ok fs)
        ∧ ∃ z m f d p i,
            fs !! "file_count" = Some (PInt z)
            ∧ fs !! "has_model" = Some (PBool m)
            ∧ fs !! "has_face_features" = Some (PBool f)
            ∧ fs !! "has_face_database" = Some (PBool d)
            ∧ fs !! "has_model_params" = Some (PBool p)
            ∧ fs !! "has_inference_script" = Some (PBool i)
            ∧ fs !! "has_face_files" = Some (PBool (f && d && p))
            ∧ fs !! "error" = None
            ∧ ∀ st1 res,
                execute_command config
                  ("find " +:+ deployment_dir config name +:+ " -type f | wc -l") None st
                = (st1, Ok res) →
                if success res then Py.int (stdout res) = Some z else z = 0)
       ∨ (∃ e, check_steps config name st = (st', Raise e)
               ∧ fs = <["error" := PStr (str_exn e)]> {[ "file_count" := PInt 0 ]}
               ∧ fs !! "has_model" = None ∧ fs !! "has_face_files" = None)).
Proof.
  unfold _check_deployment_files.
  destruct (check_steps config name st) as [st' [fs|e]] eqn:Hsteps.
  - rewrite (try_ok _ _ _ _ _ Hsteps). exists st', fs. split; [done |].
    destruct (check_steps_shape _ _ _ _ Hsteps) as (z & m & f & d & p & i & H).
    split; [exists z; apply H |]. left. split; [done |]. by exists z, m, f, d, p, i.
  - rewrite (try_raise _ _ _ _ _ Hsteps). unfold ret. eexists _, _. split; [done |].
    split; [by exists 0 |]. right. exists e. done.
Qed.

(** Every record that [scan_dirs] adds is built from a line that is not
    blank, in the order of the lines. *)
Lemma scan_dirs_records dirs :
  ∀ found st st' l,
    scan_dirs config dirs found st = (st', Ok l) →
    ∃ added,
      l = found ++ added
      ∧ map path added = List.filter (λ d, Py.truthy (Py.strip d)) dirs
      ∧ Forall (λ d, name d = Py.name (Py.to_Path (path d))
                     ∧ file_status d = None
                     ∧ ∃ z m f, file_count d = PInt z ∧ has_model d = PBool m
                                ∧ has_face_files d = PBool f
                                ∧ status d = if 0 <? z then "files_present" else "empty")
               added.
Proof.
  induction dirs as [|dir dirs IH]; intros found st st' l Hrun.
  - unfold scan_dirs, ret in Hrun. injection Hrun as <- <-.
    exists []. by rewrite app_nil_r.
  - cbn [scan_dirs] in Hrun. unfold bind in Hrun.
    destruct (scan_dir config dir found st) as [st1 [found1|e]] eqn:Hdir; [| discriminate].
    apply IH in Hrun as (added & -> & Hpaths & Hok).
    unfold scan_dir in Hdir. cbn [List.filter].
    destruct (Py.truthy (Py.strip dir)).
    2:{ unfold ret in Hdir. injection Hdir as <- <-. by exists added. }
    destruct (check_deployment_files_returns (Py.name (Py.to_Path dir)) st)
      as (st2 & fs & Hcheck & [(z & m & b & Hz & Hm & Hff) | (e & ->)]).
    + rewrite (bind_ok _ _ _ _ _ Hcheck) in Hdir.
      unfold bind, getitem in Hdir. rewrite Hz, Hm, Hff in Hdir.
      unfold ret, gt_zero in Hdir. injection Hdir as <- <-.
      eexists (_ :: added). split; [by rewrite <- app_assoc |].
      split; [cbn [map path]; by rewrite Hpaths |].
      apply Forall_cons. split; [| done].
      cbn [name path file_status file_count has_model has_face_files status].
      split; [done |]. split; [done |]. by exists z, m, b.
    + rewrite (bind_ok _ _ _ _ _ Hcheck) in Hdir.
      unfold bind, getitem in Hdir.
      rewrite lookup_insert_ne, lookup_singleton_eq in Hdir by done.
      unfold ret at 1 in Hdir.
      rewrite lookup_insert_ne, lookup_singleton_ne in Hdir by done.
      discriminate Hdir.
Qed.



(** X16.  What [list_deployments] returns is all or nothing.  It is the
    empty list, or the [find] over the base directory succeeded and there
    is one record for each line of its output that is not blank, in that
    order.  In every record the name is the last component of the path,
    the count is an integer, the status is "files_present" exactly when
    the count is positive, and the two flags are booleans. *)
Theorem list_deployments_records (st st' : State W) (l : list deployment) :
  let base := deployment_base_path config in
  let find_cmd := "find " +:+ base +:+ " -maxdepth 1 -type d -not -path " +:+ base in
  list_deployments config st = (st', Ok l) →
  (l = []
   ∨ ∃ st1 res,
       execute_command config find_cmd None st = (st1, Ok res)
       ∧ success res = true
       ∧ map path l
         = List.filter (λ d, Py.truthy (Py.strip d)) (Py.split Py.newline (stdout res)))
  ∧ Forall (λ d, name d = Py.name (Py.to_Path (path d))
                 ∧ file_status d = None
                 ∧ ∃ z m f, file_count d = PInt z ∧ has_model d = PBool m
                            ∧ has_face_files d = PBool f
                            ∧ status d = if 0 <? z then "files_present" else "empty")
           l.
Proof.
  intros base find_cmd. rewrite list_deployments_eq.
  destruct (list_steps config st) as [st1 [l1|e]] eqn:Hsteps.
  2:{ intros [= <- <-]. split; [by left | done]. }
  intros [= <- <-]. unfold list_steps in Hsteps. fold base in Hsteps. fold find_cmd in Hsteps.
  destruct (execute_command config find_cmd None st) as [st2 [res|e]] eqn:Hfind.
  2:{ by rewrite (bind_raise _ _ _ _ _ Hfind) in Hsteps. }
  rewrite (bind_ok _ _ _ _ _ Hfind) in Hsteps.
  destruct (success res) eqn:Hs; cbn [negb] in Hsteps.
  2:{ unfold ret in Hsteps. injection Hsteps as <- <-. split; [by left | done]. }
  apply scan_dirs_records in Hsteps as (added & -> & Hpaths & Hok).
  cbn [app]. split; [| exact Hok]. right. by exists st2, res.
Qed.

(** The loop of [get_deployment] over the records. *)
Lemma find_deployment_cases name' l st :
  (Forall (λ d, name d ≠ name') l
   ∧ find_deployment config name' l st
     = (st, Raise (mk_exn MlflowException ("Deployment '" +:+ name' +:+ "' not found"))))
  ∨ (∃ l1 d l2 st' fs,
       l = l1 ++ d :: l2 ∧ Forall (λ d, name d ≠ name') l1 ∧ name d = name'
       ∧ _check_deployment_files config name' st = (st', Ok fs)
       ∧ find_deployment config name' l st = (st', Ok (with_file_status fs d))).
Proof.
  induction l as [|d l IH]; [by left |].
  cbn [find_deployment]. destruct (String.eqb (name d) name') eqn:Hd.
  - apply String.eqb_eq in Hd. right.
    destruct (check_deployment_files_returns name' st) as (st' & fs & Hcheck & _).
    exists [], d, l, st', fs. rewrite (bind_ok _ _ _ _ _ Hcheck). done.
  - apply String.eqb_neq in Hd.
    destruct IH as [[Hall Hnone] | (l1 & d' & l2 & st' & fs & -> & Hall & Hn & Hc & Hf)].
    + left. split; [by apply Forall_cons | exact Hnone].
    + right. exists (d :: l1), d', l2, st', fs. split; [done |].
      split; [by apply Forall_cons | done].
Qed.

(** X17.  [get_deployment] looks the name up in what [list_deployments]
    returns.  With no record of that name, which includes every case in
    which the listing failed and came back empty, it raises
    "Failed to get deployment: Deployment '<name>' not found".  With one,
    it returns the first such record with the status of its files, checked
    again, under [file_status]; it does not raise then. *)
Theorem get_deployment_outcomes (name' : string) (st st1 : State W) (l : list deployment) :
  list_deployments config st = (st1, Ok l) →
  (Forall (λ d, name d ≠ name') l →
   get_deployment config name' st
   = (st1, Raise (mk_exn MlflowException
                    ("Failed to get deployment: Deployment '" +:+ name' +:+ "' not found"))))
  ∧ (∀ l1 d l2,
       l = l1 ++ d :: l2 → Forall (λ d, name d ≠ name') l1 → name d = name' →
       ∃ st' fs, _check_deployment_files config name' st1 = (st', Ok fs)
                 ∧ get_deployment config name' st = (st', Ok (with_file_status fs d)))
  ∧ (∀ st' d, get_deployment config name' st = (st', Ok d) →
       name d = name' ∧ Exists (λ d0, name d0 = name') l
       ∧ ∃ fs z, file_status d = Some fs ∧ fs !! "file_count" = Some (PInt z)).
Proof.
  intros Hlist. unfold get_deployment, try_except.
  rewrite (bind_ok _ _ _ _ _ Hlist).
  destruct (find_deployment_cases name' l st1)
    as [[Hall Hnone] | (l1 & d & l2 & st' & fs & -> & Hall & Hn & Hc & Hf)].
  - rewrite Hnone. split; [done |]. split.
    + intros l1 d l2 -> _ Hn. apply Forall_app in Hall as [_ Hall].
      apply Forall_cons in Hall as [Hd _]. done.
    + intros st' d Hget. discriminate Hget.
  - rewrite Hf. split.
    + intros Hnot. apply Forall_app in Hnot as [_ Hnot].
      apply Forall_cons in Hnot as [Hd _]. done.
    + split.
      * intros l1' d' l2' Heq Hall' Hn'.
        assert (l1' = l1 ∧ d' = d) as [-> ->].
        { clear -Heq Hall Hall' Hn Hn'. revert l1' Heq Hall'.
          induction l1 as [|x l1 IH]; intros [|y l1'] Heq Hall'.
          - by injection Heq as <-.
          - injection Heq as <- _. apply Forall_cons in Hall' as [Hy _]. done.
          - injection Heq as -> _. apply Forall_cons in Hall as [Hx _]. done.
          - injection Heq as <- Heq. apply Forall_cons in Hall as [_ Hall].
            apply Forall_cons in Hall' as [_ Hall'].
            destruct (IH Hall _ Heq Hall') as [-> ->]. done. }
        by exists st', fs.
      * intros st'' d' [= <- <-]. split; [exact Hn |].
        split; [apply Exists_app; right; by apply Exists_cons_hd |].
        destruct (check_deployment_files_returns name' st1)
          as (st2 & fs2 & Hc2 & [(z & m & b & Hz & _) | (e & Hfs)]);
          rewrite Hc in Hc2; injection Hc2 as <- <-.
        -- by exists fs, z.
        -- exists fs, 0. split; [done |]. rewrite Hfs.
           rewrite lookup_insert_ne by done. apply lookup_singleton_eq.
Qed.

End StatusFacts.



(** The network is down: the status is the one with ["error"]. *)
Lemma check_deployment_files_shape_witness :
  ∃ st' fs,
    _check_deployment_files Sim.cfg "demo" (Sim.start Sim.link_down_once) = (st', Ok fs)
    ∧ fs !! "file_count" = Some (PInt 0)
    ∧ fs !! "has_model" = None.
Proof.
  destruct (check_deployment_files_shape Sim.cfg "demo" (Sim.start Sim.link_down_once))
    as (st' & fs & Hrun & _ & [[Hsteps _] | (e & _ & -> & Hm & _)]).
  - exfalso. revert Hsteps. vm_compute. intros Hsteps. discriminate Hsteps.
  - exists st'. eexists. split; [exact Hrun |]. split; [| exact Hm].
    rewrite lookup_insert_ne by done. apply lookup_singleton_eq.
Defined.

(** The device lists one directory that holds three files. *)
Lemma list_deployments_records_witness :
  let w := Sim.with_printed
             [("find /home/newcastleuni/mlflow_deployments -maxdepth 1 -type d"
               +:+ " -not -path /home/newcastleuni/mlflow_deployments",
               (0, list_byte_of_string "/home/newcastleuni/mlflow_deployments/demo", []));
              ("find /home/newcastleuni/mlflow_deployments/demo -type f | wc -l",
               (0, list_byte_of_string "3", []))] Sim.quiet in
  ∃ st' l,
    list_deployments Sim.cfg (Sim.start w) = (st', Ok l)
    ∧ map path l = ["/home/newcastleuni/mlflow_deployments/demo"]
    ∧ Forall (λ d, name d = Py.name (Py.to_Path (path d))) l.
Proof.
  intros w.
  assert (∃ st' l, list_deployments Sim.cfg (Sim.start w) = (st', Ok l)
                   ∧ map path l = ["/home/newcastleuni/mlflow_deployments/demo"])
    as (st' & l & Hrun & Hpaths) by (eexists _, _; split; vm_compute; reflexivity).
  exists st', l. split; [exact Hrun |]. split; [exact Hpaths |].
  pose proof (list_deployments_records Sim.cfg (Sim.start w) st' l) as Hthm.
  cbv zeta in Hthm. destruct (Hthm Hrun) as [_ Hall].
  eapply Forall_impl; [exact Hall |]. intros d Hd. apply Hd.
Defined.

(** The network is down when the deployments are listed: the listing comes
    back empty and the deployment is reported as not found. *)
Lemma get_deployment_outcomes_witness :
  (get_deployment Sim.cfg "demo" (Sim.start Sim.link_down_once)).2
  = Raise (mk_exn MlflowException
             "Failed to get deployment: Deployment 'demo' not found").
Proof.
  assert (∃ st1, list_deployments Sim.cfg (Sim.start Sim.link_down_once) = (st1, Ok []))
    as [st1 Hlist] by (eexists; vm_compute; reflexivity).
  destruct (get_deployment_outcomes Sim.cfg "demo" _ _ _ Hlist) as [Hnone _].
  rewrite (Hnone (List.Forall_nil _)). reflexivity.
Defined.

(** ** simple_package_builder.py: what is found and what is staged *)

Section LocateFacts.
Context {W : Type} {E : Env W}.

(** The inner loop: the candidate under the first root that has the file. *)
Lemma locate_in_first roots f w :
  match locate_in roots f w with
  | Some s =>
    ∃ r1 root r2,
      roots = r1 ++ root :: r2
      ∧ s = Py.path_str (Py.div root f)
      ∧ path_exists s w = true
      ∧ Forall (λ r, path_exists (Py.path_str (Py.div r f)) w = false) r1
  | None => Forall (λ r, path_exists (Py.path_str (Py.div r f)) w = false) roots
  end.
Proof.
  induction roots as [|root roots IH]; [constructor |].
  cbn [locate_in]. destruct (path_exists (Py.path_str (Py.div root f)) w) eqn:Hroot.
  - by exists [], root, roots.
  - destruct (locate_in roots f w) as [s|].
    + destruct IH as (r1 & root' & r2 & -> & -> & Hs & Hbefore).
      exists (root :: r1), root', r2. split; [done |]. split; [done |].
      split; [done | by apply Forall_cons].
    + by apply Forall_cons.
Qed.

Lemma locate_fold (w : W) f l :
  ∀ d : gmap string (option string),
    fold_left (λ (d : gmap string (option string)) file_name,
                 match locate_in search_paths file_name w with
                 | Some found => <[file_name := Some found]> d
                 | None => d
                 end) l d !! f
    = match (if bool_decide (f ∈ l) then locate_in search_paths f w else None) with
      | Some s => Some (Some s)
      | None => d !! f
      end.
Proof.
  induction l as [|g l IH]; intros d; [done |].
  cbn [fold_left]. rewrite IH.
  destruct (decide (f = g)) as [-> | Hne].
  - rewrite (bool_decide_eq_true_2 (g ∈ g :: l)) by apply list_elem_of_here.
    destruct (bool_decide (g ∈ l)).
    + destruct (locate_in search_paths g w) as [s|]; [done |]. done.
    + destruct (locate_in search_paths g w) as [s|]; [by rewrite lookup_insert_eq | done].
  - assert (bool_decide (f ∈ g :: l) = bool_decide (f ∈ l)) as ->.
    { apply bool_decide_ext. rewrite elem_of_cons. intuition auto. }
    destruct (if bool_decide (f ∈ l) then _ else _) as [s|]; [done |].
    destruct (locate_in search_paths g w) as [s|]; [by rewrite lookup_insert_ne | done].
Qed.

(** X18.  After [_locate_files] the table of companion files has the
    thirteen names of the catalog and no other key.  A name maps to the
    path of the file under the first of the search roots [jetson],
    [models], [jetson/docker] that has it, and to [None] when none of the
    three has it. *)
Theorem locate_files_first_root (w : W) (f : string) :
  (f ∉ catalog → _locate_files w !! f = None)
  ∧ (f ∈ catalog →
     match _locate_files w !! f with
     | Some (Some s) =>
       ∃ r1 root r2,
         search_paths = r1 ++ root :: r2
         ∧ s = Py.path_str (Py.div root f)
         ∧ path_exists s w = true
         ∧ Forall (λ r, path_exists (Py.path_str (Py.div r f)) w = false) r1
     | Some None =>
       Forall (λ r, path_exists (Py.path_str (Py.div r f)) w = false) search_paths
     | None => False
     end).
Proof.
  unfold _locate_files. rewrite locate_fold. split.
  - intros Hf. rewrite (bool_decide_eq_false_2 _ Hf).
    unfold initial_files. apply not_elem_of_list_to_map.
    rewrite <- list_fmap_compose. intros Hin.
    apply list_elem_of_fmap in Hin as (g & -> & Hg). done.
  - intros Hf. rewrite (bool_decide_eq_true_2 _ Hf).
    pose proof (locate_in_first search_paths f w) as Hfirst.
    destruct (locate_in search_paths f w) as [s|]; [exact Hfirst |].
    assert (initial_files !! f = Some None) as ->; [| exact Hfirst].
    unfold initial_files. apply elem_of_list_to_map_1.
    + rewrite <- list_fmap_compose. vm_compute.
      repeat (apply NoDup_cons; split;
              [rewrite ?not_elem_of_cons; repeat split; try discriminate;
               apply not_elem_of_nil |]).
      apply NoDup_nil_2.
    + apply list_elem_of_fmap. by exists f.
Qed.

End LocateFacts.

(** [models/model.pkl] is on the local disk, [jetson/model.pkl] is not. *)
Lemma locate_files_first_root_witness :
  let w := Sim.add_local "/opt/project/models/face_features.pkl" (text_file "f") Sim.quiet in
  _locate_files w !! "face_features.pkl" = Some (Some "/opt/project/models/face_features.pkl")
  ∧ ∃ r1 root r2,
      search_paths = r1 ++ root :: r2
      ∧ "/opt/project/models/face_features.pkl"
        = Py.path_str (Py.div root "face_features.pkl")
      ∧ Forall (λ r, path_exists (Py.path_str (Py.div r "face_features.pkl")) w = false) r1.
Proof.
  intros w.
  assert (_locate_files w !! "face_features.pkl"
          = Some (Some "/opt/project/models/face_features.pkl")) as Hrun
    by (vm_compute; reflexivity).
  split; [exact Hrun |].
  pose proof (proj2 (locate_files_first_root w "face_features.pkl")) as Hthm.
  rewrite Hrun in Hthm.
  destruct Hthm as (r1 & root & r2 & H1 & H2 & _ & H4).
  - unfold catalog. apply list_elem_of_here.
  - by exists r1, root, r2.
Defined.

Section StagingFacts.
Context {W : Type} {E : Env W}.
Variable config : JetsonConfig.
Variable frf : gmap string (option string).

(** A loop over names in which the turn of [f] writes [v] at [k] and no
    other turn touches [k]. *)
Lemma fold_left_sets (step : package → string → package) l f k v :
  In f l →
  (∀ q, pkg_files (step q f) !! k = Some v) →
  (∀ q g, In g l → g ≠ f → pkg_files (step q g) !! k = pkg_files q !! k) →
  ∀ p, pkg_files (fold_left step l p) !! k = Some v.
Proof.
  intros Hf Hset Hkeep.
  assert (∀ l', (∀ g, In g l' → In g l) →
                ∀ p, pkg_files p !! k = Some v →
                     pkg_files (fold_left step l' p) !! k = Some v) as Hstays.
  { induction l' as [|g l' IH]; intros Hsub p Hp; [exact Hp |].
    cbn [fold_left]. apply IH; [intros g' Hg'; apply Hsub; by right |].
    destruct (string_dec g f) as [-> | Hne]; [apply Hset |].
    rewrite Hkeep; [exact Hp | apply Hsub; by left | exact Hne]. }
  revert Hf Hkeep. clear Hstays. revert Hset.
  induction l as [|g l IH]; intros Hset Hf Hkeep p; [destruct Hf |].
  cbn [fold_left]. destruct (string_dec g f) as [-> | Hne].
  - clear IH Hf.
    assert (pkg_files (step p f) !! k = Some v) as Hp by apply Hset.
    revert Hp. generalize (step p f) as q.
    assert (∀ g, In g l → In g (f :: l)) as Hsub by (intros g Hg; by right).
    revert Hsub. generalize l at 1 3 as l'.
    induction l' as [|g l' IH]; intros Hsub q Hq; [exact Hq |].
    cbn [fold_left]. apply IH; [intros g' Hg'; apply Hsub; by right |].
    destruct (string_dec g f) as [-> | Hne]; [apply Hset |].
    rewrite Hkeep; [exact Hq | apply Hsub; by left | exact Hne].
  - destruct Hf as [Hf | Hf]; [done |].
    apply IH; [exact Hset | exact Hf |].
    intros q g' Hg' Hne'. apply Hkeep; [by right | exact Hne'].
Qed.

Lemma fold_left_dirs (step : package → string → package) l :
  (∀ q g, pkg_dirs (step q g) = pkg_dirs q) →
  ∀ p, pkg_dirs (fold_left step l p) = pkg_dirs p.
Proof.
  intros Hstep. induction l as [|g l IH]; intros p; [done |].
  cbn [fold_left]. by rewrite IH, Hstep.
Qed.

Lemma copy_data_dirs dest w p :
  pkg_dirs (staged_data frf dest w p) = {[dest]} ∪ pkg_dirs p.
Proof.
  unfold staged_data. rewrite fold_left_dirs; [done |].
  intros q g. by destruct (usable_source frf g w).
Qed.

Lemma copy_scripts_dirs dest w p :
  pkg_dirs (staged_scripts frf dest w p) = {[dest]} ∪ pkg_dirs p.
Proof.
  unfold staged_scripts. rewrite fold_left_dirs; [done |].
  intros q g. by destruct (usable_source frf g w).
Qed.

Lemma copy_model_dirs model_path w x :
  x ∈ pkg_dirs (_copy_model_files model_path "models" w empty_package)
  ↔ x = "models"
    ∨ (x = "models/mlflow_model"
       ∧ is_file (Py.path_str (Py.to_Path model_path)) w = false
       ∧ is_dir (Py.path_str (Py.to_Path model_path)) w = true).
Proof.
  unfold _copy_model_files.
  assert (x ∈ pkg_dirs (add_dir "models" empty_package) ↔ x = "models") as Hbase.
  { cbn [add_dir pkg_dirs empty_package].
    rewrite elem_of_union, elem_of_singleton, elem_of_empty. intuition auto. }
  destruct (is_file _ w).
  { cbn [add_file pkg_dirs]. rewrite Hbase. intuition congruence. }
  destruct (is_dir _ w).
  2:{ cbn [add_file pkg_dirs]. rewrite Hbase. intuition congruence. }
  change (rel "models" "mlflow_model") with "models/mlflow_model".
  induction (walk_files _ w) as [|f l IH]; [| exact IH].
  cbn [foldr add_dir pkg_dirs]. cbn [add_dir pkg_dirs] in Hbase.
  rewrite elem_of_union, elem_of_singleton, Hbase. intuition auto.
Qed.

Lemma copy_docker_dirs dest w l :
  ∀ p x,
    x ∈ pkg_dirs (fold_left
                    (λ p docker_file,
                       match usable_source frf docker_file w with
                       | Some source_path =>
                         add_file (rel dest docker_file) (read_file source_path w)
                                  (add_dir dest p)
                       | None => p
                       end) l p)
    ↔ x ∈ pkg_dirs p ∨ (x = dest ∧ ∃ g, In g l ∧ is_Some (usable_source frf g w)).
Proof.
  induction l as [|g l IH]; intros p x.
  - cbn [fold_left]. split; [by left |]. intros [H | (_ & g & [] & _)]. exact H.
  - cbn [fold_left]. rewrite IH. destruct (usable_source frf g w) as [s|] eqn:Hg.
    + cbn [pkg_dirs add_file add_dir]. rewrite elem_of_union, elem_of_singleton. split.
      * intros [[-> | H] | (-> & g' & Hg' & Hs)].
        -- right. split; [done |]. exists g. split; [by left | by rewrite Hg].
        -- by left.
        -- right. split; [done |]. exists g'. split; [by right | done].
      * intros [H | (-> & _)]; left; [by right | by left].
    + split.
      * intros [H | (-> & g' & Hg' & Hs)]; [by left |].
        right. split; [done |]. exists g'. split; [by right | done].
      * intros [H | (-> & g' & [<- | Hg'] & Hs)]; [by left | |].
        -- rewrite Hg in Hs. by destruct Hs.
        -- right. split; [done |]. by exists g'.
Qed.

(** Two names of a catalog staged in two directories do not meet. *)
Ltac distinct_paths Hf Hg :=
  cbn [In data_files script_files docker_files] in Hf, Hg;
  repeat (destruct Hg as [<- | Hg]; [| try done]);
  repeat (destruct Hf as [<- | Hf]; [try done; try (by vm_compute) |]);
  try done.

(** Where [staged] has a companion file that is usable. *)
Lemma staged_found
  (model_path name uri : string) (cfg : dict) (w : W) (f s : string) :
  let p := staged config frf model_path name uri cfg w in
  usable_source frf f w = Some s →
  (In f data_files →
   pkg_files p !! ("data/" +:+ f) = Some (read_file s w)
   ∧ pkg_files p !! ("data/" +:+ f +:+ ".placeholder") = None)
  ∧ (In f script_files →
     pkg_files p !! ("scripts/" +:+ f)
     = Some {| content := content (read_file s w); executable := true |})
  ∧ (In f docker_files →
     pkg_files p !! ("docker/" +:+ f) = Some (read_file s w)
     ∧ "docker" ∈ pkg_dirs p).
Proof.
  intros p Hu. unfold p, staged. split; [| split].
  - intros Hf.
    assert ("data/" +:+ f = rel "data" f) as Hrel.
    { clear -Hf. cbn [In data_files] in Hf.
      repeat (destruct Hf as [<- | Hf]; [done |]). done. }
    assert ("data/" +:+ f +:+ ".placeholder" = rel "data" (f +:+ ".placeholder")) as Hrelp.
    { clear -Hf. cbn [In data_files] in Hf.
      repeat (destruct Hf as [<- | Hf]; [done |]). done. }
    split.
    + rewrite Hrel. rewrite add_file_other.
      2:{ clear -Hf. cbn [In data_files] in Hf.
          repeat (destruct Hf as [<- | Hf]; [by vm_compute |]). done. }
      rewrite copy_docker_keeps.
      2:{ intros g Hg. right. clear -Hf Hg. distinct_paths Hf Hg. }
      rewrite copy_scripts_keeps.
      2:{ intros g Hg. right. clear -Hf Hg. distinct_paths Hf Hg. }
      unfold staged_data.
      apply (fold_left_sets _ data_files f); [exact Hf | |].
      * intros q. rewrite Hu. cbn [add_file pkg_files]. apply lookup_insert_eq.
      * intros q g Hg Hne.
        assert (rel "data" f ≠ rel "data" g
                ∧ rel "data" f ≠ rel "data" (g +:+ ".placeholder")) as [H1 H2].
        { clear -Hf Hg Hne. cbn [In data_files] in Hf, Hg.
          repeat (destruct Hg as [<- | Hg]; [| try done]);
            repeat (destruct Hf as [<- | Hf]; [| try done]);
            try done; split; by vm_compute. }
        destruct (usable_source frf g w); by apply add_file_other.
    + rewrite Hrelp. rewrite add_file_other.
      2:{ clear -Hf. cbn [In data_files] in Hf.
          repeat (destruct Hf as [<- | Hf]; [by vm_compute |]). done. }
      rewrite copy_docker_keeps.
      2:{ intros g Hg. right. clear -Hf Hg. distinct_paths Hf Hg. }
      rewrite copy_scripts_keeps.
      2:{ intros g Hg. right. clear -Hf Hg. distinct_paths Hf Hg. }
      unfold staged_data. rewrite fold_left_keeps.
      * cbn [add_dir pkg_files]. apply copy_model_keeps; rewrite <- Hrelp; reflexivity.
      * intros q g Hg. destruct (string_dec g f) as [-> | Hne].
        -- rewrite Hu. apply add_file_other.
           clear -Hf. cbn [In data_files] in Hf.
           repeat (destruct Hf as [<- | Hf]; [by vm_compute |]). done.
        -- assert (rel "data" (f +:+ ".placeholder") ≠ rel "data" g
                   ∧ rel "data" (f +:+ ".placeholder")
                     ≠ rel "data" (g +:+ ".placeholder")) as [H1 H2].
           { clear -Hf Hg Hne. cbn [In data_files] in Hf, Hg.
             repeat (destruct Hg as [<- | Hg]; [| try done]);
               repeat (destruct Hf as [<- | Hf]; [| try done]);
               try done; split; by vm_compute. }
           destruct (usable_source frf g w); by apply add_file_other.
  - intros Hf.
    assert ("scripts/" +:+ f = rel "scripts" f) as ->.
    { clear -Hf. cbn [In script_files] in Hf.
      repeat (destruct Hf as [<- | Hf]; [done |]). done. }
    rewrite add_file_other.
    2:{ clear -Hf. cbn [In script_files] in Hf.
        repeat (destruct Hf as [<- | Hf]; [by vm_compute |]). done. }
    rewrite copy_docker_keeps.
    2:{ intros g Hg. right. clear -Hf Hg. distinct_paths Hf Hg. }
    unfold staged_scripts.
    apply (fold_left_sets _ script_files f); [exact Hf | |].
    + intros q. rewrite Hu. cbn [add_file pkg_files]. apply lookup_insert_eq.
    + intros q g Hg Hne.
      assert (rel "scripts" f ≠ rel "scripts" g) as H1.
      { clear -Hf Hg Hne. cbn [In script_files] in Hf, Hg.
        repeat (destruct Hg as [<- | Hg]; [| try done]);
          repeat (destruct Hf as [<- | Hf]; [| try done]);
          try done; by vm_compute. }
      destruct (usable_source frf g w); [by apply add_file_other | done].
  - intros Hf. split.
    + assert ("docker/" +:+ f = rel "docker" f) as ->.
      { clear -Hf. cbn [In docker_files] in Hf.
        repeat (destruct Hf as [<- | Hf]; [done |]). done. }
      rewrite add_file_other.
      2:{ clear -Hf. cbn [In docker_files] in Hf.
          repeat (destruct Hf as [<- | Hf]; [by vm_compute |]). done. }
      unfold staged_docker.
      apply (fold_left_sets _ docker_files f); [exact Hf | |].
      * intros q. rewrite Hu. cbn [add_file pkg_files]. apply lookup_insert_eq.
      * intros q g Hg Hne.
        assert (rel "docker" f ≠ rel "docker" g) as H1.
        { clear -Hf Hg Hne. cbn [In docker_files] in Hf, Hg.
          repeat (destruct Hg as [<- | Hg]; [| try done]);
            repeat (destruct Hf as [<- | Hf]; [| try done]);
            try done; by vm_compute. }
        destruct (usable_source frf g w); [by rewrite add_file_other | done].
    + cbn [add_file pkg_dirs]. unfold staged_docker. apply copy_docker_dirs.
      right. split; [done |]. exists f. split; [exact Hf | by rewrite Hu].
Qed.

(** X19.  A companion file that the table names and that exists when the
    package is staged.  When [shutil.copy2] raises on it, as it does on a
    directory, which passes the test [Path.exists()], the staging raises
    and there is no package.  In a package that was staged, the file is
    there with the content it had: a data file at [data/<file>], and then
    without placeholder; a script at [scripts/<file>], marked executable;
    a docker file at [docker/<file>], in a directory [docker] made for
    it. *)
Theorem found_companions_are_staged
  (model_path name uri : string) (cfg : dict) (w : W) (f s : string) :
  usable_source frf f w = Some s →
  (∀ e, copy2_error s w = Some e →
        In f (data_files ++ script_files ++ docker_files) →
        ∃ e', stage_package config frf model_path name uri cfg w = (w, Raise e'))
  ∧ ∀ w' p,
      stage_package config frf model_path name uri cfg w = (w', Ok p) →
      (In f data_files →
       pkg_files p !! ("data/" +:+ f) = Some (read_file s w)
       ∧ pkg_files p !! ("data/" +:+ f +:+ ".placeholder") = None)
      ∧ (In f script_files →
         pkg_files p !! ("scripts/" +:+ f)
         = Some {| content := content (read_file s w); executable := true |})
      ∧ (In f docker_files →
         pkg_files p !! ("docker/" +:+ f) = Some (read_file s w)
         ∧ "docker" ∈ pkg_dirs p).
Proof.
  intros Hu. split.
  - intros e He Hf. rewrite stage_package_eq.
    destruct (copy_failure frf (data_files ++ script_files ++ docker_files) w)
      as [e'|] eqn:Hfail; [by exists e' |].
    pose proof (proj1 (copy_failure_none _ _ _) Hfail f s Hf Hu) as Hnone.
    congruence.
  - intros w' p Hstage. apply stage_package_ok in Hstage as (_ & -> & _).
    exact (staged_found model_path name uri cfg w f s Hu).
Qed.

(** X20.  The layout of a staged package.  The directories [models],
    [data] and [scripts] are always made, [docker] exactly when one of the
    three docker files is in the table and on the local disk; [README.txt]
    is always written; and every file of the package is [README.txt] or
    lies under one of the four directories (or at an absolute path, should
    the walk of the model directory report one). *)
Theorem staged_layout (model_path name uri : string) (cfg : dict) (w : W) :
  let p := staged config frf model_path name uri cfg w in
  "models" ∈ pkg_dirs p ∧ "data" ∈ pkg_dirs p ∧ "scripts" ∈ pkg_dirs p
  ∧ ("docker" ∈ pkg_dirs p
     ↔ ∃ g, In g docker_files ∧ is_Some (usable_source frf g w))
  ∧ pkg_files p !! "README.txt"
    = Some (text_file (readme_text name uri (now_strftime w).2
                         (deployment_base_path config) cfg))
  ∧ ∀ k, is_Some (pkg_files p !! k) →
         k = "README.txt"
         ∨ Py.startswith "/" k = true ∨ Py.startswith "models" k = true
         ∨ Py.startswith "data/" k = true ∨ Py.startswith "scripts/" k = true
         ∨ Py.startswith "docker/" k = true.
Proof.
  intros p. unfold p, staged.
  assert (∀ x, x ∈ pkg_dirs (staged_scripts frf "scripts" w
                               (staged_data frf "data" w
                                  (_copy_model_files model_path "models" w empty_package)))
               ↔ x = "scripts" ∨ x = "data"
                 ∨ x ∈ pkg_dirs (_copy_model_files model_path "models" w empty_package))
    as Hdirs.
  { intros x. rewrite copy_scripts_dirs, copy_data_dirs.
    rewrite !elem_of_union, !elem_of_singleton. done. }
  assert ("models" ∈ pkg_dirs (_copy_model_files model_path "models" w empty_package))
    as Hmodels by (apply copy_model_dirs; by left).
  split; [apply copy_docker_dirs; left; apply Hdirs; auto |].
  split; [apply copy_docker_dirs; left; apply Hdirs; auto |].
  split; [apply copy_docker_dirs; left; apply Hdirs; auto |].
  split; [| split].
  - cbn [add_file pkg_dirs]. unfold staged_docker.
    rewrite copy_docker_dirs. split; [| intros H; by right].
    intros [H | [_ H]]; [| exact H]. exfalso.
    apply Hdirs in H as [H | [H | H]]; [done | done |].
    apply copy_model_dirs in H as [H | [H _]]; done.
  - apply lookup_insert_eq.
  - intros k Hk.
    destruct (decide (k = "README.txt")) as [-> | Hreadme]; [by left | right].
    destruct (Py.startswith "/" k) eqn:Hroot; [by left | right].
    destruct (Py.startswith "models" k) eqn:Hm; [by left | right].
    destruct (Py.startswith "data/" k) eqn:Hd; [by left | right].
    destruct (Py.startswith "scripts/" k) eqn:Hs; [by left | right].
    destruct (Py.startswith "docker/" k) eqn:Hdo; [done | exfalso].
    pose proof (staged_absent config frf model_path name uri cfg w k Hroot Hm) as Habs.
    unfold staged in Habs.
    rewrite Habs in Hk; [by destruct Hk | | | | exact Hreadme].
    + intros g Hg. cbn [In data_files] in Hg.
      repeat (destruct Hg as [<- | Hg];
              [split; intros ->; vm_compute in Hd; discriminate Hd |]). done.
    + intros g Hg. right. cbn [In script_files] in Hg.
      repeat (destruct Hg as [<- | Hg];
              [intros ->; vm_compute in Hs; discriminate Hs |]). done.
    + intros g Hg. right. cbn [In docker_files] in Hg.
      repeat (destruct Hg as [<- | Hg];
              [intros ->; vm_compute in Hdo; discriminate Hdo |]). done.
Qed.

End StagingFacts.

(** [client.py] is under [jetson] on the local disk: as a file, and as a
    directory. *)
Lemma found_companions_are_staged_witness :
  (let w := Sim.add_local "/opt/project/jetson/client.py" (text_file "print(1)")
              Sim.quiet in
   ∃ w' p,
     stage_package Sim.cfg (_locate_files w) "/tmp/m/model.pkl" "demo" "models:/face/1"
       [] w = (w', Ok p)
     ∧ pkg_files p !! "scripts/client.py"
       = Some {| content := list_byte_of_string "print(1)"; executable := true |})
  ∧ (let w := Sim.add_local "/opt/project/jetson/client.py/notes.txt" (text_file "x")
                Sim.quiet in
     ∃ e, stage_package Sim.cfg (_locate_files w) "/tmp/m/model.pkl" "demo"
            "models:/face/1" [] w = (w, Raise e)).
Proof.
  split.
  - intros w.
    assert (∃ w' p,
              stage_package Sim.cfg (_locate_files w) "/tmp/m/model.pkl" "demo"
                "models:/face/1" [] w = (w', Ok p))
      as (w' & p & Hrun) by (eexists _, _; vm_compute; reflexivity).
    exists w', p. split; [exact Hrun |].
    destruct (found_companions_are_staged Sim.cfg (_locate_files w) "/tmp/m/model.pkl"
                "demo" "models:/face/1" [] w "client.py" "/opt/project/jetson/client.py")
      as [_ Hstaged]; [vm_compute; reflexivity |].
    destruct (Hstaged _ _ Hrun) as (_ & Hscript & _).
    etransitivity; [apply Hscript; cbn [In script_files]; auto |].
    vm_compute. reflexivity.
  - intros w.
    destruct (found_companions_are_staged Sim.cfg (_locate_files w) "/tmp/m/model.pkl"
                "demo" "models:/face/1" [] w "client.py" "/opt/project/jetson/client.py")
      as [Hraises _]; [vm_compute; reflexivity |].
    eapply Hraises; [vm_compute; reflexivity |].
    cbn [app data_files script_files docker_files In]. auto 20.
Defined.

Section FileListFacts.

Lemma insert_sorted_HdRel x a l :
  HdRel (λ a b, String.leb a b = true) a l → String.leb a x = true →
  HdRel (λ a b, String.leb a b = true) a (insert_sorted x l).
Proof.
  intros Hl Hx. destruct l as [|y l]; cbn [insert_sorted]; [by constructor |].
  destruct (String.leb x y); constructor; [exact Hx |]. by inversion Hl.
Qed.

Lemma insert_sorted_Sorted x l :
  Sorted (λ a b, String.leb a b = true) l →
  Sorted (λ a b, String.leb a b = true) (insert_sorted x l).
Proof.
  induction l as [|y l IH]; intros Hl; cbn [insert_sorted].
  - constructor; constructor.
  - destruct (String.leb x y) eqn:Hxy.
    + constructor; [exact Hl | by constructor].
    + inversion Hl as [|? ? Hs Hh]; subst. constructor; [by apply IH |].
      apply insert_sorted_HdRel; [exact Hh |].
      destruct (String.leb_total x y) as [H | H]; [congruence | exact H].
Qed.

Lemma insert_sorted_perm x l : insert_sorted x l ≡ₚ x :: l.
Proof.
  induction l as [|y l IH]; cbn [insert_sorted]; [done |].
  destruct (String.leb x y); [done |]. rewrite IH. apply Permutation_swap.
Qed.

Lemma sorted_perm l : sorted l ≡ₚ l.
Proof.
  induction l as [|x l IH]; [done |]. unfold sorted in *. cbn [foldr].
  by rewrite insert_sorted_perm, IH.
Qed.

(** X21.  The file list of a package, which [build_simple_package] reports
    as [included_files], is in ascending order, names no path twice, and
    names exactly the files of the package. *)
Theorem get_file_list_sorted (p : package) :
  Sorted (λ a b, String.leb a b = true) (_get_file_list p)
  ∧ NoDup (_get_file_list p)
  ∧ ∀ k, k ∈ _get_file_list p ↔ is_Some (pkg_files p !! k).
Proof.
  unfold _get_file_list. split; [| split].
  - unfold sorted. induction (map fst (map_to_list (pkg_files p))) as [|x l IH].
    + constructor.
    + cbn [foldr]. by apply insert_sorted_Sorted.
  - rewrite sorted_perm. apply NoDup_fst_map_to_list.
  - intros k. rewrite sorted_perm, list_elem_of_fmap. split.
    + intros ([k' v] & -> & H). apply elem_of_map_to_list in H. by exists v.
    + intros [v H]. exists (k, v). split; [done |]. by apply elem_of_map_to_list.
Qed.

End FileListFacts.

Section ArchiveFacts.
Context {W : Type} {E : Env W}.
Variable config : JetsonConfig.
Variable frf : gmap string (option string).

(** X22.  [_create_tar_package] returns the path of the archive only when
    the archive was written and is on the disk afterwards.  Whatever it
    raises is an [Exception] that reads "Package creation failed: " and
    the text of the cause.  [build_simple_package] has no handler of its
    own: an exception of the staging leaves it as it is, and once the
    package is staged, what leaves it comes from the making of the archive
    or from measuring it. *)
Theorem create_tar_package_outcomes (p : package) (name : string) (w : W) :
  (∀ w' tar_path,
     _create_tar_package p name w = (w', Ok tar_path) →
     write_tar p name w = (w', Ok tar_path) ∧ path_exists tar_path w' = true)
  ∧ (∀ w' e, _create_tar_package p name w = (w', Raise e) →
       class_of e = Exception
       ∧ ∃ cause, str_exn e = "Package creation failed: " +:+ str_exn cause)
  ∧ (∀ model_path uri cfg w' e,
       stage_package config frf model_path name uri cfg w = (w', Raise e) →
       build_simple_package config frf model_path name uri cfg w = (w', Raise e))
  ∧ (∀ model_path uri cfg w1 q w' e,
       stage_package config frf model_path name uri cfg w = (w1, Ok q) →
       build_simple_package config frf model_path name uri cfg w = (w', Raise e) →
       (class_of e = Exception
        ∧ ∃ cause, str_exn e = "Package creation failed: " +:+ str_exn cause)
       ∨ ∃ path w2, getsize path w2 = (w', Raise e)).
Proof.
  assert (∀ q w0 w' e, _create_tar_package q name w0 = (w', Raise e) →
            class_of e = Exception
            ∧ ∃ cause, str_exn e = "Package creation failed: " +:+ str_exn cause)
    as Hraise.
  { intros q w0 w' e. unfold _create_tar_package, try_except, bind, gets, ret, raise.
    destruct (write_tar q name w0) as [w1 [tar_path|e1]].
    - destruct (negb (path_exists tar_path w1)); [| discriminate].
      intros [= <- <-]. split; [done |]. by eexists (mk_exn Exception _).
    - intros [= <- <-]. split; [done |]. by exists e1. }
  split; [| split; [| split]].
  - intros w' tar_path. unfold _create_tar_package, try_except, bind, gets, ret, raise.
    destruct (write_tar p name w) as [w1 [tar_path'|e1]]; [| discriminate].
    destruct (path_exists tar_path' w1) eqn:Hex; cbn [negb]; [| discriminate].
    by intros [= <- <-].
  - apply Hraise.
  - intros model_path uri cfg w' e Hstage. unfold build_simple_package.
    unfold bind at 1. by rewrite Hstage.
  - intros model_path uri cfg w0 q w' e Hstage. unfold build_simple_package.
    unfold bind at 1. rewrite Hstage.
    unfold bind at 1.
    destruct (_create_tar_package q name w0) as [w1 [tar_path|e1]] eqn:Htar.
    2:{ intros [= <- <-]. left. by apply Hraise in Htar. }
    unfold bind, ret. destruct (now_isoformat w1) as [w2 t].
    destruct (getsize tar_path w2) as [w3 [size|e2]] eqn:Hsize; [discriminate |].
    intros [= <- <-]. right. by exists tar_path, w2.
Qed.



End ArchiveFacts.

(** The archive is written where the scripted disk keeps it. *)
Lemma create_tar_package_outcomes_witness :
  ∃ w' tar_path,
    _create_tar_package empty_package "demo" Sim.quiet = (w', Ok tar_path)
    ∧ path_exists tar_path w' = true.
Proof.
  assert (∃ w' tar_path,
            _create_tar_package empty_package "demo" Sim.quiet = (w', Ok tar_path))
    as (w' & tar_path & Hrun) by (eexists _, _; vm_compute; reflexivity).
  exists w', tar_path. split; [exact Hrun |].
  exact (proj2 (proj1 (create_tar_package_outcomes Sim.cfg initial_files
                         empty_package "demo" Sim.quiet) _ _ Hrun)).
Defined.


(** ** ssh_manager.py: what leaves the manager *)

Section ManagerExceptions.
Context {W : Type} {E : Env W}.
Variable config : JetsonConfig.

Lemma execute_command_raise_class cmd t (st st' : State W) e :
  execute_command config cmd t st = (st', Raise e) →
  class_of e = ConnectionError ∨ class_of e = Exception.
Proof.
  intros Hx. destruct (connect config st) as [st1 [c|e0]] eqn:Hc.
  - rewrite (execute_command_eq _ _ _ _ _ _ Hc) in Hx.
    apply run_command_cases in Hx as (cause & _ & ->). by right.
  - unfold execute_command in Hx. cbv zeta in Hx.
    rewrite (bind_raise _ _ _ _ _ Hc) in Hx. injection Hx as <- <-.
    left. by destruct (connect_raises _ _ _ _ Hc).
Qed.

Lemma run_mkdirs_raise_class l :
  ∀ (st st' : State W) e,
    run_mkdirs config l st = (st', Raise e) →
    class_of e = ConnectionError ∨ class_of e = Exception.
Proof.
  induction l as [|cmd l IH]; intros st st' e; [discriminate |].
  cbn [run_mkdirs]. unfold bind.
  destruct (execute_command config cmd None st) as [st1 [res|e1]] eqn:Hx.
  - destruct (negb (success res)); [intros [= <- <-]; by right |].
    unfold ret. apply IH.
  - intros [= <- <-]. by apply execute_command_raise_class in Hx.
Qed.

(** X24.  No exception of the transport, of the upload or of the decoding
    leaves a method of [SSHManager] as it is.  What [execute_command],
    [transfer_file], [create_deployment_directory],
    [extract_deployment_package] and [cleanup_deployment] raise is the
    [ConnectionError] of [connect], which reads "SSH connection failed: "
    and the cause, or a plain [Exception]. *)
Theorem manager_raises_its_own_exceptions (st st' : State W) (e : exn) :
  (∀ cmd t, execute_command config cmd t st = (st', Raise e) →
     class_of e = ConnectionError ∨ class_of e = Exception)
  ∧ (∀ local_path remote_path,
       transfer_file config local_path remote_path st = (st', Raise e) →
       class_of e = ConnectionError ∨ class_of e = Exception)
  ∧ (∀ name, create_deployment_directory config name st = (st', Raise e) →
       class_of e = ConnectionError ∨ class_of e = Exception)
  ∧ (∀ package_path extraction_path,
       extract_deployment_package config package_path extraction_path st = (st', Raise e) →
       class_of e = ConnectionError ∨ class_of e = Exception)
  ∧ (∀ name, cleanup_deployment config name st = (st', Raise e) →
       class_of e = ConnectionError ∨ class_of e = Exception)
  ∧ (class_of e = ConnectionError →
     (∃ cmd t, execute_command config cmd t st = (st', Raise e))
     ∨ (∃ l r, transfer_file config l r st = (st', Raise e)) →
     ∃ cause, str_exn e = "SSH connection failed: " +:+ str_exn cause).
Proof.
  split; [| split; [| split; [| split; [| split]]]].
  - intros cmd t. apply execute_command_raise_class.
  - intros local_path remote_path. unfold transfer_file. unfold bind at 1.
    destruct (connect config st) as [st1 [c|e0]] eqn:Hc.
    + unfold try_except, raise.
      destruct (with_scp c _ st1) as [st2 [[]|cause]]; [discriminate |].
      intros [= <- <-]. by right.
    + intros [= <- <-]. left. by destruct (connect_raises _ _ _ _ Hc).
  - intros name. unfold create_deployment_directory, bind, ret.
    destruct (run_mkdirs config _ st) as [st1 [[]|e1]] eqn:Hm; [discriminate |].
    intros [= <- <-]. by apply run_mkdirs_raise_class in Hm.
  - intros package_path extraction_path. unfold extract_deployment_package, bind, ret.
    destruct (execute_command config _ None st) as [st1 [res|e1]] eqn:Hx.
    + destruct (negb (success res)); [intros [= <- <-]; by right |].
      destruct (execute_command config _ None st1) as [st2 [res2|e2]] eqn:Hc;
        [discriminate |].
      intros [= <- <-]. by apply execute_command_raise_class in Hc.
    + intros [= <- <-]. by apply execute_command_raise_class in Hx.
  - intros name. unfold cleanup_deployment, bind, ret.
    destruct (execute_command config _ None st) as [st1 [res|e1]] eqn:Hx;
      [discriminate |].
    intros [= <- <-]. by apply execute_command_raise_class in Hx.
  - intros Hclass [(cmd & t & Hx) | (l & r & Hx)].
    + destruct (connect config st) as [st1 [c|e0]] eqn:Hc.
      * rewrite (execute_command_eq _ _ _ _ _ _ Hc) in Hx.
        apply run_command_cases in Hx as (cause & _ & ->). discriminate Hclass.
      * unfold execute_command in Hx. cbv zeta in Hx.
        rewrite (bind_raise _ _ _ _ _ Hc) in Hx. injection Hx as <- <-.
        by destruct (connect_raises _ _ _ _ Hc).
    + revert Hx. unfold transfer_file. unfold bind at 1.
      destruct (connect config st) as [st1 [c|e0]] eqn:Hc.
      * unfold try_except, raise.
        destruct (with_scp c _ st1) as [st2 [[]|cause]]; [discriminate |].
        intros [= <- <-]. discriminate Hclass.
      * intros [= <- <-]. by destruct (connect_raises _ _ _ _ Hc).
Qed.

End ManagerExceptions.

(** The network is down when the directory is to be made. *)
Lemma manager_raises_its_own_exceptions_witness :
  ∃ st' e,
    create_deployment_directory Sim.cfg "demo" (Sim.start Sim.link_down_once)
    = (st', Raise e)
    ∧ (class_of e = ConnectionError ∨ class_of e = Exception).
Proof.
  assert (∃ st' e,
            create_deployment_directory Sim.cfg "demo" (Sim.start Sim.link_down_once)
            = (st', Raise e))
    as (st' & e & Hrun) by (eexists _, _; vm_compute; reflexivity).
  exists st', e. split; [exact Hrun |].
  destruct (manager_raises_its_own_exceptions Sim.cfg (Sim.start Sim.link_down_once) st' e)
    as (_ & _ & Hdir & _).
  exact (Hdir _ Hrun).
Defined.
